(** * SQLite to PostgreSQL migration script: model and verification

    Shallow embedding of [migrate_sqlite_to_postgres.py].  Pure helpers
    ([sqlite_type_to_postgres], [convert_value], the statement builders)
    are Rocq functions; the code that talks to the two databases runs in
    a small state-and-exception monad over an abstract backend, and keeps
    a trace of every call it makes. *)

From Stdlib Require Import ZArith Ascii String DecimalString List Lia.
From Stdlib Require Import Floats.SpecFloat.
From stdpp Require Import base option list strings gmap.

Local Open Scope string_scope.
Local Open Scope list_scope.

(** ** Unicode case mapping

    [str.upper()] replaces every code point by its upper-case mapping, which
    may be several code points long.  The table lists the code points that
    [str.upper()] changes, with what it puts in their place (Unicode 14.0,
    the data of CPython 3.11); every other code point is left as it is. *)
Module Unicode.

Definition upper_table : list (N * list N) :=
  [
    (97, [65]); (98, [66]); (99, [67]); (100, [68]); (101, [69]); (102, [70]);
    (103, [71]); (104, [72]); (105, [73]); (106, [74]); (107, [75]);
    (108, [76]); (109, [77]); (110, [78]); (111, [79]); (112, [80]);
    (113, [81]); (114, [82]); (115, [83]); (116, [84]); (117, [85]);
    (118, [86]); (119, [87]); (120, [88]); (121, [89]); (122, [90]);
    (181, [924]); (223, [83; 83]); (224, [192]); (225, [193]); (226, [194]);
    (227, [195]); (228, [196]); (229, [197]); (230, [198]); (231, [199]);
    (232, [200]); (233, [201]); (234, [202]); (235, [203]); (236, [204]);
    (237, [205]); (238, [206]); (239, [207]); (240, [208]); (241, [209]);
    (242, [210]); (243, [211]); (244, [212]); (245, [213]); (246, [214]);
    (248, [216]); (249, [217]); (250, [218]); (251, [219]); (252, [220]);
    (253, [221]); (254, [222]); (255, [376]); (257, [256]); (259, [258]);
    (261, [260]); (263, [262]); (265, [264]); (267, [266]); (269, [268]);
    (271, [270]); (273, [272]); (275, [274]); (277, [276]); (279, [278]);
    (281, [280]); (283, [282]); (285, [284]); (287, [286]); (289, [288]);
    (291, [290]); (293, [292]); (295, [294]); (297, [296]); (299, [298]);
    (301, [300]); (303, [302]); (305, [73]); (307, [306]); (309, [308]);
    (311, [310]); (314, [313]); (316, [315]); (318, [317]); (320, [319]);
    (322, [321]); (324, [323]); (326, [325]); (328, [327]); (329, [700; 78]);
    (331, [330]); (333, [332]); (335, [334]); (337, [336]); (339, [338]);
    (341, [340]); (343, [342]); (345, [344]); (347, [346]); (349, [348]);
    (351, [350]); (353, [352]); (355, [354]); (357, [356]); (359, [358]);
    (361, [360]); (363, [362]); (365, [364]); (367, [366]); (369, [368]);
    (371, [370]); (373, [372]); (375, [374]); (378, [377]); (380, [379]);
    (382, [381]); (383, [83]); (384, [579]); (387, [386]); (389, [388]);
    (392, [391]); (396, [395]); (402, [401]); (405, [502]); (409, [408]);
    (410, [573]); (414, [544]); (417, [416]); (419, [418]); (421, [420]);
    (424, [423]); (429, [428]); (432, [431]); (436, [435]); (438, [437]);
    (441, [440]); (445, [444]); (447, [503]); (453, [452]); (454, [452]);
    (456, [455]); (457, [455]); (459, [458]); (460, [458]); (462, [461]);
    (464, [463]); (466, [465]); (468, [467]); (470, [469]); (472, [471]);
    (474, [473]); (476, [475]); (477, [398]); (479, [478]); (481, [480]);
    (483, [482]); (485, [484]); (487, [486]); (489, [488]); (491, [490]);
    (493, [492]); (495, [494]); (496, [74; 780]); (498, [497]); (499, [497]);
    (501, [500]); (505, [504]); (507, [506]); (509, [508]); (511, [510]);
    (513, [512]); (515, [514]); (517, [516]); (519, [518]); (521, [520]);
    (523, [522]); (525, [524]); (527, [526]); (529, [528]); (531, [530]);
    (533, [532]); (535, [534]); (537, [536]); (539, [538]); (541, [540]);
    (543, [542]); (547, [546]); (549, [548]); (551, [550]); (553, [552]);
    (555, [554]); (557, [556]); (559, [558]); (561, [560]); (563, [562]);
    (572, [571]); (575, [11390]); (576, [11391]); (578, [577]); (583, [582]);
    (585, [584]); (587, [586]); (589, [588]); (591, [590]); (592, [11375]);
    (593, [11373]); (594, [11376]); (595, [385]); (596, [390]); (598, [393]);
    (599, [394]); (601, [399]); (603, [400]); (604, [42923]); (608, [403]);
    (609, [42924]); (611, [404]); (613, [42893]); (614, [42922]); (616, [407]);
    (617, [406]); (618, [42926]); (619, [11362]); (620, [42925]); (623, [412]);
    (625, [11374]); (626, [413]); (629, [415]); (637, [11364]); (640, [422]);
    (642, [42949]); (643, [425]); (647, [42929]); (648, [430]); (649, [580]);
    (650, [433]); (651, [434]); (652, [581]); (658, [439]); (669, [42930]);
    (670, [42928]); (837, [921]); (881, [880]); (883, [882]); (887, [886]);
    (891, [1021]); (892, [1022]); (893, [1023]); (912, [921; 776; 769]);
    (940, [902]); (941, [904]); (942, [905]); (943, [906]);
    (944, [933; 776; 769]); (945, [913]); (946, [914]); (947, [915]);
    (948, [916]); (949, [917]); (950, [918]); (951, [919]); (952, [920]);
    (953, [921]); (954, [922]); (955, [923]); (956, [924]); (957, [925]);
    (958, [926]); (959, [927]); (960, [928]); (961, [929]); (962, [931]);
    (963, [931]); (964, [932]); (965, [933]); (966, [934]); (967, [935]);
    (968, [936]); (969, [937]); (970, [938]); (971, [939]); (972, [908]);
    (973, [910]); (974, [911]); (976, [914]); (977, [920]); (981, [934]);
    (982, [928]); (983, [975]); (985, [984]); (987, [986]); (989, [988]);
    (991, [990]); (993, [992]); (995, [994]); (997, [996]); (999, [998]);
    (1001, [1000]); (1003, [1002]); (1005, [1004]); (1007, [1006]);
    (1008, [922]); (1009, [929]); (1010, [1017]); (1011, [895]); (1013, [917]);
    (1016, [1015]); (1019, [1018]); (1072, [1040]); (1073, [1041]);
    (1074, [1042]); (1075, [1043]); (1076, [1044]); (1077, [1045]);
    (1078, [1046]); (1079, [1047]); (1080, [1048]); (1081, [1049]);
    (1082, [1050]); (1083, [1051]); (1084, [1052]); (1085, [1053]);
    (1086, [1054]); (1087, [1055]); (1088, [1056]); (1089, [1057]);
    (1090, [1058]); (1091, [1059]); (1092, [1060]); (1093, [1061]);
    (1094, [1062]); (1095, [1063]); (1096, [1064]); (1097, [1065]);
    (1098, [1066]); (1099, [1067]); (1100, [1068]); (1101, [1069]);
    (1102, [1070]); (1103, [1071]); (1104, [1024]); (1105, [1025]);
    (1106, [1026]); (1107, [1027]); (1108, [1028]); (1109, [1029]);
    (1110, [1030]); (1111, [1031]); (1112, [1032]); (1113, [1033]);
    (1114, [1034]); (1115, [1035]); (1116, [1036]); (1117, [1037]);
    (1118, [1038]); (1119, [1039]); (1121, [1120]); (1123, [1122]);
    (1125, [1124]); (1127, [1126]); (1129, [1128]); (1131, [1130]);
    (1133, [1132]); (1135, [1134]); (1137, [1136]); (1139, [1138]);
    (1141, [1140]); (1143, [1142]); (1145, [1144]); (1147, [1146]);
    (1149, [1148]); (1151, [1150]); (1153, [1152]); (1163, [1162]);
    (1165, [1164]); (1167, [1166]); (1169, [1168]); (1171, [1170]);
    (1173, [1172]); (1175, [1174]); (1177, [1176]); (1179, [1178]);
    (1181, [1180]); (1183, [1182]); (1185, [1184]); (1187, [1186]);
    (1189, [1188]); (1191, [1190]); (1193, [1192]); (1195, [1194]);
    (1197, [1196]); (1199, [1198]); (1201, [1200]); (1203, [1202]);
    (1205, [1204]); (1207, [1206]); (1209, [1208]); (1211, [1210]);
    (1213, [1212]); (1215, [1214]); (1218, [1217]); (1220, [1219]);
    (1222, [1221]); (1224, [1223]); (1226, [1225]); (1228, [1227]);
    (1230, [1229]); (1231, [1216]); (1233, [1232]); (1235, [1234]);
    (1237, [1236]); (1239, [1238]); (1241, [1240]); (1243, [1242]);
    (1245, [1244]); (1247, [1246]); (1249, [1248]); (1251, [1250]);
    (1253, [1252]); (1255, [1254]); (1257, [1256]); (1259, [1258]);
    (1261, [1260]); (1263, [1262]); (1265, [1264]); (1267, [1266]);
    (1269, [1268]); (1271, [1270]); (1273, [1272]); (1275, [1274]);
    (1277, [1276]); (1279, [1278]); (1281, [1280]); (1283, [1282]);
    (1285, [1284]); (1287, [1286]); (1289, [1288]); (1291, [1290]);
    (1293, [1292]); (1295, [1294]); (1297, [1296]); (1299, [1298]);
    (1301, [1300]); (1303, [1302]); (1305, [1304]); (1307, [1306]);
    (1309, [1308]); (1311, [1310]); (1313, [1312]); (1315, [1314]);
    (1317, [1316]); (1319, [1318]); (1321, [1320]); (1323, [1322]);
    (1325, [1324]); (1327, [1326]); (1377, [1329]); (1378, [1330]);
    (1379, [1331]); (1380, [1332]); (1381, [1333]); (1382, [1334]);
    (1383, [1335]); (1384, [1336]); (1385, [1337]); (1386, [1338]);
    (1387, [1339]); (1388, [1340]); (1389, [1341]); (1390, [1342]);
    (1391, [1343]); (1392, [1344]); (1393, [1345]); (1394, [1346]);
    (1395, [1347]); (1396, [1348]); (1397, [1349]); (1398, [1350]);
    (1399, [1351]); (1400, [1352]); (1401, [1353]); (1402, [1354]);
    (1403, [1355]); (1404, [1356]); (1405, [1357]); (1406, [1358]);
    (1407, [1359]); (1408, [1360]); (1409, [1361]); (1410, [1362]);
    (1411, [1363]); (1412, [1364]); (1413, [1365]); (1414, [1366]);
    (1415, [1333; 1362]); (4304, [7312]); (4305, [7313]); (4306, [7314]);
    (4307, [7315]); (4308, [7316]); (4309, [7317]); (4310, [7318]);
    (4311, [7319]); (4312, [7320]); (4313, [7321]); (4314, [7322]);
    (4315, [7323]); (4316, [7324]); (4317, [7325]); (4318, [7326]);
    (4319, [7327]); (4320, [7328]); (4321, [7329]); (4322, [7330]);
    (4323, [7331]); (4324, [7332]); (4325, [7333]); (4326, [7334]);
    (4327, [7335]); (4328, [7336]); (4329, [7337]); (4330, [7338]);
    (4331, [7339]); (4332, [7340]); (4333, [7341]); (4334, [7342]);
    (4335, [7343]); (4336, [7344]); (4337, [7345]); (4338, [7346]);
    (4339, [7347]); (4340, [7348]); (4341, [7349]); (4342, [7350]);
    (4343, [7351]); (4344, [7352]); (4345, [7353]); (4346, [7354]);
    (4349, [7357]); (4350, [7358]); (4351, [7359]); (5112, [5104]);
    (5113, [5105]); (5114, [5106]); (5115, [5107]); (5116, [5108]);
    (5117, [5109]); (7296, [1042]); (7297, [1044]); (7298, [1054]);
    (7299, [1057]); (7300, [1058]); (7301, [1058]); (7302, [1066]);
    (7303, [1122]); (7304, [42570]); (7545, [42877]); (7549, [11363]);
    (7566, [42950]); (7681, [7680]); (7683, [7682]); (7685, [7684]);
    (7687, [7686]); (7689, [7688]); (7691, [7690]); (7693, [7692]);
    (7695, [7694]); (7697, [7696]); (7699, [7698]); (7701, [7700]);
    (7703, [7702]); (7705, [7704]); (7707, [7706]); (7709, [7708]);
    (7711, [7710]); (7713, [7712]); (7715, [7714]); (7717, [7716]);
    (7719, [7718]); (7721, [7720]); (7723, [7722]); (7725, [7724]);
    (7727, [7726]); (7729, [7728]); (7731, [7730]); (7733, [7732]);
    (7735, [7734]); (7737, [7736]); (7739, [7738]); (7741, [7740]);
    (7743, [7742]); (7745, [7744]); (7747, [7746]); (7749, [7748]);
    (7751, [7750]); (7753, [7752]); (7755, [7754]); (7757, [7756]);
    (7759, [7758]); (7761, [7760]); (7763, [7762]); (7765, [7764]);
    (7767, [7766]); (7769, [7768]); (7771, [7770]); (7773, [7772]);
    (7775, [7774]); (7777, [7776]); (7779, [7778]); (7781, [7780]);
    (7783, [7782]); (7785, [7784]); (7787, [7786]); (7789, [7788]);
    (7791, [7790]); (7793, [7792]); (7795, [7794]); (7797, [7796]);
    (7799, [7798]); (7801, [7800]); (7803, [7802]); (7805, [7804]);
    (7807, [7806]); (7809, [7808]); (7811, [7810]); (7813, [7812]);
    (7815, [7814]); (7817, [7816]); (7819, [7818]); (7821, [7820]);
    (7823, [7822]); (7825, [7824]); (7827, [7826]); (7829, [7828]);
    (7830, [72; 817]); (7831, [84; 776]); (7832, [87; 778]); (7833, [89; 778]);
    (7834, [65; 702]); (7835, [7776]); (7841, [7840]); (7843, [7842]);
    (7845, [7844]); (7847, [7846]); (7849, [7848]); (7851, [7850]);
    (7853, [7852]); (7855, [7854]); (7857, [7856]); (7859, [7858]);
    (7861, [7860]); (7863, [7862]); (7865, [7864]); (7867, [7866]);
    (7869, [7868]); (7871, [7870]); (7873, [7872]); (7875, [7874]);
    (7877, [7876]); (7879, [7878]); (7881, [7880]); (7883, [7882]);
    (7885, [7884]); (7887, [7886]); (7889, [7888]); (7891, [7890]);
    (7893, [7892]); (7895, [7894]); (7897, [7896]); (7899, [7898]);
    (7901, [7900]); (7903, [7902]); (7905, [7904]); (7907, [7906]);
    (7909, [7908]); (7911, [7910]); (7913, [7912]); (7915, [7914]);
    (7917, [7916]); (7919, [7918]); (7921, [7920]); (7923, [7922]);
    (7925, [7924]); (7927, [7926]); (7929, [7928]); (7931, [7930]);
    (7933, [7932]); (7935, [7934]); (7936, [7944]); (7937, [7945]);
    (7938, [7946]); (7939, [7947]); (7940, [7948]); (7941, [7949]);
    (7942, [7950]); (7943, [7951]); (7952, [7960]); (7953, [7961]);
    (7954, [7962]); (7955, [7963]); (7956, [7964]); (7957, [7965]);
    (7968, [7976]); (7969, [7977]); (7970, [7978]); (7971, [7979]);
    (7972, [7980]); (7973, [7981]); (7974, [7982]); (7975, [7983]);
    (7984, [7992]); (7985, [7993]); (7986, [7994]); (7987, [7995]);
    (7988, [7996]); (7989, [7997]); (7990, [7998]); (7991, [7999]);
    (8000, [8008]); (8001, [8009]); (8002, [8010]); (8003, [8011]);
    (8004, [8012]); (8005, [8013]); (8016, [933; 787]); (8017, [8025]);
    (8018, [933; 787; 768]); (8019, [8027]); (8020, [933; 787; 769]);
    (8021, [8029]); (8022, [933; 787; 834]); (8023, [8031]); (8032, [8040]);
    (8033, [8041]); (8034, [8042]); (8035, [8043]); (8036, [8044]);
    (8037, [8045]); (8038, [8046]); (8039, [8047]); (8048, [8122]);
    (8049, [8123]); (8050, [8136]); (8051, [8137]); (8052, [8138]);
    (8053, [8139]); (8054, [8154]); (8055, [8155]); (8056, [8184]);
    (8057, [8185]); (8058, [8170]); (8059, [8171]); (8060, [8186]);
    (8061, [8187]); (8064, [7944; 921]); (8065, [7945; 921]);
    (8066, [7946; 921]); (8067, [7947; 921]); (8068, [7948; 921]);
    (8069, [7949; 921]); (8070, [7950; 921]); (8071, [7951; 921]);
    (8072, [7944; 921]); (8073, [7945; 921]); (8074, [7946; 921]);
    (8075, [7947; 921]); (8076, [7948; 921]); (8077, [7949; 921]);
    (8078, [7950; 921]); (8079, [7951; 921]); (8080, [7976; 921]);
    (8081, [7977; 921]); (8082, [7978; 921]); (8083, [7979; 921]);
    (8084, [7980; 921]); (8085, [7981; 921]); (8086, [7982; 921]);
    (8087, [7983; 921]); (8088, [7976; 921]); (8089, [7977; 921]);
    (8090, [7978; 921]); (8091, [7979; 921]); (8092, [7980; 921]);
    (8093, [7981; 921]); (8094, [7982; 921]); (8095, [7983; 921]);
    (8096, [8040; 921]); (8097, [8041; 921]); (8098, [8042; 921]);
    (8099, [8043; 921]); (8100, [8044; 921]); (8101, [8045; 921]);
    (8102, [8046; 921]); (8103, [8047; 921]); (8104, [8040; 921]);
    (8105, [8041; 921]); (8106, [8042; 921]); (8107, [8043; 921]);
    (8108, [8044; 921]); (8109, [8045; 921]); (8110, [8046; 921]);
    (8111, [8047; 921]); (8112, [8120]); (8113, [8121]); (8114, [8122; 921]);
    (8115, [913; 921]); (8116, [902; 921]); (8118, [913; 834]);
    (8119, [913; 834; 921]); (8124, [913; 921]); (8126, [921]);
    (8130, [8138; 921]); (8131, [919; 921]); (8132, [905; 921]);
    (8134, [919; 834]); (8135, [919; 834; 921]); (8140, [919; 921]);
    (8144, [8152]); (8145, [8153]); (8146, [921; 776; 768]);
    (8147, [921; 776; 769]); (8150, [921; 834]); (8151, [921; 776; 834]);
    (8160, [8168]); (8161, [8169]); (8162, [933; 776; 768]);
    (8163, [933; 776; 769]); (8164, [929; 787]); (8165, [8172]);
    (8166, [933; 834]); (8167, [933; 776; 834]); (8178, [8186; 921]);
    (8179, [937; 921]); (8180, [911; 921]); (8182, [937; 834]);
    (8183, [937; 834; 921]); (8188, [937; 921]); (8526, [8498]);
    (8560, [8544]); (8561, [8545]); (8562, [8546]); (8563, [8547]);
    (8564, [8548]); (8565, [8549]); (8566, [8550]); (8567, [8551]);
    (8568, [8552]); (8569, [8553]); (8570, [8554]); (8571, [8555]);
    (8572, [8556]); (8573, [8557]); (8574, [8558]); (8575, [8559]);
    (8580, [8579]); (9424, [9398]); (9425, [9399]); (9426, [9400]);
    (9427, [9401]); (9428, [9402]); (9429, [9403]); (9430, [9404]);
    (9431, [9405]); (9432, [9406]); (9433, [9407]); (9434, [9408]);
    (9435, [9409]); (9436, [9410]); (9437, [9411]); (9438, [9412]);
    (9439, [9413]); (9440, [9414]); (9441, [9415]); (9442, [9416]);
    (9443, [9417]); (9444, [9418]); (9445, [9419]); (9446, [9420]);
    (9447, [9421]); (9448, [9422]); (9449, [9423]); (11312, [11264]);
    (11313, [11265]); (11314, [11266]); (11315, [11267]); (11316, [11268]);
    (11317, [11269]); (11318, [11270]); (11319, [11271]); (11320, [11272]);
    (11321, [11273]); (11322, [11274]); (11323, [11275]); (11324, [11276]);
    (11325, [11277]); (11326, [11278]); (11327, [11279]); (11328, [11280]);
    (11329, [11281]); (11330, [11282]); (11331, [11283]); (11332, [11284]);
    (11333, [11285]); (11334, [11286]); (11335, [11287]); (11336, [11288]);
    (11337, [11289]); (11338, [11290]); (11339, [11291]); (11340, [11292]);
    (11341, [11293]); (11342, [11294]); (11343, [11295]); (11344, [11296]);
    (11345, [11297]); (11346, [11298]); (11347, [11299]); (11348, [11300]);
    (11349, [11301]); (11350, [11302]); (11351, [11303]); (11352, [11304]);
    (11353, [11305]); (11354, [11306]); (11355, [11307]); (11356, [11308]);
    (11357, [11309]); (11358, [11310]); (11359, [11311]); (11361, [11360]);
    (11365, [570]); (11366, [574]); (11368, [11367]); (11370, [11369]);
    (11372, [11371]); (11379, [11378]); (11382, [11381]); (11393, [11392]);
    (11395, [11394]); (11397, [11396]); (11399, [11398]); (11401, [11400]);
    (11403, [11402]); (11405, [11404]); (11407, [11406]); (11409, [11408]);
    (11411, [11410]); (11413, [11412]); (11415, [11414]); (11417, [11416]);
    (11419, [11418]); (11421, [11420]); (11423, [11422]); (11425, [11424]);
    (11427, [11426]); (11429, [11428]); (11431, [11430]); (11433, [11432]);
    (11435, [11434]); (11437, [11436]); (11439, [11438]); (11441, [11440]);
    (11443, [11442]); (11445, [11444]); (11447, [11446]); (11449, [11448]);
    (11451, [11450]); (11453, [11452]); (11455, [11454]); (11457, [11456]);
    (11459, [11458]); (11461, [11460]); (11463, [11462]); (11465, [11464]);
    (11467, [11466]); (11469, [11468]); (11471, [11470]); (11473, [11472]);
    (11475, [11474]); (11477, [11476]); (11479, [11478]); (11481, [11480]);
    (11483, [11482]); (11485, [11484]); (11487, [11486]); (11489, [11488]);
    (11491, [11490]); (11500, [11499]); (11502, [11501]); (11507, [11506]);
    (11520, [4256]); (11521, [4257]); (11522, [4258]); (11523, [4259]);
    (11524, [4260]); (11525, [4261]); (11526, [4262]); (11527, [4263]);
    (11528, [4264]); (11529, [4265]); (11530, [4266]); (11531, [4267]);
    (11532, [4268]); (11533, [4269]); (11534, [4270]); (11535, [4271]);
    (11536, [4272]); (11537, [4273]); (11538, [4274]); (11539, [4275]);
    (11540, [4276]); (11541, [4277]); (11542, [4278]); (11543, [4279]);
    (11544, [4280]); (11545, [4281]); (11546, [4282]); (11547, [4283]);
    (11548, [4284]); (11549, [4285]); (11550, [4286]); (11551, [4287]);
    (11552, [4288]); (11553, [4289]); (11554, [4290]); (11555, [4291]);
    (11556, [4292]); (11557, [4293]); (11559, [4295]); (11565, [4301]);
    (42561, [42560]); (42563, [42562]); (42565, [42564]); (42567, [42566]);
    (42569, [42568]); (42571, [42570]); (42573, [42572]); (42575, [42574]);
    (42577, [42576]); (42579, [42578]); (42581, [42580]); (42583, [42582]);
    (42585, [42584]); (42587, [42586]); (42589, [42588]); (42591, [42590]);
    (42593, [42592]); (42595, [42594]); (42597, [42596]); (42599, [42598]);
    (42601, [42600]); (42603, [42602]); (42605, [42604]); (42625, [42624]);
    (42627, [42626]); (42629, [42628]); (42631, [42630]); (42633, [42632]);
    (42635, [42634]); (42637, [42636]); (42639, [42638]); (42641, [42640]);
    (42643, [42642]); (42645, [42644]); (42647, [42646]); (42649, [42648]);
    (42651, [42650]); (42787, [42786]); (42789, [42788]); (42791, [42790]);
    (42793, [42792]); (42795, [42794]); (42797, [42796]); (42799, [42798]);
    (42803, [42802]); (42805, [42804]); (42807, [42806]); (42809, [42808]);
    (42811, [42810]); (42813, [42812]); (42815, [42814]); (42817, [42816]);
    (42819, [42818]); (42821, [42820]); (42823, [42822]); (42825, [42824]);
    (42827, [42826]); (42829, [42828]); (42831, [42830]); (42833, [42832]);
    (42835, [42834]); (42837, [42836]); (42839, [42838]); (42841, [42840]);
    (42843, [42842]); (42845, [42844]); (42847, [42846]); (42849, [42848]);
    (42851, [42850]); (42853, [42852]); (42855, [42854]); (42857, [42856]);
    (42859, [42858]); (42861, [42860]); (42863, [42862]); (42874, [42873]);
    (42876, [42875]); (42879, [42878]); (42881, [42880]); (42883, [42882]);
    (42885, [42884]); (42887, [42886]); (42892, [42891]); (42897, [42896]);
    (42899, [42898]); (42900, [42948]); (42903, [42902]); (42905, [42904]);
    (42907, [42906]); (42909, [42908]); (42911, [42910]); (42913, [42912]);
    (42915, [42914]); (42917, [42916]); (42919, [42918]); (42921, [42920]);
    (42933, [42932]); (42935, [42934]); (42937, [42936]); (42939, [42938]);
    (42941, [42940]); (42943, [42942]); (42945, [42944]); (42947, [42946]);
    (42952, [42951]); (42954, [42953]); (42961, [42960]); (42967, [42966]);
    (42969, [42968]); (42998, [42997]); (43859, [42931]); (43888, [5024]);
    (43889, [5025]); (43890, [5026]); (43891, [5027]); (43892, [5028]);
    (43893, [5029]); (43894, [5030]); (43895, [5031]); (43896, [5032]);
    (43897, [5033]); (43898, [5034]); (43899, [5035]); (43900, [5036]);
    (43901, [5037]); (43902, [5038]); (43903, [5039]); (43904, [5040]);
    (43905, [5041]); (43906, [5042]); (43907, [5043]); (43908, [5044]);
    (43909, [5045]); (43910, [5046]); (43911, [5047]); (43912, [5048]);
    (43913, [5049]); (43914, [5050]); (43915, [5051]); (43916, [5052]);
    (43917, [5053]); (43918, [5054]); (43919, [5055]); (43920, [5056]);
    (43921, [5057]); (43922, [5058]); (43923, [5059]); (43924, [5060]);
    (43925, [5061]); (43926, [5062]); (43927, [5063]); (43928, [5064]);
    (43929, [5065]); (43930, [5066]); (43931, [5067]); (43932, [5068]);
    (43933, [5069]); (43934, [5070]); (43935, [5071]); (43936, [5072]);
    (43937, [5073]); (43938, [5074]); (43939, [5075]); (43940, [5076]);
    (43941, [5077]); (43942, [5078]); (43943, [5079]); (43944, [5080]);
    (43945, [5081]); (43946, [5082]); (43947, [5083]); (43948, [5084]);
    (43949, [5085]); (43950, [5086]); (43951, [5087]); (43952, [5088]);
    (43953, [5089]); (43954, [5090]); (43955, [5091]); (43956, [5092]);
    (43957, [5093]); (43958, [5094]); (43959, [5095]); (43960, [5096]);
    (43961, [5097]); (43962, [5098]); (43963, [5099]); (43964, [5100]);
    (43965, [5101]); (43966, [5102]); (43967, [5103]); (64256, [70; 70]);
    (64257, [70; 73]); (64258, [70; 76]); (64259, [70; 70; 73]);
    (64260, [70; 70; 76]); (64261, [83; 84]); (64262, [83; 84]);
    (64275, [1348; 1350]); (64276, [1348; 1333]); (64277, [1348; 1339]);
    (64278, [1358; 1350]); (64279, [1348; 1341]); (65345, [65313]);
    (65346, [65314]); (65347, [65315]); (65348, [65316]); (65349, [65317]);
    (65350, [65318]); (65351, [65319]); (65352, [65320]); (65353, [65321]);
    (65354, [65322]); (65355, [65323]); (65356, [65324]); (65357, [65325]);
    (65358, [65326]); (65359, [65327]); (65360, [65328]); (65361, [65329]);
    (65362, [65330]); (65363, [65331]); (65364, [65332]); (65365, [65333]);
    (65366, [65334]); (65367, [65335]); (65368, [65336]); (65369, [65337]);
    (65370, [65338]); (66600, [66560]); (66601, [66561]); (66602, [66562]);
    (66603, [66563]); (66604, [66564]); (66605, [66565]); (66606, [66566]);
    (66607, [66567]); (66608, [66568]); (66609, [66569]); (66610, [66570]);
    (66611, [66571]); (66612, [66572]); (66613, [66573]); (66614, [66574]);
    (66615, [66575]); (66616, [66576]); (66617, [66577]); (66618, [66578]);
    (66619, [66579]); (66620, [66580]); (66621, [66581]); (66622, [66582]);
    (66623, [66583]); (66624, [66584]); (66625, [66585]); (66626, [66586]);
    (66627, [66587]); (66628, [66588]); (66629, [66589]); (66630, [66590]);
    (66631, [66591]); (66632, [66592]); (66633, [66593]); (66634, [66594]);
    (66635, [66595]); (66636, [66596]); (66637, [66597]); (66638, [66598]);
    (66639, [66599]); (66776, [66736]); (66777, [66737]); (66778, [66738]);
    (66779, [66739]); (66780, [66740]); (66781, [66741]); (66782, [66742]);
    (66783, [66743]); (66784, [66744]); (66785, [66745]); (66786, [66746]);
    (66787, [66747]); (66788, [66748]); (66789, [66749]); (66790, [66750]);
    (66791, [66751]); (66792, [66752]); (66793, [66753]); (66794, [66754]);
    (66795, [66755]); (66796, [66756]); (66797, [66757]); (66798, [66758]);
    (66799, [66759]); (66800, [66760]); (66801, [66761]); (66802, [66762]);
    (66803, [66763]); (66804, [66764]); (66805, [66765]); (66806, [66766]);
    (66807, [66767]); (66808, [66768]); (66809, [66769]); (66810, [66770]);
    (66811, [66771]); (66967, [66928]); (66968, [66929]); (66969, [66930]);
    (66970, [66931]); (66971, [66932]); (66972, [66933]); (66973, [66934]);
    (66974, [66935]); (66975, [66936]); (66976, [66937]); (66977, [66938]);
    (66979, [66940]); (66980, [66941]); (66981, [66942]); (66982, [66943]);
    (66983, [66944]); (66984, [66945]); (66985, [66946]); (66986, [66947]);
    (66987, [66948]); (66988, [66949]); (66989, [66950]); (66990, [66951]);
    (66991, [66952]); (66992, [66953]); (66993, [66954]); (66995, [66956]);
    (66996, [66957]); (66997, [66958]); (66998, [66959]); (66999, [66960]);
    (67000, [66961]); (67001, [66962]); (67003, [66964]); (67004, [66965]);
    (68800, [68736]); (68801, [68737]); (68802, [68738]); (68803, [68739]);
    (68804, [68740]); (68805, [68741]); (68806, [68742]); (68807, [68743]);
    (68808, [68744]); (68809, [68745]); (68810, [68746]); (68811, [68747]);
    (68812, [68748]); (68813, [68749]); (68814, [68750]); (68815, [68751]);
    (68816, [68752]); (68817, [68753]); (68818, [68754]); (68819, [68755]);
    (68820, [68756]); (68821, [68757]); (68822, [68758]); (68823, [68759]);
    (68824, [68760]); (68825, [68761]); (68826, [68762]); (68827, [68763]);
    (68828, [68764]); (68829, [68765]); (68830, [68766]); (68831, [68767]);
    (68832, [68768]); (68833, [68769]); (68834, [68770]); (68835, [68771]);
    (68836, [68772]); (68837, [68773]); (68838, [68774]); (68839, [68775]);
    (68840, [68776]); (68841, [68777]); (68842, [68778]); (68843, [68779]);
    (68844, [68780]); (68845, [68781]); (68846, [68782]); (68847, [68783]);
    (68848, [68784]); (68849, [68785]); (68850, [68786]); (71872, [71840]);
    (71873, [71841]); (71874, [71842]); (71875, [71843]); (71876, [71844]);
    (71877, [71845]); (71878, [71846]); (71879, [71847]); (71880, [71848]);
    (71881, [71849]); (71882, [71850]); (71883, [71851]); (71884, [71852]);
    (71885, [71853]); (71886, [71854]); (71887, [71855]); (71888, [71856]);
    (71889, [71857]); (71890, [71858]); (71891, [71859]); (71892, [71860]);
    (71893, [71861]); (71894, [71862]); (71895, [71863]); (71896, [71864]);
    (71897, [71865]); (71898, [71866]); (71899, [71867]); (71900, [71868]);
    (71901, [71869]); (71902, [71870]); (71903, [71871]); (93792, [93760]);
    (93793, [93761]); (93794, [93762]); (93795, [93763]); (93796, [93764]);
    (93797, [93765]); (93798, [93766]); (93799, [93767]); (93800, [93768]);
    (93801, [93769]); (93802, [93770]); (93803, [93771]); (93804, [93772]);
    (93805, [93773]); (93806, [93774]); (93807, [93775]); (93808, [93776]);
    (93809, [93777]); (93810, [93778]); (93811, [93779]); (93812, [93780]);
    (93813, [93781]); (93814, [93782]); (93815, [93783]); (93816, [93784]);
    (93817, [93785]); (93818, [93786]); (93819, [93787]); (93820, [93788]);
    (93821, [93789]); (93822, [93790]); (93823, [93791]); (125218, [125184]);
    (125219, [125185]); (125220, [125186]); (125221, [125187]);
    (125222, [125188]); (125223, [125189]); (125224, [125190]);
    (125225, [125191]); (125226, [125192]); (125227, [125193]);
    (125228, [125194]); (125229, [125195]); (125230, [125196]);
    (125231, [125197]); (125232, [125198]); (125233, [125199]);
    (125234, [125200]); (125235, [125201]); (125236, [125202]);
    (125237, [125203]); (125238, [125204]); (125239, [125205]);
    (125240, [125206]); (125241, [125207]); (125242, [125208]);
    (125243, [125209]); (125244, [125210]); (125245, [125211]);
    (125246, [125212]); (125247, [125213]); (125248, [125214]);
    (125249, [125215]); (125250, [125216]); (125251, [125217])
  ]%N.

Fixpoint assoc (cp : N) (table : list (N * list N)) : option (list N) :=
  match table with
  | [] => None
  | (k, v) :: table' => if (k =? cp)%N then Some v else assoc cp table'
  end.

(** [chr(cp).upper()], as code points. *)
Definition upper_cp (cp : N) : list N :=
  match assoc cp upper_table with
  | Some u => u
  | None => [cp]
  end.

Definition byte (n : N) : ascii := ascii_of_N n.

Definition code (c : ascii) : N := N_of_ascii c.

(** A continuation byte of UTF-8: [10xxxxxx]. *)
Definition is_cont (c : ascii) : bool :=
  ((128 <=? code c) && (code c <? 192))%N.

(** The UTF-8 encoding of a code point. *)
Definition encode (cp : N) : string :=
  (if cp <? 128 then String (byte cp) EmptyString
   else if cp <? 2048 then
     String (byte (192 + cp / 64))
       (String (byte (128 + cp mod 64)) EmptyString)
   else if cp <? 65536 then
     String (byte (224 + cp / 4096))
       (String (byte (128 + (cp / 64) mod 64))
          (String (byte (128 + cp mod 64)) EmptyString))
   else
     String (byte (240 + cp / 262144))
       (String (byte (128 + (cp / 4096) mod 64))
          (String (byte (128 + (cp / 64) mod 64))
             (String (byte (128 + cp mod 64)) EmptyString))))%N.

Fixpoint encode_all (cps : list N) : string :=
  match cps with
  | [] => EmptyString
  | cp :: cps' => encode cp +:+ encode_all cps'
  end.

(** The code point that starts with byte [c] followed by [rest], and the
    number of continuation bytes it takes from [rest]; [None] when the
    bytes are not the encoding of a code point. *)
Definition decode_at (c : ascii) (rest : string) : option (N * nat) :=
  let n := code c in
  (if n <? 128 then Some (n, 0%nat)
   else if (194 <=? n) && (n <? 224) then
     match rest with
     | String c1 _ =>
         if is_cont c1
         then Some ((n - 192) * 64 + (code c1 - 128), 1%nat)
         else None
     | _ => None
     end
   else if (224 <=? n) && (n <? 240) then
     match rest with
     | String c1 (String c2 _) =>
         if is_cont c1 && is_cont c2
         then Some (((n - 224) * 64 + (code c1 - 128)) * 64
                    + (code c2 - 128), 2%nat)
         else None
     | _ => None
     end
   else if (240 <=? n) && (n <? 245) then
     match rest with
     | String c1 (String c2 (String c3 _)) =>
         if is_cont c1 && is_cont c2 && is_cont c3
         then Some ((((n - 240) * 64 + (code c1 - 128)) * 64
                     + (code c2 - 128)) * 64 + (code c3 - 128), 3%nat)
         else None
     | _ => None
     end
   else None)%N.

Fixpoint drop_bytes (k : nat) (s : string) : string :=
  match k, s with
  | S k', String _ s' => drop_bytes k' s'
  | _, _ => s
  end.

(** Upper-casing of a UTF-8 string, one code point after the other; a byte
    that starts no code point is copied.  [fuel] bounds the number of code
    points. *)
Fixpoint upper_fuel (fuel : nat) (s : string) : string :=
  match fuel, s with
  | S fuel', String c rest =>
      match decode_at c rest with
      | Some (cp, k) =>
          encode_all (upper_cp cp) +:+ upper_fuel fuel' (drop_bytes k rest)
      | None => String c (upper_fuel fuel' rest)
      end
  | _, _ => EmptyString
  end.

End Unicode.

(** ** Python strings

    A [str] is modelled by its UTF-8 encoding, a [string] of bytes.
    [str.upper] is the Unicode upper-casing of the section above.
    [str.lower] is only used to test whether the result is one of the
    words true, 1, yes, t and y.  The only code points outside ASCII whose
    lower-casing holds an ASCII character are U+0130 (an i followed by
    U+0307) and U+212A (a k), neither of which occurs in these words, so
    that such a test gives the same answer when [lower] acts on the ASCII
    letters only, as it does here. *)
Module PyStr.

Definition is_upper (c : ascii) : bool :=
  ((65 <=? nat_of_ascii c) && (nat_of_ascii c <=? 90))%nat.

Definition is_lower (c : ascii) : bool :=
  ((97 <=? nat_of_ascii c) && (nat_of_ascii c <=? 122))%nat.

Definition upper_char (c : ascii) : ascii :=
  if is_lower c then ascii_of_nat (nat_of_ascii c - 32) else c.

Definition lower_char (c : ascii) : ascii :=
  if is_upper c then ascii_of_nat (nat_of_ascii c + 32) else c.

(** Upper-casing of the ASCII letters only. *)
Fixpoint ascii_upper (s : string) : string :=
  match s with
  | EmptyString => EmptyString
  | String c s' => String (upper_char c) (ascii_upper s')
  end.

(** [s.upper()] *)
Definition upper (s : string) : string :=
  Unicode.upper_fuel (String.length s) s.

(** Every character of [s] is an ASCII character. *)
Fixpoint ascii_only (s : string) : bool :=
  match s with
  | EmptyString => true
  | String c s' => (nat_of_ascii c <? 128)%nat && ascii_only s'
  end.

(** [s.lower()] *)
Fixpoint lower (s : string) : string :=
  match s with
  | EmptyString => EmptyString
  | String c s' => String (lower_char c) (lower s')
  end.

(** [key in s] on two strings: substring test. *)
Fixpoint contains (key s : string) : bool :=
  String.prefix key s ||
  match s with
  | EmptyString => false
  | String _ s' => contains key s'
  end.

(** [x in (a, b, ...)] on a tuple or list of strings. *)
Fixpoint mem (x : string) (l : list string) : bool :=
  match l with
  | [] => false
  | y :: l' => String.eqb x y || mem x l'
  end.

(** [sep.join(l)] *)
Definition join (sep : string) (l : list string) : string :=
  String.concat sep l.

(** [str(n)] for a non-negative integer such as [len(rows)]. *)
Definition of_nat (n : nat) : string :=
  NilEmpty.string_of_uint (Nat.to_uint n).

Definition of_N (n : N) : string :=
  NilEmpty.string_of_uint (N.to_uint n).

(** Two characters that differ at most by the case of an ASCII letter. *)
Definition same_letter (a b : ascii) : Prop :=
  a = b \/ (is_upper a = true /\ b = lower_char a)
        \/ (is_upper b = true /\ a = lower_char b).

(** Equality of strings up to the case of ASCII letters, character by
    character. *)
Fixpoint eq_nocase (s t : string) : Prop :=
  match s, t with
  | EmptyString, EmptyString => True
  | String a s', String b t' => same_letter a b /\ eq_nocase s' t'
  | _, _ => False
  end.

(** [key] occurs in [s] as a contiguous run of characters. *)
Definition occurs_in (key s : string) : Prop :=
  exists pre post, s = pre +:+ key +:+ post.

End PyStr.

(** ** Type mapper *)

(** The dict literal [type_mapping]; Python dicts iterate in insertion
    order, so the literal is kept as an ordered list of pairs. *)
Definition type_mapping : list (string * string) :=
  [ ("INTEGER", "INTEGER");
    ("TEXT", "TEXT");
    ("REAL", "REAL");
    ("BLOB", "BYTEA");
    ("NUMERIC", "NUMERIC");
    ("VARCHAR", "VARCHAR");
    ("DATETIME", "TIMESTAMP");
    ("DATE", "DATE");
    ("TIME", "TIME");
    ("BOOLEAN", "BOOLEAN");
    ("JSON", "JSONB") ].

(** The loop [for key in type_mapping: if key in sqlite_type_upper: return
    type_mapping[key]], followed by [return 'TEXT']. *)
Fixpoint scan_mapping (m : list (string * string)) (sqlite_type_upper : string)
  : string :=
  match m with
  | [] => "TEXT"
  | (key, pg) :: m' =>
      if PyStr.contains key sqlite_type_upper then pg
      else scan_mapping m' sqlite_type_upper
  end.

Definition sqlite_type_to_postgres (sqlite_type : string) : string :=
  let sqlite_type_upper := PyStr.upper sqlite_type in
  scan_mapping type_mapping sqlite_type_upper.

(** ** Python values *)

Record date := mk_date { year : Z; month : Z; day : Z }.
Record time := mk_time { hour : Z; minute : Z; second : Z; microsecond : Z }.
Record datetime := mk_datetime { dt_date : date; dt_time : time }.

(** The values a cell can hold: what [sqlite3] hands out ([None], [int],
    [float], [str], [bytes]) and what [convert_value] can build from them
    ([bool], [datetime], [date], [time]).  A [float] is an IEEE-754 binary64
    number, kept in the representation of [SpecFloat]. *)
Inductive pyval :=
| VNone
| VBool (b : bool)
| VInt (n : Z)
| VFloat (f : spec_float)
| VStr (s : string)
| VBytes (b : list Byte.byte)
| VDatetime (d : datetime)
| VDate (d : date)
| VTime (t : time).

(** [isinstance(value, (int, float))]; [bool] is a subclass of [int]. *)
Definition is_int_or_float (v : pyval) : bool :=
  match v with
  | VBool _ | VInt _ | VFloat _ => true
  | _ => false
  end.

(** [bool(value)] *)
Definition truthy (v : pyval) : bool :=
  match v with
  | VNone => false
  | VBool b => b
  | VInt n => negb (n =? 0)%Z
  | VFloat (S754_zero _) => false
  | VFloat _ => true
  | VStr s => match s with EmptyString => false | String _ _ => true end
  | VBytes b => match b with [] => false | _ => true end
  | VDatetime _ | VDate _ | VTime _ => true
  end.

(** ** Exceptions *)

Inductive exn_class :=
| SqliteError          (* sqlite3.Error and its subclasses *)
| Psycopg2Error        (* psycopg2.Error and its subclasses *)
| UnboundLocalError    (* reading a local that was never assigned *)
| OtherException.      (* any other subclass of Exception *)

(** What a library call hands back: a value, or an instance of some
    subclass of [Exception] with its message. *)
Inductive outcome (A : Type) :=
| Returned (a : A)
| Raised (c : exn_class) (msg : string).
Arguments Returned {A} a.
Arguments Raised {A} c msg.

(** What travels up the stack of the script: an [Exception], or the
    [SystemExit] of [sys.exit]. *)
Inductive exn :=
| Exn (c : exn_class) (msg : string)
| SystemExit (code : Z).

Inductive res (A : Type) :=
| Ok (a : A)
| Raise (e : exn).
Arguments Ok {A} a.
Arguments Raise {A} e.

Definition res_of_outcome {A} (o : outcome A) : res A :=
  match o with
  | Returned a => Ok a
  | Raised c msg => Raise (Exn c msg)
  end.

(** ** Value converter *)

Section Converter.

(** [datetime.fromtimestamp(value / 1000.0)] for a numeric [value]: the
    result is a naive local [datetime]; the call raises when the division
    overflows or the instant is outside the range the platform supports.
    The time zone and the platform limits are not part of the script, so
    the call is a parameter of the model. *)
Variable fromtimestamp_ms : pyval -> outcome datetime.

Definition convert_value (value : pyval) (pg_type : string) : res pyval :=
  match value with
  | VNone => Ok VNone
  | _ =>
    if String.eqb pg_type "boolean" then
      if is_int_or_float value then Ok (VBool (truthy value))
      else match value with
           | VStr s =>
               Ok (VBool (PyStr.mem (PyStr.lower s) ["true"; "1"; "yes"; "t"]))
           | _ => Ok (VBool (truthy value))
           end
    else if PyStr.mem pg_type
              ["timestamp without time zone"; "timestamp with time zone"] then
      if is_int_or_float value then
        match fromtimestamp_ms value with
        | Returned d => Ok (VDatetime d)
        | Raised _ _ => Ok value         (* bare [except: return value] *)
        end
      else Ok value
    else if String.eqb pg_type "date" then
      if is_int_or_float value then
        match fromtimestamp_ms value with
        | Returned d => Ok (VDate (dt_date d))
        | Raised _ _ => Ok value
        end
      else Ok value
    else if String.eqb pg_type "time without time zone" then
      if is_int_or_float value then
        match fromtimestamp_ms value with
        | Returned d => Ok (VTime (dt_time d))
        | Raised _ _ => Ok value
        end
      else Ok value
    else Ok value
  end.

End Converter.

(** ** Introspected schema *)

(** One row of [PRAGMA table_info]: the tuple
    [(col_id, col_name, col_type, not_null, default_val, pk)]. *)
Record column_info := mk_column_info {
  col_id : Z;
  col_name : string;
  col_type : string;
  not_null : Z;
  default_val : option string;
  pk : Z
}.

(** The module-level dict [PG_CONFIG]. *)
Record pg_config := mk_pg_config {
  host : string;
  port : N;
  database : string;
  user : string;
  password : string
}.

Definition PG_CONFIG : pg_config :=
  {| host := "localhost";
     port := 5432;
     database := "dbname";
     user := "dbname_user";
     password := "1234" |}.

(** ** Calls to the outside world *)

(** How a call ended. *)
Inductive status :=
| Done
| Failed (c : exn_class) (msg : string).

Definition status_of {A} (o : outcome A) : status :=
  match o with
  | Returned _ => Done
  | Raised c msg => Failed c msg
  end.

(** Every call the script makes to the console or to a database driver, in
    the order it makes them, with the way the call ended. *)
Inductive event :=
| EvPrint (line : string)
| EvInput (prompt : string)
| EvSqliteConnect (path : string) (st : status)
| EvPgConnect (cfg : pg_config) (st : status)
| EvSqliteExecute (sql : string) (st : status)
| EvPgExecute (sql : string) (st : status)
| EvPgExecutemany (sql : string) (params : list (list pyval)) (st : status)
| EvPgCommit (st : status)
| EvPgRollback (st : status)
| EvSqliteCursorClose
| EvSqliteConnClose
| EvPgCursorClose
| EvPgConnClose.

(** The environment of a run: the operator, the two database drivers and
    the platform clock library, as functions of a world state [W] the script
    cannot inspect.  Each query bundles [cursor.execute] with the
    [fetchall] (and, for a [SELECT], the [description]) that follows it.
    Creating a cursor and closing a cursor or a connection are taken not to
    fail: they have no field here. *)
Record backend (W : Type) := mk_backend {
  be_input : string -> W -> string * W;
  be_sqlite_connect : string -> W -> outcome unit * W;
  be_pg_connect : pg_config -> W -> outcome unit * W;
  (* [SELECT name FROM sqlite_master ...]: first field of every row *)
  be_sqlite_tables : string -> W -> outcome (list string) * W;
  (* [PRAGMA table_info(...)] *)
  be_sqlite_table_info : string -> W -> outcome (list column_info) * W;
  (* [SELECT * FROM ...]: column names of [description] and all rows *)
  be_sqlite_select :
    string -> W -> outcome (list string * list (list pyval)) * W;
  be_pg_execute : string -> W -> outcome unit * W;
  (* the query on [information_schema.columns]: (column_name, data_type) *)
  be_pg_column_types : string -> W -> outcome (list (string * string)) * W;
  be_pg_executemany : string -> list (list pyval) -> W -> outcome unit * W;
  be_pg_commit : W -> outcome unit * W;
  be_pg_rollback : W -> outcome unit * W;
  be_fromtimestamp_ms : pyval -> outcome datetime
}.
Arguments be_input {W} _ _ _.
Arguments be_sqlite_connect {W} _ _ _.
Arguments be_pg_connect {W} _ _ _.
Arguments be_sqlite_tables {W} _ _ _.
Arguments be_sqlite_table_info {W} _ _ _.
Arguments be_sqlite_select {W} _ _ _.
Arguments be_pg_execute {W} _ _ _.
Arguments be_pg_column_types {W} _ _ _.
Arguments be_pg_executemany {W} _ _ _ _.
Arguments be_pg_commit {W} _ _.
Arguments be_pg_rollback {W} _ _.
Arguments be_fromtimestamp_ms {W} _ _.

(** Which of the four locals of [main] have been assigned. *)
Record locals := mk_locals {
  sqlite_conn : bool;
  sqlite_cursor : bool;
  pg_conn : bool;
  pg_cursor : bool
}.

Record state (W : Type) := mk_state {
  world : W;
  trace : list event;
  bound : locals
}.
Arguments mk_state {W} _ _ _.
Arguments world {W} _.
Arguments trace {W} _.
Arguments bound {W} _.

(** ** The monad of the script: state that survives an exception *)

Definition M (W A : Type) : Type := state W -> res A * state W.

Definition ret {W A} (a : A) : M W A := fun s => (Ok a, s).

Definition bind {W A B} (m : M W A) (k : A -> M W B) : M W B :=
  fun s =>
    match m s with
    | (Ok a, s') => k a s'
    | (Raise e, s') => (Raise e, s')
    end.

Definition raise {W A} (e : exn) : M W A := fun s => (Raise e, s).

(** [try: body except <all>: handler e] where [handler] decides by itself
    which exceptions it lets through. *)
Definition try_except {W A} (body : M W A) (handler : exn -> M W A) : M W A :=
  fun s =>
    match body s with
    | (Ok a, s') => (Ok a, s')
    | (Raise e, s') => handler e s'
    end.

(** [try: body finally: fin]: [fin] always runs; an exception of [fin]
    replaces the outcome of [body]. *)
Definition try_finally {W A} (body : M W A) (fin : M W unit) : M W A :=
  fun s =>
    match body s with
    | (r, s') =>
        match fin s' with
        | (Ok _, s'') => (r, s'')
        | (Raise e, s'') => (Raise e, s'')
        end
    end.

#[global] Instance M_ret {W} : MRet (M W) := fun A a => ret a.
#[global] Instance M_bind {W} : MBind (M W) := fun A B k m => bind m k.

(** [for x in l: body x] *)
Fixpoint for_each {W A} (l : list A) (body : A -> M W unit) : M W unit :=
  match l with
  | [] => ret tt
  | x :: l' => bind (body x) (fun _ => for_each l' body)
  end.

(** A value or exception computed without touching the state. *)
Definition lift_res {W A} (r : res A) : M W A := fun s => (r, s).

(** Sequencing in [res], for code that can raise but has no effects. *)
Definition res_bind {A B} (r : res A) (k : A -> res B) : res B :=
  match r with
  | Ok a => k a
  | Raise e => Raise e
  end.

(** [[f x for x in l]] where [f] can raise. *)
Fixpoint res_map {A B} (f : A -> res B) (l : list A) : res (list B) :=
  match l with
  | [] => Ok []
  | x :: l' =>
      res_bind (f x) (fun y => res_bind (res_map f l') (fun ys => Ok (y :: ys)))
  end.

(** [range(start, stop, step)] for a positive [step]. *)
Definition py_range (start stop step : nat) : list nat :=
  map (fun k => start + k * step) (seq 0 ((stop - start + (step - 1)) / step)).

(** [l[i:j]] for non-negative indices. *)
Definition slice {A} (l : list A) (i j : nat) : list A :=
  take (j - i) (drop i l).

(** ** The script *)

Definition nl : string := String (ascii_of_nat 10) EmptyString.

(** The double-quote character that wraps every identifier. *)
Definition dq : string := String (ascii_of_nat 34) EmptyString.

(** [f'"{name}"'] *)
Definition quoted (name : string) : string := dq +:+ name +:+ dq.

Section Script.

Context {W : Type} (be : backend W).

(** *** Primitive steps *)

Definition emit (e : event) : M W unit :=
  fun s => (Ok tt, mk_state (world s) (trace s ++ [e]) (bound s)).

(** A call to the outside: answered by the backend and logged with the
    way it ended; an exception of the library travels on. *)
Definition call {A} (ev : status -> event) (f : W -> outcome A * W)
  : M W A :=
  fun s =>
    let (o, w') := f (world s) in
    (res_of_outcome o,
     mk_state w' (trace s ++ [ev (status_of o)]) (bound s)).

Definition print (line : string) : M W unit := emit (EvPrint line).

Definition input (prompt : string) : M W string :=
  call (fun _ => EvInput prompt)
       (fun w => let (a, w') := be_input be prompt w in (Returned a, w')).

Definition assign (f : locals -> locals) : M W unit :=
  fun s => (Ok tt, mk_state (world s) (trace s) (f (bound s))).

(** Reading a local of [main]: [UnboundLocalError] when it was never
    assigned.  Connection and cursor objects are always truthy. *)
Definition read_local (name : string) (get : locals -> bool) : M W bool :=
  fun s =>
    if get (bound s) then (Ok true, s)
    else (Raise (Exn UnboundLocalError name), s).

(** *** Schema introspector *)

Definition get_sqlite_tables : M W (list string) :=
  let sql :=
    "SELECT name FROM sqlite_master WHERE type='table' AND name NOT LIKE 'sqlite_%';" in
  call (EvSqliteExecute sql) (be_sqlite_tables be sql).

Definition table_info_sql (table_name : string) : string :=
  "PRAGMA table_info(" +:+ table_name +:+ ")".

Definition get_table_schema (table_name : string) : M W (list column_info) :=
  let sql := table_info_sql table_name in
  call (EvSqliteExecute sql) (be_sqlite_table_info be sql).

(** *** Schema synthesizer *)

(** Body of the loop over [schema]: the definition of one column. *)
Definition column_def (col : column_info) : string :=
  let pg_type := sqlite_type_to_postgres (col_type col) in
  let column_def := quoted (col_name col) +:+ " " +:+ pg_type in
  let column_def :=
    if negb (pk col =? 0)%Z then column_def +:+ " PRIMARY KEY"
    else if negb (not_null col =? 0)%Z then column_def +:+ " NOT NULL"
    else column_def in
  match default_val col with
  | Some d =>
      if (pk col =? 0)%Z then column_def +:+ " DEFAULT " +:+ d
      else column_def
  | None => column_def
  end.

Definition create_table_sql (table_name : string) (schema : list column_info)
  : string :=
  let columns := map column_def schema in
  "CREATE TABLE IF NOT EXISTS " +:+ quoted table_name +:+ " ("
    +:+ PyStr.join ", " columns +:+ ");".

Definition create_postgres_table (table_name : string)
    (schema : list column_info) : M W unit :=
  let sql := create_table_sql table_name schema in
  try_except
    (call (EvPgExecute sql) (be_pg_execute be sql) ;;
     print ("✓ Created table: " +:+ table_name))
    (fun e =>
       match e with
       | Exn _ msg =>
           print ("✗ Error creating table " +:+ table_name +:+ ": "
                    +:+ msg) ;;
           raise e
       | SystemExit _ => raise e
       end).

(** *** Table migrator *)

(** [{row[0]: row[1] for row in rows}]: a later row overrides an earlier
    one with the same key. *)
Definition dict_of_rows (rows : list (string * string)) : gmap string string :=
  foldl (fun (m : gmap string string) (row : string * string) =>
           <[row.1 := row.2]> m) ∅ rows.

Definition column_types_sql (table_name : string) : string :=
  nl +:+ "        SELECT column_name, data_type " +:+ nl
     +:+ "        FROM information_schema.columns " +:+ nl
     +:+ "        WHERE table_name = '" +:+ table_name +:+ "'" +:+ nl
     +:+ "    ".

Definition get_postgres_column_types (table_name : string)
  : M W (gmap string string) :=
  let sql := column_types_sql table_name in
  rows ← call (EvPgExecute sql) (be_pg_column_types be sql) ;
  mret (dict_of_rows rows).

(** [insert_sql] of [migrate_table_data]. *)
Definition insert_columns (column_names : list string) : list string :=
  map quoted column_names.

Definition insert_sql (table_name : string) (column_names : list string)
  : string :=
  let placeholders := PyStr.join ", " (replicate (length column_names) "%s") in
  let columns_str := PyStr.join ", " (insert_columns column_names) in
  "INSERT INTO " +:+ quoted table_name +:+ " (" +:+ columns_str
    +:+ ") VALUES (" +:+ placeholders +:+ ")".

(** One cell: [convert_value(value, pg_types.get(col_name, 'text'))]. *)
Definition convert_cell (pg_types : gmap string string)
    (cell : string * pyval) : res pyval :=
  let pg_type := default "text" (pg_types !! cell.1) in
  convert_value (be_fromtimestamp_ms be) cell.2 pg_type.

(** The inner loop over [zip(column_names, row)]. *)
Definition convert_row (column_names : list string)
    (pg_types : gmap string string) (row : list pyval) : res (list pyval) :=
  res_map (convert_cell pg_types) (zip column_names row).

Definition batch_size : nat := 100.

Definition select_sql (table_name : string) : string :=
  "SELECT * FROM " +:+ quoted table_name.

Definition migrate_table_data (table_name : string) : M W unit :=
  let select := select_sql table_name in
  '(column_names, rows) ← call (EvSqliteExecute select)
                               (be_sqlite_select be select) ;
  match rows with
  | [] => print ("  ⚠ Table " +:+ table_name +:+ " is empty")
  | _ =>
    pg_types ← get_postgres_column_types table_name ;
    let insert_sql := insert_sql table_name column_names in
    try_except
      (for_each (py_range 0 (length rows) batch_size)
         (fun i =>
            let batch := slice rows i (i + batch_size) in
            converted_batch ←
              lift_res (res_map (convert_row column_names pg_types) batch) ;
            call (EvPgExecutemany insert_sql converted_batch)
                 (be_pg_executemany be insert_sql converted_batch)) ;;
       print ("✓ Migrated " +:+ PyStr.of_nat (length rows) +:+ " rows to "
                +:+ table_name))
      (fun e =>
         match e with
         | Exn _ msg =>
             print ("✗ Error migrating data to " +:+ table_name +:+ ": "
                      +:+ msg) ;;
             raise e
         | SystemExit _ => raise e
         end)
  end.

(** *** Migration driver *)

Definition sqlite_db_path : string := "data.db".

Definition rule : string :=
  "============================================================".

(** Body of [for table in tables]. *)
Definition process_table (table : string) : M W unit :=
  print ("Processing table: " +:+ table) ;;
  schema ← get_table_schema table ;
  create_postgres_table table schema ;;
  migrate_table_data table ;;
  print EmptyString.

(** The [try] block of [main]. *)
Definition main_try : M W unit :=
  print (nl +:+ "📦 Connecting to SQLite database...") ;;
  call (EvSqliteConnect sqlite_db_path)
       (be_sqlite_connect be sqlite_db_path) ;;
  (* sqlite_conn = ...; sqlite_cursor = sqlite_conn.cursor() *)
  assign (fun l => mk_locals true (sqlite_cursor l) (pg_conn l) (pg_cursor l)) ;;
  assign (fun l => mk_locals (sqlite_conn l) true (pg_conn l) (pg_cursor l)) ;;
  print "🐘 Connecting to PostgreSQL database..." ;;
  call (EvPgConnect PG_CONFIG) (be_pg_connect be PG_CONFIG) ;;
  (* pg_conn = ...; pg_cursor = pg_conn.cursor() *)
  assign (fun l => mk_locals (sqlite_conn l) (sqlite_cursor l) true (pg_cursor l)) ;;
  assign (fun l => mk_locals (sqlite_conn l) (sqlite_cursor l) (pg_conn l) true) ;;
  tables ← get_sqlite_tables ;
  print (nl +:+ "📋 Found " +:+ PyStr.of_nat (length tables)
            +:+ " tables to migrate") ;;
  print EmptyString ;;
  for_each tables process_table ;;
  call EvPgCommit (be_pg_commit be) ;;
  print rule ;;
  print "✓ Migration completed successfully!" ;;
  print rule.

(** [if pg_conn: pg_conn.rollback()] *)
Definition rollback_if_connected : M W unit :=
  bind (read_local "pg_conn" pg_conn)
       (fun c : bool =>
          if c then call EvPgRollback (be_pg_rollback be) else ret tt).

(** [sys.exit(1)] *)
Definition sys_exit {A} (code : Z) : M W A := raise (SystemExit code).

(** The three [except] clauses of [main], tried in order. *)
Definition main_except (e : exn) : M W unit :=
  match e with
  | Exn SqliteError msg =>
      print (nl +:+ "✗ SQLite error: " +:+ msg) ;;
      sys_exit 1
  | Exn Psycopg2Error msg =>
      print (nl +:+ "✗ PostgreSQL error: " +:+ msg) ;;
      rollback_if_connected ;;
      sys_exit 1
  | Exn _ msg =>
      print (nl +:+ "✗ Unexpected error: " +:+ msg) ;;
      rollback_if_connected ;;
      sys_exit 1
  | SystemExit _ => raise e
  end.

(** [if x: x.close()] *)
Definition close_if_set (name : string) (get : locals -> bool) (ev : event)
  : M W unit :=
  bind (read_local name get)
       (fun c : bool => if c then emit ev else ret tt).

(** The [finally] block of [main]. *)
Definition main_finally : M W unit :=
  close_if_set "sqlite_cursor" sqlite_cursor EvSqliteCursorClose ;;
  close_if_set "sqlite_conn" sqlite_conn EvSqliteConnClose ;;
  close_if_set "pg_cursor" pg_cursor EvPgCursorClose ;;
  close_if_set "pg_conn" pg_conn EvPgConnClose.

Definition main : M W unit :=
  print rule ;;
  print "SQLite to PostgreSQL Migration Script" ;;
  print rule ;;
  print EmptyString ;;
  print "PostgreSQL Configuration:" ;;
  print ("  Host: " +:+ host PG_CONFIG) ;;
  print ("  Port: " +:+ PyStr.of_N (port PG_CONFIG)) ;;
  print ("  Database: " +:+ database PG_CONFIG) ;;
  print ("  User: " +:+ user PG_CONFIG) ;;
  print EmptyString ;;
  response ← input "Continue with migration? (yes/no): " ;
  if negb (PyStr.mem (PyStr.lower response) ["yes"; "y"]) then
    print "Migration cancelled."
  else
    try_finally (try_except main_try main_except) main_finally.

(** The state a run starts from: nothing printed, nothing assigned. *)
Definition initial (w : W) : state W :=
  mk_state w [] (mk_locals false false false false).

(** Exit status of the process for [if __name__ == '__main__': main()]:
    0 when [main] returns, the argument of [sys.exit], 1 for an exception
    nobody caught. *)
Definition exit_code (r : res unit) : Z :=
  match r with
  | Ok _ => 0
  | Raise (SystemExit code) => code
  | Raise (Exn _ _) => 1
  end.

(** Running the script in world [w]: exit status and everything it did. *)
Definition run (w : W) : Z * list event :=
  let (r, s) := main (initial w) in (exit_code r, trace s).

End Script.

(** ** Observations on a trace *)

(** The call ended with an exception. *)
Definition failed (ev : event) : bool :=
  match ev with
  | EvSqliteConnect _ (Failed _ _) | EvPgConnect _ (Failed _ _)
  | EvSqliteExecute _ (Failed _ _) | EvPgExecute _ (Failed _ _)
  | EvPgExecutemany _ _ (Failed _ _)
  | EvPgCommit (Failed _ _) | EvPgRollback (Failed _ _) => true
  | _ => false
  end.

(** The call opens a connection, sends a statement or commits: the work of
    a migration, as opposed to reporting, rolling back and closing. *)
Definition db_work (ev : event) : bool :=
  match ev with
  | EvSqliteConnect _ _ | EvPgConnect _ _ | EvSqliteExecute _ _
  | EvPgExecute _ _ | EvPgExecutemany _ _ _ | EvPgCommit _ => true
  | _ => false
  end.

Definition is_print (ev : event) : bool :=
  match ev with
  | EvPrint _ => true
  | _ => false
  end.

(** After a call that failed, no further work is sent to either database. *)
Fixpoint quiet_after_failure (tr : list event) : bool :=
  match tr with
  | [] => true
  | ev :: tr' =>
      (if failed ev then forallb (fun e => negb (db_work e)) tr' else true)
      && quiet_after_failure tr'
  end.

(** The parameter lists handed to [executemany], in call order. *)
Fixpoint executemany_batches (tr : list event) : list (list (list pyval)) :=
  match tr with
  | [] => []
  | EvPgExecutemany _ params _ :: tr' => params :: executemany_batches tr'
  | _ :: tr' => executemany_batches tr'
  end.

(** The call is a rollback of the target transaction. *)
Definition is_rollback (ev : event) : bool :=
  match ev with
  | EvPgRollback _ => true
  | _ => false
  end.

(** The call hands rows to the target. *)
Definition is_executemany (ev : event) : bool :=
  match ev with
  | EvPgExecutemany _ _ _ => true
  | _ => false
  end.

(** No call of the trace failed. *)
Definition steady (tr : list event) : Prop :=
  Forall (fun ev => failed ev = false) tr.

(** No event of the trace is work sent to a database. *)
Definition idle (tr : list event) : Prop :=
  Forall (fun ev => db_work ev = false) tr.

(** A trace that stops at its first failure: calls that went well, then
    possibly the call that failed, then nothing but reports. *)
Definition stopped (tr : list event) : Prop :=
  exists a b, tr = a ++ b /\ steady a
              /\ Forall (fun ev => is_print ev = true) (tail b).

(** [m] fails fast: when it returns, none of its calls failed; when it
    raises, it raises an [Exception] and its trace stopped at the first
    failure. *)
Definition fail_fast {W A} (m : M W A) : Prop :=
  forall s r s',
    m s = (r, s') ->
    exists tr,
      trace s' = trace s ++ tr
      /\ match r with
         | Ok _ => steady tr
         | Raise e => stopped tr /\ exists c msg, e = Exn c msg
         end.

(** The exception a failed call ended with. *)
Definition failure_of (ev : event) : option (exn_class * string) :=
  match ev with
  | EvSqliteConnect _ (Failed c msg) | EvPgConnect _ (Failed c msg)
  | EvSqliteExecute _ (Failed c msg) | EvPgExecute _ (Failed c msg)
  | EvPgExecutemany _ _ (Failed c msg)
  | EvPgCommit (Failed c msg) | EvPgRollback (Failed c msg) => Some (c, msg)
  | _ => None
  end.

Definition is_commit (ev : event) : bool :=
  match ev with
  | EvPgCommit _ => true
  | _ => false
  end.

Definition is_connect (ev : event) : bool :=
  match ev with
  | EvSqliteConnect _ _ | EvPgConnect _ _ => true
  | _ => false
  end.

(** The source connection has been opened. *)
Definition is_sqlite_open (ev : event) : bool :=
  match ev with
  | EvSqliteConnect _ Done => true
  | _ => false
  end.

(** The target connection has been opened. *)
Definition is_pg_open (ev : event) : bool :=
  match ev with
  | EvPgConnect _ Done => true
  | _ => false
  end.

(** What the processing of tables is made of: reports and statements. *)
Definition table_event (ev : event) : bool :=
  match ev with
  | EvPrint _ | EvSqliteExecute _ _ | EvPgExecute _ _
  | EvPgExecutemany _ _ _ => true
  | _ => false
  end.

(** What [main] does before it looks at the answer of the operator: the
    banner, the configuration and the prompt. *)
Definition banner : list event :=
  [ EvPrint rule;
    EvPrint "SQLite to PostgreSQL Migration Script";
    EvPrint rule;
    EvPrint EmptyString;
    EvPrint "PostgreSQL Configuration:";
    EvPrint ("  Host: " +:+ host PG_CONFIG);
    EvPrint ("  Port: " +:+ PyStr.of_N (port PG_CONFIG));
    EvPrint ("  Database: " +:+ database PG_CONFIG);
    EvPrint ("  User: " +:+ user PG_CONFIG);
    EvPrint EmptyString;
    EvInput "Continue with migration? (yes/no): " ].

(** The line the handlers of [main] print for an exception of class [c]
    with message [msg]. *)
Definition error_line (c : exn_class) (msg : string) : string :=
  match c with
  | SqliteError => nl +:+ "✗ SQLite error: " +:+ msg
  | Psycopg2Error => nl +:+ "✗ PostgreSQL error: " +:+ msg
  | _ => nl +:+ "✗ Unexpected error: " +:+ msg
  end.

(** What the [finally] block of [main] closes, given the locals that are
    assigned: it gives up at the first local that is not. *)
Definition closes (l : locals) : list event :=
  if sqlite_cursor l then
    EvSqliteCursorClose ::
    (if sqlite_conn l then
       EvSqliteConnClose ::
       (if pg_cursor l then
          EvPgCursorClose :: (if pg_conn l then [EvPgConnClose] else [])
        else [])
     else [])
  else [].

(** [m] works on tables only, leaves the locals alone and stops at its
    first failure, which it raises: when it returns, none of its calls
    failed; when it raises, the exception is the one of its last call, and
    only reports follow that call. *)
Definition strict {W A} (m : M W A) : Prop :=
  forall s r s',
    m s = (r, s') ->
    bound s' = bound s
    /\ exists tr,
         trace s' = trace s ++ tr
         /\ Forall (fun ev => table_event ev = true) tr
         /\ match r with
            | Ok _ => steady tr
            | Raise e =>
                exists a ev b c msg,
                  tr = a ++ ev :: b
                  /\ steady a
                  /\ failure_of ev = Some (c, msg)
                  /\ e = Exn c msg
                  /\ Forall (fun ev => is_print ev = true) b
            end.

(** ** A reference clock and scripted databases

    Concrete backends on which the statements below are exercised. *)

Module Clock.

(** Proleptic Gregorian date of a day number counted from 1970-01-01. *)
Definition civil_from_days (days : Z) : date :=
  let z := (days + 719468)%Z in
  let era := (z / 146097)%Z in
  let doe := (z - era * 146097)%Z in
  let yoe := ((doe - doe / 1460 + doe / 36524 - doe / 146096) / 365)%Z in
  let doy := (doe - (365 * yoe + yoe / 4 - yoe / 100))%Z in
  let mp := ((5 * doy + 2) / 153)%Z in
  let d := (doy - (153 * mp + 2) / 5 + 1)%Z in
  let m := (if (mp <? 10)%Z then mp + 3 else mp - 9)%Z in
  let y := (yoe + era * 400 + (if (m <=? 2)%Z then 1 else 0))%Z in
  mk_date y m d.

(** Quotient rounded to the nearest integer, ties to even. *)
Definition div_half_even (a b : Z) : Z :=
  let q := (a / b)%Z in
  let r := (a mod b)%Z in
  if (2 * r <? b)%Z then q
  else if (b <? 2 * r)%Z then (q + 1)%Z
  else if Z.even q then q else (q + 1)%Z.

(** Microseconds since the epoch of a millisecond count, computed in exact
    arithmetic; [None] for an infinity or a NaN. *)
Definition micros_of_ms (value : pyval) : option Z :=
  match value with
  | VBool b => Some (if b then 1000 else 0)%Z
  | VInt n => Some (n * 1000)%Z
  | VFloat (S754_zero _) => Some 0%Z
  | VFloat (S754_finite s m e) =>
      let n := (if s then - Z.pos m else Z.pos m)%Z in
      Some (if (0 <=? e)%Z then n * 2 ^ e * 1000
            else div_half_even (n * 1000) (2 ^ (- e)))%Z
  | _ => None
  end.

(** A stand-in for [datetime.fromtimestamp(value / 1000.0)] on a machine
    whose local time is UTC: years 1 to 9999 are representable.  The
    quotient is computed exactly and rounded once, where CPython rounds
    [value / 1000.0] to a double first, so the two may differ in the last
    microsecond for counts that are no multiple of a millisecond.  It only
    serves the scripted backends of the examples: the statements about
    [convert_value] hold for every clock. *)
Definition utc_fromtimestamp_ms (value : pyval) : outcome datetime :=
  match micros_of_ms value with
  | None => Raised OtherException "cannot convert float to integer"
  | Some us =>
      let days := (us / 86400000000)%Z in
      let rest := (us mod 86400000000)%Z in
      let d := civil_from_days days in
      if ((1 <=? year d) && (year d <=? 9999))%Z then
        Returned
          (mk_datetime d
             (mk_time (rest / 3600000000) (rest / 60000000 mod 60)
                      (rest / 1000000 mod 60) (rest mod 1000000)))
      else Raised OtherException "year out of range"
  end.

End Clock.

Module Fixture.

(** A scripted pair of databases.  The world is the list of rows the
    target has received so far. *)
Definition scripted
    (answer : string)
    (tables : list string)
    (table_info : string -> outcome (list column_info))
    (select : string -> outcome (list string * list (list pyval)))
    (column_types : list (string * string))
  : backend (list (list pyval)) :=
  {| be_input := fun _ w => (answer, w);
     be_sqlite_connect := fun _ w => (Returned tt, w);
     be_pg_connect := fun _ w => (Returned tt, w);
     be_sqlite_tables := fun _ w => (Returned tables, w);
     be_sqlite_table_info := fun sql w => (table_info sql, w);
     be_sqlite_select := fun sql w => (select sql, w);
     be_pg_execute := fun _ w => (Returned tt, w);
     be_pg_column_types := fun _ w => (Returned column_types, w);
     be_pg_executemany := fun _ params w => (Returned tt, w ++ params);
     be_pg_commit := fun w => (Returned tt, w);
     be_pg_rollback := fun w => (Returned tt, []);
     be_fromtimestamp_ms := Clock.utc_fromtimestamp_ms |}.

Definition users_schema : list column_info :=
  [ mk_column_info 0 "id" "INTEGER" 0 None 1;
    mk_column_info 1 "active" "INTEGER" 1 (Some "0") 0;
    mk_column_info 2 "created" "DATETIME" 0 None 0 ].

Definition users_columns : list string := ["id"; "active"; "created"].

Definition users_rows : list (list pyval) :=
  [ [VInt 1; VInt 1; VInt 1700000000000];
    [VInt 2; VInt 0; VInt 1700003600000] ].

Definition users_types : list (string * string) :=
  [ ("id", "integer"); ("active", "boolean");
    ("created", "timestamp without time zone") ].

(** One table [users] with two rows. *)
Definition users : backend (list (list pyval)) :=
  scripted "yes" ["users"]
    (fun _ => Returned users_schema)
    (fun _ => Returned (users_columns, users_rows))
    users_types.

(** One table [users] that holds no row. *)
Definition empty_users : backend (list (list pyval)) :=
  scripted "yes" ["users"]
    (fun _ => Returned users_schema)
    (fun _ => Returned (users_columns, []))
    users_types.

(** [n] rows of one integer column. *)
Definition counting_rows (n : nat) : list (list pyval) :=
  map (fun k => [VInt (Z.of_nat k)]) (seq 0 n).

(** One table [big] with 250 rows. *)
Definition big : backend (list (list pyval)) :=
  scripted "yes" ["big"]
    (fun _ => Returned [mk_column_info 0 "n" "INTEGER" 0 None 0])
    (fun _ => Returned (["n"], counting_rows 250))
    [("n", "integer")].

(** Two tables [a] and [b]; describing [a] fails on the source side. *)
Definition broken_first : backend (list (list pyval)) :=
  scripted "yes" ["a"; "b"]
    (fun sql =>
       if String.eqb sql "PRAGMA table_info(a)"
       then Raised SqliteError "database disk image is malformed"
       else Returned [mk_column_info 0 "n" "INTEGER" 0 None 0])
    (fun _ => Returned (["n"], [[VInt 7]]))
    [("n", "integer")].

(** Two tables [a] and [b]; [a] is copied, then describing [b] fails on
    the source side. *)
Definition broken_second : backend (list (list pyval)) :=
  scripted "yes" ["a"; "b"]
    (fun sql =>
       if String.eqb sql "PRAGMA table_info(b)"
       then Raised SqliteError "database disk image is malformed"
       else Returned [mk_column_info 0 "n" "INTEGER" 0 None 0])
    (fun _ => Returned (["n"], [[VInt 7]]))
    [("n", "integer")].

(** The state a run on a scripted database starts from. *)
Definition start : state (list (list pyval)) := initial [].

(** The same two tables on a healthy source; the target refuses the
    [CREATE TABLE] of [b]. *)
Definition refused_second : backend (list (list pyval)) :=
  let be := scripted "yes" ["a"; "b"]
              (fun _ => Returned [mk_column_info 0 "n" "INTEGER" 0 None 0])
              (fun _ => Returned (["n"], [[VInt 7]]))
              [("n", "integer")] in
  {| be_input := be_input be;
     be_sqlite_connect := be_sqlite_connect be;
     be_pg_connect := be_pg_connect be;
     be_sqlite_tables := be_sqlite_tables be;
     be_sqlite_table_info := be_sqlite_table_info be;
     be_sqlite_select := be_sqlite_select be;
     be_pg_execute := fun sql w =>
       if PyStr.contains ("CREATE TABLE IF NOT EXISTS " +:+ quoted "b") sql
       then (Raised Psycopg2Error "permission denied for schema public", w)
       else (Returned tt, w);
     be_pg_column_types := be_pg_column_types be;
     be_pg_executemany := be_pg_executemany be;
     be_pg_commit := be_pg_commit be;
     be_pg_rollback := be_pg_rollback be;
     be_fromtimestamp_ms := be_fromtimestamp_ms be |}.

End Fixture.


(** Further scripted databases, with a target that fails at some point. *)
Module Scenario.

(** [be] with another answer to [executemany]. *)
Definition with_executemany {W : Type}
    (f : string -> list (list pyval) -> W -> outcome unit * W)
    (be : backend W) : backend W :=
  {| be_input := be_input be;
     be_sqlite_connect := be_sqlite_connect be;
     be_pg_connect := be_pg_connect be;
     be_sqlite_tables := be_sqlite_tables be;
     be_sqlite_table_info := be_sqlite_table_info be;
     be_sqlite_select := be_sqlite_select be;
     be_pg_execute := be_pg_execute be;
     be_pg_column_types := be_pg_column_types be;
     be_pg_executemany := f;
     be_pg_commit := be_pg_commit be;
     be_pg_rollback := be_pg_rollback be;
     be_fromtimestamp_ms := be_fromtimestamp_ms be |}.

(** [be] with another answer to the query for the column types. *)
Definition with_column_types {W : Type}
    (f : string -> W -> outcome (list (string * string)) * W)
    (be : backend W) : backend W :=
  {| be_input := be_input be;
     be_sqlite_connect := be_sqlite_connect be;
     be_pg_connect := be_pg_connect be;
     be_sqlite_tables := be_sqlite_tables be;
     be_sqlite_table_info := be_sqlite_table_info be;
     be_sqlite_select := be_sqlite_select be;
     be_pg_execute := be_pg_execute be;
     be_pg_column_types := f;
     be_pg_executemany := be_pg_executemany be;
     be_pg_commit := be_pg_commit be;
     be_pg_rollback := be_pg_rollback be;
     be_fromtimestamp_ms := be_fromtimestamp_ms be |}.

(** [be] with an operator who gives another answer. *)
Definition with_answer {W : Type} (answer : string) (be : backend W)
  : backend W :=
  {| be_input := fun _ w => (answer, w);
     be_sqlite_connect := be_sqlite_connect be;
     be_pg_connect := be_pg_connect be;
     be_sqlite_tables := be_sqlite_tables be;
     be_sqlite_table_info := be_sqlite_table_info be;
     be_sqlite_select := be_sqlite_select be;
     be_pg_execute := be_pg_execute be;
     be_pg_column_types := be_pg_column_types be;
     be_pg_executemany := be_pg_executemany be;
     be_pg_commit := be_pg_commit be;
     be_pg_rollback := be_pg_rollback be;
     be_fromtimestamp_ms := be_fromtimestamp_ms be |}.

(** [be] with connections that answer differently. *)
Definition with_connect {W : Type}
    (sqlite : string -> W -> outcome unit * W)
    (pg : pg_config -> W -> outcome unit * W)
    (be : backend W) : backend W :=
  {| be_input := be_input be;
     be_sqlite_connect := sqlite;
     be_pg_connect := pg;
     be_sqlite_tables := be_sqlite_tables be;
     be_sqlite_table_info := be_sqlite_table_info be;
     be_sqlite_select := be_sqlite_select be;
     be_pg_execute := be_pg_execute be;
     be_pg_column_types := be_pg_column_types be;
     be_pg_executemany := be_pg_executemany be;
     be_pg_commit := be_pg_commit be;
     be_pg_rollback := be_pg_rollback be;
     be_fromtimestamp_ms := be_fromtimestamp_ms be |}.

(** The table [big] of 250 rows on a target that takes 100 rows and
    refuses every batch after that. *)
Definition filling_up : backend (list (list pyval)) :=
  with_executemany
    (fun _ params w =>
       if (100 <=? length w)%nat
       then (Raised Psycopg2Error "could not extend file: disk full", w)
       else (Returned tt, w ++ params))
    Fixture.big.

(** The table [users] on a target whose catalogue cannot be read. *)
Definition blind_target : backend (list (list pyval)) :=
  with_column_types
    (fun _ w =>
       (Raised Psycopg2Error "permission denied for information_schema", w))
    Fixture.users.

(** The table [users] with an operator who declines. *)
Definition declined : backend (list (list pyval)) :=
  with_answer "no" Fixture.users.

(** A target that cannot be reached. *)
Definition unreachable_target : backend (list (list pyval)) :=
  with_connect (fun _ w => (Returned tt, w))
    (fun _ w => (Raised Psycopg2Error "connection refused", w))
    Fixture.users.

(** A source database that cannot be opened. *)
Definition unreadable_source : backend (list (list pyval)) :=
  with_connect
    (fun _ w => (Raised SqliteError "unable to open database file", w))
    (fun _ w => (Returned tt, w))
    Fixture.users.

End Scenario.

(** ** The contracts in the words of the specification *)

(** [key] occurs in [s] as a contiguous run of characters, up to the case
    of ASCII letters. *)
Definition occurs_nocase (key s : string) : Prop :=
  exists pre mid post, s = pre +:+ mid +:+ post /\ PyStr.eq_nocase mid key.

(** [keyword] matches the source type string whatever the case of its
    letters: it occurs in the upper-cased string. *)
Definition keyword_matches (keyword sourceTypeString : string) : Prop :=
  PyStr.occurs_in keyword (PyStr.upper sourceTypeString).

(** [mapType]: case-insensitive substring match against an ordered table of
    (keyword, target type) pairs, first match wins, generic text type when
    no keyword matches. *)
Definition mapType_spec (table : list (string * string))
    (sourceTypeString targetTypeName : string) : Prop :=
  (exists before keyword after,
      table = before ++ (keyword, targetTypeName) :: after
      /\ keyword_matches keyword sourceTypeString
      /\ Forall (fun kt => ~ keyword_matches kt.1 sourceTypeString) before)
  \/ (targetTypeName = "TEXT"
      /\ Forall (fun kt => ~ keyword_matches kt.1 sourceTypeString) table).

(** The fixed set of truthy tokens of the boolean rule. *)
Definition truthy_tokens : list string := ["true"; "1"; "yes"; "t"].

(** Target types that denote a timestamp, a date or a time. *)
Definition temporal_type (pg_type : string) : Prop :=
  pg_type = "timestamp without time zone"
  \/ pg_type = "timestamp with time zone"
  \/ pg_type = "date"
  \/ pg_type = "time without time zone".

(** The driver skips a table whose introspection failed and goes on: in a
    run over [tables], every table listed after one whose description
    failed is still processed. *)
Definition skips_and_continues (tables : list string) (tr : list event)
  : Prop :=
  forall pre table post c msg before after,
    tables = pre ++ table :: post ->
    tr = before ++ EvSqliteExecute (table_info_sql table) (Failed c msg)
                :: after ->
    Forall (fun later => In (EvPrint ("Processing table: " +:+ later)) after)
           post.

(** * Verification *)

(** ** Strings *)

Module PyStrFacts.
Import PyStr.

(** Case analysis over the 256 characters. *)
Ltac each_ascii a :=
  destruct a as [[] [] [] [] [] [] [] []]; vm_compute; try discriminate;
  try (split; reflexivity); try reflexivity.

Lemma upper_not_lower a : is_upper a = true -> is_lower a = false.
Proof. each_ascii a. Qed.

Lemma upper_lower_char a : is_upper a = true -> upper_char (lower_char a) = a.
Proof. each_ascii a. Qed.

Lemma lower_lower_char a : lower_char (lower_char a) = lower_char a.
Proof. each_ascii a. Qed.

Lemma upper_upper_char a : upper_char (upper_char a) = upper_char a.
Proof. each_ascii a. Qed.

Lemma lower_upper_char a :
  is_lower a = true ->
  is_upper (upper_char a) = true /\ lower_char (upper_char a) = a.
Proof. each_ascii a. Qed.

Lemma same_letter_upper a b : same_letter a b <-> upper_char a = upper_char b.
Proof.
  split.
  - intros [-> | [[Ha ->] | [Hb ->]]]; [reflexivity | |].
    + rewrite (upper_lower_char _ Ha). unfold upper_char.
      now rewrite (upper_not_lower _ Ha).
    + rewrite (upper_lower_char _ Hb). unfold upper_char.
      now rewrite (upper_not_lower _ Hb).
  - intros H. unfold same_letter.
    destruct (is_lower a) eqn:Ha, (is_lower b) eqn:Hb.
    + left. destruct (lower_upper_char _ Ha) as [_ <-].
      destruct (lower_upper_char _ Hb) as [_ <-]. now rewrite H.
    + right; right. destruct (lower_upper_char _ Ha) as [Hu Hl].
      assert (upper_char b = b) as Hb' by (unfold upper_char; now rewrite Hb).
      rewrite H, Hb' in Hu, Hl. now split.
    + right; left. destruct (lower_upper_char _ Hb) as [Hu Hl].
      assert (upper_char a = a) as Ha' by (unfold upper_char; now rewrite Ha).
      rewrite <- H, Ha' in Hu, Hl. now split.
    + left. unfold upper_char in H. now rewrite Ha, Hb in H.
Qed.

Lemma same_letter_lower a b : same_letter a b <-> lower_char a = lower_char b.
Proof.
  split.
  - intros [-> | [[Ha ->] | [Hb ->]]]; [reflexivity | |];
      now rewrite lower_lower_char.
  - intros H. unfold same_letter.
    destruct (is_upper a) eqn:Ha, (is_upper b) eqn:Hb.
    + left. rewrite <- (upper_lower_char _ Ha), <- (upper_lower_char _ Hb).
      now rewrite H.
    + right; left. split; [reflexivity |].
      rewrite H. unfold lower_char. now rewrite Hb.
    + right; right. split; [reflexivity |].
      rewrite <- H. unfold lower_char. now rewrite Ha.
    + left. unfold lower_char in H. now rewrite Ha, Hb in H.
Qed.

Lemma eq_nocase_upper s t : eq_nocase s t <-> ascii_upper s = ascii_upper t.
Proof.
  revert t. induction s as [| a s IH]; intros [| b t]; simpl;
    try (split; [tauto | discriminate]); [tauto |].
  rewrite same_letter_upper, IH. split.
  - intros [-> ->]. reflexivity.
  - intros H. injection H. tauto.
Qed.

Lemma eq_nocase_lower s t : eq_nocase s t <-> lower s = lower t.
Proof.
  revert t. induction s as [| a s IH]; intros [| b t]; simpl;
    try (split; [tauto | discriminate]); [tauto |].
  rewrite same_letter_lower, IH. split.
  - intros [-> ->]. reflexivity.
  - intros H. injection H. tauto.
Qed.

Lemma append_cons a s t : String a s +:+ t = String a (s +:+ t).
Proof. reflexivity. Qed.

Lemma append_nil s : EmptyString +:+ s = s.
Proof. reflexivity. Qed.

Lemma upper_app s t : ascii_upper (s +:+ t) = ascii_upper s +:+ ascii_upper t.
Proof.
  induction s as [| a s IH]; [reflexivity |].
  rewrite append_cons. simpl ascii_upper. now rewrite IH, append_cons.
Qed.

Lemma upper_split s x y :
  ascii_upper s = x +:+ y ->
  exists s1 s2, s = s1 +:+ s2 /\ ascii_upper s1 = x /\ ascii_upper s2 = y.
Proof.
  revert s. induction x as [| a x IH]; intros s H.
  - exists EmptyString, s. now rewrite append_nil in *.
  - rewrite append_cons in H. destruct s as [| b s]; [discriminate |].
    simpl in H. injection H as Hb Hs.
    destruct (IH _ Hs) as (s1 & s2 & -> & H1 & H2).
    exists (String b s1), s2. rewrite append_cons. simpl.
    now rewrite Hb, H1.
Qed.

Lemma prefix_iff key s :
  String.prefix key s = true <-> exists post, s = key +:+ post.
Proof.
  revert s. induction key as [| a key IH]; intros s.
  - destruct s; simpl; split; eauto.
  - destruct s as [| b s].
    + simpl. split; [discriminate | intros [post H]; discriminate].
    + simpl. destruct (ascii_dec a b) as [-> | Hne].
      * rewrite IH. split; intros [post H]; exists post.
        -- now rewrite append_cons, H.
        -- rewrite append_cons in H. now injection H.
      * split; [discriminate |]. intros [post H].
        rewrite append_cons in H. injection H as H1 _. congruence.
Qed.

Lemma contains_nil key :
  contains key EmptyString = String.prefix key EmptyString || false.
Proof. reflexivity. Qed.

Lemma contains_cons key c s :
  contains key (String c s) = String.prefix key (String c s) || contains key s.
Proof. reflexivity. Qed.

Lemma contains_iff key s : contains key s = true <-> occurs_in key s.
Proof.
  unfold occurs_in. induction s as [| c s IH].
  - rewrite contains_nil, orb_false_r, prefix_iff. split.
    + intros [post H]. exists EmptyString, post. now rewrite append_nil.
    + intros ([| ? ?] & post & H); [| discriminate].
      rewrite append_nil in H. eauto.
  - rewrite contains_cons, orb_true_iff, prefix_iff, IH. split.
    + intros [[post H] | (pre & post & H)].
      * exists EmptyString, post. now rewrite append_nil.
      * exists (String c pre), post. now rewrite append_cons, H.
    + intros ([| a pre] & post & H).
      * left. rewrite append_nil in H. eauto.
      * right. rewrite append_cons in H. injection H as _ H. eauto.
Qed.

End PyStrFacts.

(** ** Unicode upper-casing *)

Module UnicodeFacts.
Import Unicode PyStr PyStrFacts.

Lemma length_drop_bytes k s :
  (String.length (drop_bytes k s) <= String.length s)%nat.
Proof.
  revert s. induction k as [| k IH]; intros [| c s]; cbn; try lia.
  specialize (IH s). lia.
Qed.

Lemma upper_fuel_enough n m s :
  (String.length s <= n)%nat -> (String.length s <= m)%nat ->
  upper_fuel n s = upper_fuel m s.
Proof.
  revert m s. induction n as [| n IH]; intros m [| c rest] Hn Hm;
    cbn in Hn, Hm; try lia; destruct m; try lia; try reflexivity.
  cbn [upper_fuel].
  destruct (decode_at c rest) as [[cp k] |].
  - f_equal. pose proof (length_drop_bytes k rest). apply IH; lia.
  - f_equal. apply IH; lia.
Qed.

Lemma upper_cons c rest :
  upper (String c rest)
  = match decode_at c rest with
    | Some (cp, k) => encode_all (upper_cp cp) +:+ upper (drop_bytes k rest)
    | None => String c (upper rest)
    end.
Proof.
  unfold upper. cbn [String.length upper_fuel].
  destruct (decode_at c rest) as [[cp k] |]; [| reflexivity].
  f_equal. pose proof (length_drop_bytes k rest).
  apply upper_fuel_enough; lia.
Qed.

Lemma ascii_upper_cp c :
  (nat_of_ascii c <? 128)%nat = true ->
  encode_all (upper_cp (code c)) = String (upper_char c) EmptyString.
Proof. each_ascii c. Qed.

Lemma code_ascii c :
  (nat_of_ascii c <? 128)%nat = true -> (code c <? 128)%N = true.
Proof. each_ascii c. Qed.

Lemma decode_at_ascii c rest :
  (nat_of_ascii c <? 128)%nat = true -> decode_at c rest = Some (code c, 0%nat).
Proof. intros H. unfold decode_at. now rewrite (code_ascii _ H). Qed.

(** An ASCII character is upper-cased on its own. *)
Lemma upper_ascii_char c rest :
  (nat_of_ascii c <? 128)%nat = true ->
  upper (String c rest) = String (upper_char c) (upper rest).
Proof.
  intros H. rewrite upper_cons, (decode_at_ascii _ _ H), (ascii_upper_cp _ H).
  reflexivity.
Qed.

(** On ASCII strings, [upper] is the upper-casing of ASCII letters. *)
Lemma upper_ascii_only s : ascii_only s = true -> upper s = ascii_upper s.
Proof.
  induction s as [| c s IH]; [reflexivity |].
  cbn [ascii_only ascii_upper]. intros [Hc Hs]%andb_prop.
  now rewrite (upper_ascii_char _ _ Hc), IH.
Qed.

Lemma same_letter_ascii a b :
  same_letter a b ->
  (nat_of_ascii a <? 128)%nat = (nat_of_ascii b <? 128)%nat.
Proof.
  assert (forall x, is_upper x = true ->
                    (nat_of_ascii x <? 128)%nat = true
                    /\ (nat_of_ascii (lower_char x) <? 128)%nat = true) as H
    by (intros x; each_ascii x).
  intros [-> | [[Ha ->] | [Hb ->]]]; [reflexivity | |].
  - destruct (H _ Ha) as [-> ->]. reflexivity.
  - destruct (H _ Hb) as [-> ->]. reflexivity.
Qed.

Lemma same_letter_not_ascii a b :
  same_letter a b -> (nat_of_ascii a <? 128)%nat = false -> a = b.
Proof.
  assert (forall x, is_upper x = true ->
                    (nat_of_ascii x <? 128)%nat = true
                    /\ (nat_of_ascii (lower_char x) <? 128)%nat = true) as H
    by (intros x; each_ascii x).
  intros [-> | [[Ha ->] | [Hb ->]]] Hn; [reflexivity | |].
  - destruct (H _ Ha) as [Hx _]. congruence.
  - destruct (H _ Hb) as [_ Hx]. congruence.
Qed.

Lemma same_letter_sym a b : same_letter a b -> same_letter b a.
Proof. unfold same_letter. intuition. Qed.

Lemma cont_not_ascii c : is_cont c = true -> (nat_of_ascii c <? 128)%nat = false.
Proof. each_ascii c. Qed.

(** Continuation bytes are not letters: two strings that differ by the
    case of letters have the same continuation bytes. *)
Lemma same_letter_cont a b :
  same_letter a b -> is_cont a = is_cont b /\ (is_cont a = true -> a = b).
Proof.
  intros H. destruct (is_cont a) eqn:Ha.
  - pose proof (same_letter_not_ascii _ _ H (cont_not_ascii _ Ha)) as <-.
    auto.
  - split; [| discriminate]. destruct (is_cont b) eqn:Hb; [| reflexivity].
    pose proof (same_letter_not_ascii _ _ (same_letter_sym _ _ H)
                  (cont_not_ascii _ Hb)) as <-.
    congruence.
Qed.

Lemma decode_at_nocase c s t :
  eq_nocase s t -> decode_at c s = decode_at c t.
Proof.
  intros H. unfold decode_at.
  destruct s as [| a1 [| a2 [| a3 s]]], t as [| b1 [| b2 [| b3 t]]];
    cbn in H; try tauto;
    repeat match goal with
           | H : _ /\ _ |- _ => destruct H
           | H : same_letter _ _ |- _ =>
               apply same_letter_cont in H as [? ?]
           end;
    repeat match goal with
           | H : is_cont ?a = is_cont ?b |- _ =>
               rewrite <- H in *; clear H
           end;
    repeat match goal with
           | H : is_cont ?a = true -> ?a = ?b |- _ =>
               destruct (is_cont a);
               [specialize (H eq_refl); subst b | clear H]
           end;
    cbn [andb]; reflexivity.
Qed.

Lemma eq_nocase_drop_bytes k s t :
  eq_nocase s t -> eq_nocase (drop_bytes k s) (drop_bytes k t).
Proof.
  revert s t. induction k as [| k IH]; intros [| a s] [| b t] H;
    cbn in *; try tauto.
  apply IH. tauto.
Qed.

Lemma upper_nocase_bounded n s t :
  (String.length s <= n)%nat -> eq_nocase s t -> upper s = upper t.
Proof.
  revert s t. induction n as [| n IH]; intros [| a s] [| b t] Hn H;
    cbn in Hn, H; try tauto; try lia; try reflexivity.
  destruct H as [Hab H].
  destruct (nat_of_ascii a <? 128)%nat eqn:Ha.
  - pose proof (same_letter_ascii _ _ Hab) as Hb. rewrite Ha in Hb.
    rewrite (upper_ascii_char _ _ Ha), (upper_ascii_char _ _ (eq_sym Hb)).
    apply same_letter_upper in Hab. rewrite Hab. f_equal. apply IH; [lia | assumption].
  - pose proof (same_letter_not_ascii _ _ Hab Ha) as <-.
    rewrite !upper_cons, (decode_at_nocase a s t H).
    destruct (decode_at a t) as [[cp k] |].
    + f_equal. apply IH; [| now apply eq_nocase_drop_bytes].
      pose proof (length_drop_bytes k s). lia.
    + f_equal. apply IH; [lia | assumption].
Qed.

(** [upper] does not see the case of ASCII letters. *)
Lemma upper_nocase s t : eq_nocase s t -> upper s = upper t.
Proof. apply (upper_nocase_bounded (String.length s)). lia. Qed.

End UnicodeFacts.

(** ** Type mapper *)

Section TypeMapper.
Import PyStr PyStrFacts UnicodeFacts.

(** For an ASCII string and a keyword in capitals, to occur in the
    upper-cased string is to occur up to the case of letters. *)
Lemma keyword_matches_ascii key s :
  ascii_upper key = key ->
  ascii_only s = true ->
  keyword_matches key s <-> occurs_nocase key s.
Proof.
  intros Hkey Hs. unfold keyword_matches, occurs_in, occurs_nocase.
  rewrite (upper_ascii_only _ Hs). split.
  - intros (pre & post & H).
    apply upper_split in H as (s1 & s23 & -> & <- & H).
    apply upper_split in H as (s2 & s3 & -> & H2 & <-).
    exists s1, s2, s3. split; [reflexivity |].
    apply eq_nocase_upper. congruence.
  - intros (pre & mid & post & -> & H).
    apply eq_nocase_upper in H. rewrite Hkey in H.
    exists (ascii_upper pre), (ascii_upper post). now rewrite !upper_app, H.
Qed.

Lemma scan_mapping_spec (m : list (string * string)) s pg :
  scan_mapping m (upper s) = pg <-> mapType_spec m s pg.
Proof.
  unfold mapType_spec. revert pg.
  induction m as [| [k p] m IH]; intros pg.
  - simpl. split.
    + intros <-. right. split; [reflexivity | constructor].
    + intros [(pre & key & post & H & _) | [-> _]]; [| reflexivity].
      now destruct pre.
  - cbn [scan_mapping].
    pose proof (contains_iff k (upper s)) as Hc.
    fold (keyword_matches k s) in Hc.
    destruct (contains k (upper s)) eqn:E.
    + assert (keyword_matches k s) as Hocc by now apply Hc.
      split.
      * intros <-. left. exists [], k, m. repeat split; [assumption | constructor].
      * intros [(pre & key & post & H & Ho & Hpre) | [-> Hall]].
        -- destruct pre as [| kt pre].
           ++ simpl in H. congruence.
           ++ simpl in H. injection H as <- _.
              apply Forall_cons_1 in Hpre as [Hn _]. now destruct Hn.
        -- apply Forall_cons_1 in Hall as [Hn _]. now destruct Hn.
    + assert (~ keyword_matches k s) as Hocc.
      { intros Ho. apply Hc in Ho. discriminate. }
      rewrite IH. split.
      * intros [(pre & key & post & -> & Ho & Hpre) | [-> Hall]].
        -- left. exists ((k, p) :: pre), key, post.
           repeat split; [assumption |]. now constructor.
        -- right. split; [reflexivity |]. now constructor.
      * intros [(pre & key & post & H & Ho & Hpre) | [-> Hall]].
        -- destruct pre as [| kt pre].
           ++ simpl in H. injection H as <- <- <-. now destruct Hocc.
           ++ simpl in H. injection H as <- ->.
              apply Forall_cons_1 in Hpre as [_ Hpre].
              left. exists pre, key, post. now repeat split.
        -- apply Forall_cons_1 in Hall as [_ Hall]. now right.
Qed.

Lemma type_mapping_capitals :
  Forall (fun kt => ascii_upper kt.1 = kt.1) type_mapping.
Proof. repeat constructor. Qed.

(** C4 -- [sqlite_type_to_postgres] is a total function whose result is
    fixed by its argument.  For every source type string, the target type
    it returns is the one paired with the first keyword of the ordered
    table that occurs in the upper-cased string, and it is the fallback
    [TEXT] when no keyword occurs there; no other answer is possible.  The
    match does not depend on the case of letters: for a string of ASCII
    characters a keyword occurs in the upper-cased string exactly when it
    occurs in the string up to case, and two strings that differ by the
    case of ASCII letters get the same answer. *)
Theorem sqlite_type_to_postgres_first_match :
  (forall sqlite_type pg : string,
      sqlite_type_to_postgres sqlite_type = pg
      <-> mapType_spec type_mapping sqlite_type pg)
  /\ (forall sqlite_type keyword : string,
         ascii_only sqlite_type = true ->
         In keyword (map fst type_mapping) ->
         keyword_matches keyword sqlite_type
         <-> occurs_nocase keyword sqlite_type)
  /\ (forall s t : string,
         eq_nocase s t ->
         sqlite_type_to_postgres s = sqlite_type_to_postgres t).
Proof.
  split; [| split].
  - intros sqlite_type pg. apply scan_mapping_spec.
  - intros sqlite_type keyword Hs Hk.
    apply keyword_matches_ascii; [| assumption].
    apply in_map_iff in Hk as (kt & <- & Hk).
    pose proof type_mapping_capitals as Hcap.
    rewrite List.Forall_forall in Hcap. now apply Hcap.
  - intros s t H. unfold sqlite_type_to_postgres.
    now rewrite (upper_nocase _ _ H).
Qed.

End TypeMapper.

Example mapType_keywords :
  Forall (fun kt => sqlite_type_to_postgres kt.1 = kt.2) type_mapping.
Proof. repeat constructor. Qed.

Example mapType_datetime : sqlite_type_to_postgres "datetime" = "TIMESTAMP".
Proof. reflexivity. Qed.

Example mapType_varchar : sqlite_type_to_postgres "VarChar(255)" = "VARCHAR".
Proof. reflexivity. Qed.

Example mapType_unknown : sqlite_type_to_postgres "point" = "TEXT".
Proof. reflexivity. Qed.

(** Letters outside ASCII whose capital is an ASCII letter count too: the
    dotless i and the long s. *)
Example mapType_dotless_i : sqlite_type_to_postgres "ınteger" = "INTEGER".
Proof. vm_compute. reflexivity. Qed.

Example mapType_long_s : sqlite_type_to_postgres "jſon" = "JSONB".
Proof. vm_compute. reflexivity. Qed.

Example mapType_dotless_datetime :
  sqlite_type_to_postgres "datetıme" = "TIMESTAMP".
Proof. vm_compute. reflexivity. Qed.

Example upper_sharp_s : PyStr.upper "straße" = "STRASSE".
Proof. vm_compute. reflexivity. Qed.

(** ** Value converter *)

Section ConverterFacts.

Variable fromtimestamp_ms : pyval -> outcome datetime.

(** C6 -- a null input comes back as null whatever the target type. *)
Theorem convert_value_none (pg_type : string) :
  convert_value fromtimestamp_ms VNone pg_type = Ok VNone.
Proof. reflexivity. Qed.

(** Every path through [convert_value] ends in a [return]. *)
Lemma convert_value_returns (value : pyval) (pg_type : string) :
  exists v, convert_value fromtimestamp_ms value pg_type = Ok v.
Proof.
  unfold convert_value.
  destruct value; repeat case_match; eauto.
Qed.

(** C3 -- [convert_value] returns a value for every input value and every
    target type name, it never lets an exception reach its caller; and
    when the target type is a timestamp, date or time type, the input is
    numeric and the conversion from epoch milliseconds raises, the
    original input is returned unchanged. *)
Theorem convert_value_never_raises :
  (forall value pg_type, exists v, convert_value fromtimestamp_ms value pg_type = Ok v)
  /\ (forall value pg_type c msg,
         temporal_type pg_type ->
         is_int_or_float value = true ->
         fromtimestamp_ms value = Raised c msg ->
         convert_value fromtimestamp_ms value pg_type = Ok value).
Proof.
  split; [apply convert_value_returns |].
  intros value pg_type c msg Hty Hnum Hraise.
  destruct value; try discriminate Hnum;
    destruct Hty as [-> | [-> | [-> | ->]]];
    cbn; now rewrite Hraise.
Qed.

Lemma mem_lower_tokens s :
  PyStr.mem (PyStr.lower s) truthy_tokens = true
  <-> Exists (PyStr.eq_nocase s) truthy_tokens.
Proof.
  unfold truthy_tokens. rewrite !Exists_cons, Exists_nil.
  rewrite !PyStrFacts.eq_nocase_lower. cbn [PyStr.mem].
  rewrite !orb_true_iff, !String.eqb_eq. cbn. intuition discriminate.
Qed.

(** C5 -- for the boolean target type: a numeric input converts by the
    test against zero, a string converts to true exactly when it is one of
    the tokens true, 1, yes, t up to case, and any other non-null input
    converts by its truthiness. *)
Theorem convert_value_boolean :
  (forall n : Z, convert_value fromtimestamp_ms (VInt n) "boolean" = Ok (VBool (negb (n =? 0)%Z)))
  /\ (forall f : spec_float,
         convert_value fromtimestamp_ms (VFloat f) "boolean"
         = Ok (VBool (negb (SFeqb f (S754_zero false)))))
  /\ (forall b : bool, convert_value fromtimestamp_ms (VBool b) "boolean" = Ok (VBool b))
  /\ (forall s : string,
         exists b, convert_value fromtimestamp_ms (VStr s) "boolean" = Ok (VBool b)
                   /\ (b = true <-> Exists (PyStr.eq_nocase s) truthy_tokens))
  /\ (forall value,
         value <> VNone -> is_int_or_float value = false ->
         (forall s, value <> VStr s) ->
         convert_value fromtimestamp_ms value "boolean" = Ok (VBool (truthy value)))
  /\ convert_value fromtimestamp_ms (VInt 0) "boolean" = Ok (VBool false)
  /\ convert_value fromtimestamp_ms (VInt 1) "boolean" = Ok (VBool true)
  /\ convert_value fromtimestamp_ms (VStr "yes") "boolean" = Ok (VBool true)
  /\ convert_value fromtimestamp_ms (VStr "no") "boolean" = Ok (VBool false)
  /\ convert_value fromtimestamp_ms (VStr "YES") "boolean" = Ok (VBool true).
Proof.
  repeat split; try reflexivity.
  - intros [[] | [] | | [] ? ?]; reflexivity.
  - intros s. eexists. split; [reflexivity |]. apply mem_lower_tokens.
  - intros value Hnone Hnum Hstr.
    destruct value; try discriminate Hnum; try reflexivity.
    + now destruct Hnone.
    + now destruct (Hstr s).
Qed.

End ConverterFacts.

(** ** Rows and cells *)

Section RowFacts.

Context {W : Type} (be : backend W).

Lemma res_map_Forall2 {A B} (f : A -> res B) (l : list A) (ys : list B) :
  res_map f l = Ok ys -> Forall2 (fun x y => f x = Ok y) l ys.
Proof.
  revert ys. induction l as [| x l IH]; intros ys H; simpl in H.
  - injection H as <-. constructor.
  - destruct (f x) as [y |] eqn:Hx; [| discriminate]. simpl in H.
    destruct (res_map f l) as [ys' |]; [| discriminate]. simpl in H.
    injection H as <-. constructor; auto.
Qed.

Lemma res_map_returns {A B} (f : A -> res B) (l : list A) :
  (forall x, exists y, f x = Ok y) -> exists ys, res_map f l = Ok ys.
Proof.
  intros Hf. induction l as [| x l [ys IH]]; simpl; [eauto |].
  destruct (Hf x) as [y ->]. rewrite IH. simpl. eauto.
Qed.

Lemma convert_cell_returns pg_types cell :
  exists v, convert_cell be pg_types cell = Ok v.
Proof. apply convert_value_returns. Qed.

Lemma convert_row_returns column_names pg_types row :
  exists converted_row,
    convert_row be column_names pg_types row = Ok converted_row.
Proof. apply res_map_returns, convert_cell_returns. Qed.

(** C10 -- a column whose name the target did not report is converted with
    the target type [text]: its value is passed through unchanged, and the
    conversion does not fail. *)
Theorem convert_cell_unknown_column (pg_types : gmap string string)
    (col_name : string) (value : pyval) :
  pg_types !! col_name = None ->
  default "text" (pg_types !! col_name) = "text"
  /\ convert_cell be pg_types (col_name, value) = Ok value.
Proof.
  intros H. unfold convert_cell. cbn [fst snd]. rewrite H. cbn [default].
  split; [reflexivity |]. now destruct value.
Qed.

(** Position by position, the converted row holds the conversion of the
    source value for the target type of the column at that position. *)
Lemma convert_row_positions (column_names : list string)
    (pg_types : gmap string string) (row converted_row : list pyval) :
  convert_row be column_names pg_types row = Ok converted_row ->
  length converted_row = min (length column_names) (length row)
  /\ forall (k : nat) (c : string) (v : pyval),
       column_names !! k = Some c ->
       row !! k = Some v ->
       exists cv,
         converted_row !! k = Some cv
         /\ convert_value (be_fromtimestamp_ms be) v
              (default "text" (pg_types !! c)) = Ok cv.
Proof.
  intros Hrow. apply res_map_Forall2 in Hrow.
  pose proof (Forall2_length _ _ _ Hrow) as Hl.
  rewrite length_zip_with in Hl. split; [lia |].
  intros k c v Hc Hv.
  assert (zip column_names row !! k = Some (c, v)) as Hz.
  { apply lookup_zip_with_Some. eauto. }
  destruct (Forall2_lookup_l _ _ _ _ _ Hrow Hz) as (cv & Hcv & Hconv).
  exists cv. split; [assumption |]. exact Hconv.
Qed.

End RowFacts.

(** ** Batching *)

(** Cutting a list into consecutive pieces of [c] elements, the way the
    loop over [range(0, len(rows), batch_size)] slices [rows]. *)
Section Chunks.
Context {A : Type}.
Variable c : nat.
Hypothesis c_pos : 0 < c.

Lemma slice_take_drop (l : list A) i : slice l i (i + c) = take c (drop i l).
Proof. unfold slice. f_equal. lia. Qed.

Lemma range_length_bound n : n <= (n + (c - 1)) / c * c < n + c.
Proof.
  pose proof (Nat.div_mod (n + (c - 1)) c ltac:(lia)) as H.
  pose proof (Nat.mod_upper_bound (n + (c - 1)) c ltac:(lia)). nia.
Qed.

Lemma py_range_chunks (l : list A) n :
  map (fun i => slice l i (i + c)) (py_range 0 n c)
  = map (fun k => take c (drop (k * c) l)) (seq 0 ((n + (c - 1)) / c)).
Proof.
  unfold py_range. rewrite map_map, Nat.sub_0_r.
  apply map_ext. intros k. now rewrite slice_take_drop.
Qed.

Lemma chunks_concat m (l : list A) :
  length l <= m * c ->
  concat (map (fun k => take c (drop (k * c) l)) (seq 0 m)) = l.
Proof.
  revert l. induction m as [| m IH]; intros l Hl.
  - destruct l; [reflexivity | simpl in Hl; lia].
  - cbn [seq map concat]. rewrite <- seq_shift, map_map.
    rewrite (map_ext _ (fun k => take c (drop (k * c) (drop c l)))).
    + rewrite IH; [apply take_drop |]. rewrite length_drop. lia.
    + intros k. now rewrite drop_drop.
Qed.

Lemma chunks_sizes n (l : list A) k b :
  length l = n ->
  map (fun k => take c (drop (k * c) l)) (seq 0 ((n + (c - 1)) / c)) !! k = Some b ->
  1 <= length b <= c
  /\ (k + 1 < (n + (c - 1)) / c -> length b = c).
Proof.
  intros Hn Hk.
  pose proof (range_length_bound n) as Hb.
  change (map ?f ?l) with (f <$> l) in Hk.
  apply list_lookup_fmap_Some in Hk as (j & -> & Hj).
  apply lookup_seq in Hj as [-> Hlt]. cbn [Nat.add].
  rewrite length_take, length_drop, Hn. split; [nia |].
  intros Hk1. nia.
Qed.
End Chunks.

(** ** Table migrator *)

Section TableMigrator.
Context {W : Type} (be : backend W).

Lemma res_map_Ok_iff {A B} (f : A -> res B) (l : list A) (ys : list B) :
  res_map f l = Ok ys <-> Forall2 (fun x y => f x = Ok y) l ys.
Proof.
  split; [apply res_map_Forall2 |].
  induction 1 as [| x y l ys Hx _ IH]; [reflexivity |].
  simpl. now rewrite Hx, IH.
Qed.

Lemma res_map_slice {A B} (f : A -> res B) (l : list A) (ys : list B) i j :
  res_map f l = Ok ys -> res_map f (slice l i j) = Ok (slice ys i j).
Proof.
  rewrite !res_map_Ok_iff. intros H. unfold slice.
  now apply Forall2_take, Forall2_drop.
Qed.

Lemma executemany_batches_app tr1 tr2 :
  executemany_batches (tr1 ++ tr2)
  = executemany_batches tr1 ++ executemany_batches tr2.
Proof.
  induction tr1 as [| [] tr1 IH]; simpl; now rewrite ?IH.
Qed.

(** The loop over the batches hands the slices of the converted rows to
    [executemany] one after the other and stops at the first failure. *)
Lemma submit_loop sql names types rows converted l :
  res_map (convert_row be names types) rows = Ok converted ->
  forall s r s',
    for_each l
      (fun i =>
         bind (lift_res (res_map (convert_row be names types)
                           (slice rows i (i + batch_size))))
              (fun converted_batch =>
                 call (EvPgExecutemany sql converted_batch)
                      (be_pg_executemany be sql converted_batch))) s
    = (r, s') ->
    exists k tr,
      trace s' = trace s ++ tr
      /\ executemany_batches tr
         = map (fun i => slice converted i (i + batch_size)) (take k l)
      /\ (r = Ok tt -> k = length l).
Proof.
  intros Hconv. induction l as [| i l IH]; intros s r s' Hrun.
  - injection Hrun as <- <-. exists 0, []. now rewrite app_nil_r.
  - cbn [for_each] in Hrun. unfold bind at 1 2 in Hrun.
    unfold lift_res in Hrun.
    rewrite (res_map_slice _ _ _ i (i + batch_size) Hconv) in Hrun.
    unfold call in Hrun.
    destruct (be_pg_executemany be sql _ (world s)) as [[[] | c msg] w'];
      cbn [res_of_outcome status_of] in Hrun.
    + apply IH in Hrun as (k & tr & Htr & Hb & Hk). cbn [trace] in Htr.
      exists (S k), (EvPgExecutemany sql
                       (slice converted i (i + batch_size)) Done :: tr).
      split; [now rewrite Htr, <- app_assoc |].
      split; [cbn [executemany_batches take map]; now rewrite Hb |].
      intros Hr. cbn [length]. now rewrite (Hk Hr).
    + injection Hrun as <- <-.
      exists 1, [EvPgExecutemany sql
                   (slice converted i (i + batch_size)) (Failed c msg)].
      split; [reflexivity |]. split; [now destruct l |]. discriminate.
Qed.

(** C8 -- when the source read of a table returns at least one row, the
    rows are converted one by one and cut, in their order, into batches of
    100 rows, the last one possibly shorter and none of them empty; the
    batches handed to [executemany] are these, in this order, up to the
    first one the target refuses, and all of them when the table completes:
    their concatenation is then the converted row sequence, nothing
    reordered, repeated or left out. *)
Theorem batches_cover_rows (table_name : string) (s : state W)
    (column_names : list string) (rows : list (list pyval))
    (types : list (string * string)) (w1 w2 : W) (r : res unit)
    (s' : state W) :
  rows <> [] ->
  be_sqlite_select be (select_sql table_name) (world s)
    = (Returned (column_names, rows), w1) ->
  be_pg_column_types be (column_types_sql table_name) w1
    = (Returned types, w2) ->
  migrate_table_data be table_name s = (r, s') ->
  exists (tr : list event) (converted : list (list pyval))
         (parts : list (list (list pyval))),
    trace s' = trace s ++ tr
    /\ Forall2 (fun row converted_row =>
                  convert_row be column_names (dict_of_rows types) row
                  = Ok converted_row) rows converted
    /\ concat parts = converted
    /\ Forall (fun batch => 1 <= length batch <= batch_size) parts
    /\ (forall i batch,
           parts !! i = Some batch -> i + 1 < length parts ->
           length batch = batch_size)
    /\ executemany_batches tr `prefix_of` parts
    /\ (r = Ok tt -> executemany_batches tr = parts).
Proof.
  intros Hne Hsel Hty Hrun.
  destruct (res_map_returns (convert_row be column_names (dict_of_rows types))
              rows (convert_row_returns be _ _)) as [converted Hconv].
  pose proof (res_map_Forall2 _ _ _ Hconv) as Hall.
  pose proof (Forall2_length _ _ _ Hall) as Hlen.
  pose (parts := map (fun i => slice converted i (i + batch_size))
                     (py_range 0 (length rows) batch_size)).
  assert (0 < batch_size) as Hpos by (unfold batch_size; lia).
  assert (exists tr, trace s' = trace s ++ tr
            /\ executemany_batches tr `prefix_of` parts
            /\ (r = Ok tt -> executemany_batches tr = parts))
    as (tr & Htr & Hpre & Hok).
  { destruct rows as [| row0 rows']; [congruence |].
    unfold migrate_table_data, get_postgres_column_types, try_except, print,
      emit, mbind, mret, M_bind, M_ret, ret in Hrun.
    unfold bind at 1, call at 1 in Hrun. rewrite Hsel in Hrun.
    cbn [world trace bound res_of_outcome status_of] in Hrun.
    unfold bind at 1 2, call at 1 in Hrun.
    cbn [world trace bound res_of_outcome status_of] in Hrun.
    rewrite Hty in Hrun.
    cbn [world trace bound res_of_outcome status_of] in Hrun.
    unfold bind at 1 in Hrun.
    match type of Hrun with
    | context [for_each ?l ?body ?st] =>
        destruct (for_each l body st) as [r0 s0] eqn:Hloop
    end.
    apply (submit_loop _ _ _ _ _ _ Hconv) in Hloop as (k & tr & Htr & Hb & Hk).
    cbn [trace] in Htr.
    destruct r0 as [[] | e].
    - injection Hrun as <- <-. cbn [trace]. rewrite Htr.
      eexists. split; [rewrite <- !app_assoc; reflexivity |].
      rewrite !executemany_batches_app, Hb, (Hk eq_refl), firstn_all.
      cbn [executemany_batches app]. rewrite app_nil_r.
      split; [reflexivity | easy].
    - assert (exists tail, trace s' = trace s0 ++ tail
                           /\ executemany_batches tail = []
                           /\ r = Raise e) as (tail & Hs' & Htail & ->).
      { destruct e as [c msg | code]; unfold bind, raise in Hrun;
          injection Hrun as <- <-; cbn [trace].
        - eexists [_]. repeat split.
        - exists []. now rewrite app_nil_r. }
      exists (EvSqliteExecute (select_sql table_name) Done
                :: EvPgExecute (column_types_sql table_name) Done
                :: tr ++ tail).
      split; [rewrite Hs', Htr, <- !app_assoc; reflexivity |].
      cbn [executemany_batches]. rewrite executemany_batches_app, Hb, Htail.
      rewrite app_nil_r. split; [| discriminate].
      unfold parts. rewrite <- firstn_map. apply prefix_take.
  }
  exists tr, converted, parts. repeat split; try assumption.
  - unfold parts. rewrite (py_range_chunks _ Hpos).
    apply (chunks_concat _ Hpos). rewrite <- Hlen.
    apply (range_length_bound _ Hpos).
  - apply Forall_lookup_2. intros i batch Hi.
    unfold parts in Hi. rewrite (py_range_chunks _ Hpos) in Hi.
    now apply (chunks_sizes _ Hpos _ _ _ _ (eq_sym Hlen)) in Hi.
  - intros i batch Hi Hlast.
    unfold parts in Hi, Hlast. rewrite (py_range_chunks _ Hpos) in Hi, Hlast.
    rewrite length_map, length_seq in Hlast.
    apply (chunks_sizes _ Hpos _ _ _ _ (eq_sym Hlen)) in Hi as [_ Hi].
    now apply Hi.
Qed.
(** C7 -- a table that is described, created and then read as zero rows is
    reported as empty and completes: the [CREATE TABLE] statement has been
    executed, no [executemany] call is made, and nothing is raised. *)
Theorem empty_table_is_created_not_filled (table : string) (s : state W)
    (schema : list column_info) (column_names : list string) (w1 w2 w3 : W) :
  be_sqlite_table_info be (table_info_sql table) (world s)
    = (Returned schema, w1) ->
  be_pg_execute be (create_table_sql table schema) w1 = (Returned tt, w2) ->
  be_sqlite_select be (select_sql table) w2
    = (Returned (column_names, []), w3) ->
  let events :=
    [ EvPrint ("Processing table: " +:+ table);
      EvSqliteExecute (table_info_sql table) Done;
      EvPgExecute (create_table_sql table schema) Done;
      EvPrint ("✓ Created table: " +:+ table);
      EvSqliteExecute (select_sql table) Done;
      EvPrint ("  ⚠ Table " +:+ table +:+ " is empty");
      EvPrint EmptyString ] in
  process_table be table s
    = (Ok tt, mk_state w3 (trace s ++ events) (bound s))
  /\ executemany_batches events = [].
Proof.
  intros H1 H2 H3 events. split; [| reflexivity].
  unfold process_table, get_table_schema, create_postgres_table,
    migrate_table_data, print, emit, call, try_except, mbind, M_bind, bind.
  cbn [world trace bound].
  rewrite H1. cbn [world trace bound res_of_outcome status_of].
  rewrite H2. cbn [world trace bound res_of_outcome status_of].
  rewrite H3. cbn [world trace bound res_of_outcome status_of].
  now rewrite <- !app_assoc.
Qed.

End TableMigrator.

(** ** Migration driver *)

Lemma idle_forallb tr :
  idle tr -> forallb (fun e => negb (db_work e)) tr = true.
Proof.
  induction 1 as [| ev tr Hev _ IH]; [reflexivity |].
  cbn. now rewrite Hev, IH.
Qed.

Lemma forallb_idle tr :
  forallb (fun e => negb (db_work e)) tr = true -> idle tr.
Proof.
  induction tr as [| ev tr IH]; [constructor |].
  cbn. intros [Hev Htr]%andb_prop. constructor; [| now apply IH].
  now destruct (db_work ev).
Qed.

Lemma quiet_idle tr : idle tr -> quiet_after_failure tr = true.
Proof.
  induction 1 as [| ev tr Hev Htr IH]; [reflexivity |].
  cbn. rewrite IH, (idle_forallb _ Htr). now destruct (failed ev).
Qed.

Lemma quiet_app_steady a b :
  steady a -> quiet_after_failure (a ++ b) = quiet_after_failure b.
Proof.
  induction 1 as [| ev a Hev _ IH]; [reflexivity |].
  cbn. now rewrite Hev, IH.
Qed.

Lemma quiet_steady tr : steady tr -> quiet_after_failure tr = true.
Proof.
  intros H. rewrite <- (app_nil_r tr). now rewrite quiet_app_steady.
Qed.

Lemma prints_idle tr : Forall (fun ev => is_print ev = true) tr -> idle tr.
Proof.
  intros H. eapply Forall_impl; [exact H |]. now intros [].
Qed.

Lemma quiet_stopped tr h :
  stopped tr -> idle h -> quiet_after_failure (tr ++ h) = true.
Proof.
  intros (a & b & -> & Ha & Hb) Hh.
  rewrite <- app_assoc, (quiet_app_steady _ _ Ha).
  destruct b as [| ev b]; [now apply quiet_idle |].
  cbn in Hb. apply prints_idle in Hb.
  assert (idle (b ++ h)) as Hbh by now apply Forall_app.
  cbn. rewrite (quiet_idle _ Hbh), (idle_forallb _ Hbh).
  now destruct (failed ev).
Qed.

Lemma quiet_split tr1 ev tr2 :
  quiet_after_failure (tr1 ++ ev :: tr2) = true ->
  failed ev = true -> idle tr2.
Proof.
  intros H Hev. induction tr1 as [| x tr1 IH].
  - cbn in H. rewrite Hev in H. apply andb_prop in H as [H _].
    now apply forallb_idle.
  - cbn in H. apply andb_prop in H as [_ H]. now apply IH.
Qed.

Section Driver.
Context {W : Type} (be : backend W).

Lemma fail_fast_ret {A} (a : A) : fail_fast (W := W) (ret a).
Proof.
  intros s r s' H. injection H as <- <-. exists [].
  split; [now rewrite app_nil_r | constructor].
Qed.

Lemma fail_fast_bind {A B} (m : M W A) (k : A -> M W B) :
  fail_fast m -> (forall a, fail_fast (k a)) -> fail_fast (bind m k).
Proof.
  intros Hm Hk s r s' H. unfold bind in H.
  destruct (m s) as [[a | e] s1] eqn:E1.
  - destruct (Hm _ _ _ E1) as (tr1 & Ht1 & Hs1).
    destruct (Hk a _ _ _ H) as (tr2 & Ht2 & Hs2).
    exists (tr1 ++ tr2). split; [now rewrite Ht2, Ht1, app_assoc |].
    destruct r as [b | e].
    + now apply Forall_app.
    + destruct Hs2 as [(x & y & -> & Hx & Hy) He]. split; [| assumption].
      exists (tr1 ++ x), y. split; [now rewrite app_assoc |].
      split; [now apply Forall_app | assumption].
  - injection H as <- <-. exact (Hm _ _ _ E1).
Qed.

Lemma fail_fast_emit ev : failed ev = false -> fail_fast (W := W) (emit ev).
Proof.
  intros Hev s r s' H. injection H as <- <-. exists [ev].
  split; [reflexivity | now constructor].
Qed.

Lemma fail_fast_print line : fail_fast (W := W) (print line).
Proof. now apply fail_fast_emit. Qed.

Lemma fail_fast_assign f : fail_fast (W := W) (assign f).
Proof.
  intros s r s' H. injection H as <- <-. exists [].
  split; [cbn; now rewrite app_nil_r | constructor].
Qed.

Lemma fail_fast_call {A} (ev : status -> event) (f : W -> outcome A * W) :
  failed (ev Done) = false -> fail_fast (call ev f).
Proof.
  intros Hev s r s' H. unfold call in H.
  destruct (f (world s)) as [[a | c msg] w']; injection H as <- <-; eexists;
    (split; [reflexivity |]); cbn.
  - now constructor.
  - split; [| eauto]. exists [], [ev (Failed c msg)].
    repeat split; constructor.
Qed.

Lemma fail_fast_for_each {A} (l : list A) (body : A -> M W unit) :
  (forall x, fail_fast (body x)) -> fail_fast (for_each l body).
Proof.
  intros Hbody. induction l as [| x l IH]; cbn [for_each].
  - apply fail_fast_ret.
  - apply fail_fast_bind; auto.
Qed.

(** A handler that reports and raises the exception again keeps the
    property. *)
Lemma fail_fast_reraise {A} (body : M W A) (report : string -> string) :
  fail_fast body ->
  fail_fast
    (try_except body
       (fun e =>
          match e with
          | Exn _ msg => bind (print (report msg)) (fun _ => raise e)
          | SystemExit _ => raise e
          end)).
Proof.
  intros Hbody s r s' H. unfold try_except in H.
  destruct (body s) as [[a | e] s1] eqn:E1.
  - injection H as <- <-. exact (Hbody _ _ _ E1).
  - destruct (Hbody _ _ _ E1) as (tr & Ht & [(x & y & -> & Hx & Hy) He]).
    destruct He as (c & msg & ->). injection H as <- <-.
    exists (x ++ y ++ [EvPrint (report msg)]). cbn [trace].
    split; [now rewrite Ht, <- !app_assoc |].
    split; [| eauto]. exists x, (y ++ [EvPrint (report msg)]).
    repeat split; [assumption |].
    destruct y as [| ev y]; [constructor |]. cbn in *.
    apply Forall_app. split; [assumption | now constructor].
Qed.

Lemma fail_fast_convert column_names pg_types batch :
  fail_fast (W := W)
    (lift_res (res_map (convert_row be column_names pg_types) batch)).
Proof.
  intros s r s' H.
  destruct (res_map_returns (convert_row be column_names pg_types) batch
              (convert_row_returns be _ _)) as [ys Hys].
  unfold lift_res in H. rewrite Hys in H. injection H as <- <-.
  exists []. split; [now rewrite app_nil_r | constructor].
Qed.

Create HintDb fail_fast.
Hint Resolve fail_fast_ret fail_fast_emit fail_fast_print fail_fast_assign
  fail_fast_convert : fail_fast.

Ltac fail_fast_step :=
  first
    [ apply fail_fast_bind; [| intros ?]
    | apply fail_fast_call; reflexivity
    | apply fail_fast_reraise
    | apply fail_fast_for_each; intros ?
    | match goal with
      | |- fail_fast (match ?x with _ => _ end) => destruct x
      end
    | solve [auto with fail_fast] ].

Lemma fail_fast_process_table table : fail_fast (process_table be table).
Proof.
  unfold process_table, get_table_schema, create_postgres_table,
    migrate_table_data, get_postgres_column_types, mbind, mret, M_bind, M_ret.
  repeat fail_fast_step.
Qed.

Lemma fail_fast_main_try : fail_fast (main_try be).
Proof.
  unfold main_try, get_sqlite_tables, mbind, mret, M_bind, M_ret.
  repeat first [apply fail_fast_for_each; intros ?;
                  apply fail_fast_process_table
               | fail_fast_step].
Qed.

(** The handlers report, roll back at most, and end the process with
    status 1 whatever happens to them. *)
Lemma main_except_exits c msg s :
  exists e s' h,
    main_except be (Exn c msg) s = (Raise e, s')
    /\ trace s' = trace s ++ h
    /\ idle h
    /\ exit_code (Raise e) = 1%Z.
Proof.
  unfold main_except, rollback_if_connected, sys_exit, read_local, print, emit,
    call, raise, mbind, M_bind, bind.
  destruct c; cbn [world trace bound];
    try (destruct (pg_conn (bound s)); cbn [world trace bound];
         [destruct (be_pg_rollback be (world s)) as [[[] | c' msg'] w'] |]);
    cbn [world trace bound res_of_outcome status_of];
    do 3 eexists; (split; [reflexivity |]); rewrite <- ?app_assoc;
    (split; [reflexivity |]); (split; [| reflexivity]);
    repeat constructor.
Qed.

(** The [finally] block only closes what is open. *)
Lemma main_finally_closes (s : state W) :
  exists r s' f,
    main_finally s = (r, s')
    /\ trace s' = trace s ++ f
    /\ idle f /\ steady f
    /\ (r = Ok tt \/ exists c msg, r = Raise (Exn c msg)).
Proof.
  unfold main_finally, close_if_set, read_local, emit, mbind, M_bind, bind, ret.
  destruct s as [w tr [[] [] [] []]]; cbn [world trace bound sqlite_conn
    sqlite_cursor pg_conn pg_cursor];
    do 3 eexists; (split; [reflexivity |]); rewrite <- ?app_assoc;
    (split; [first [reflexivity | symmetry; apply app_nil_r] |]);
    repeat split; eauto; repeat constructor.
Qed.

(** The guarded part of [main]: the [try] with its handlers and its
    [finally]. *)
Lemma guarded_run_stops (s : state W) :
  exists r s' tr,
    try_finally (try_except (main_try be) (main_except be)) main_finally s
    = (r, s')
    /\ trace s' = trace s ++ tr
    /\ quiet_after_failure tr = true
    /\ (~ steady tr -> exit_code r = 1%Z).
Proof.
  unfold try_finally, try_except.
  destruct (main_try be s) as [[[] | e] s1] eqn:E;
    destruct (fail_fast_main_try _ _ _ E) as (tr1 & Ht1 & H1).
  - destruct (main_finally_closes s1) as (rf & s2 & f & -> & Hf & Hi & Hs & Hr).
    exists (match rf with Ok _ => Ok tt | Raise e => Raise e end), s2, (tr1 ++ f).
    assert (steady (tr1 ++ f)) as Hall by now apply Forall_app.
    split; [now destruct rf as [[] |] |].
    split; [now rewrite Hf, Ht1, app_assoc |].
    split; [now apply quiet_steady | now intros []].
  - destruct H1 as [Hstop (c & msg & ->)].
    destruct (main_except_exits c msg s1) as (e' & s2 & h & -> & Hh & Hhi & He').
    destruct (main_finally_closes s2) as (rf & s3 & f & -> & Hf & Hi & _ & Hr).
    exists (match rf with Ok _ => Raise e' | Raise e => Raise e end), s3,
      (tr1 ++ h ++ f).
    split; [now destruct rf as [[] |] |].
    split; [now rewrite Hf, Hh, Ht1, <- !app_assoc |].
    split; [apply quiet_stopped; [assumption | now apply Forall_app] |].
    intros _. destruct Hr as [-> | (c' & msg' & ->)]; [assumption | reflexivity].
Qed.

Lemma main_stops (w : W) :
  quiet_after_failure (run be w).2 = true
  /\ (~ steady (run be w).2 -> (run be w).1 = 1%Z).
Proof.
  unfold run, main, print, emit, input, call, mbind, M_bind, bind, initial.
  cbn [world trace bound].
  destruct (be_input be _ w) as [response w1].
  cbn [world trace bound res_of_outcome status_of].
  destruct (negb _).
  - cbn. split; [reflexivity |]. intros []. repeat constructor.
  - match goal with
    | |- context [try_finally _ _ ?st] =>
        destruct (guarded_run_stops st) as (r & s' & tr & -> & Ht & Hq & Hc)
    end.
    cbn [fst snd trace] in *. rewrite Ht.
    match goal with
    | |- context [quiet_after_failure (?hd ++ tr)] =>
        assert (steady hd) as Hhd by repeat constructor
    end.
    split; [now rewrite quiet_app_steady |].
    intros Hn. apply Hc. intros Htr. apply Hn. now apply Forall_app.
Qed.
End Driver.

(** C1, as stated, fails: with tables [a] and [b] and a source that cannot
    describe [a], table [b] is never processed. *)
Lemma introspection_failure_not_skipped :
  ~ skips_and_continues ["a"; "b"] (run Fixture.broken_first []).2.
Proof.
  intros H.
  specialize (H [] "a" ["b"] SqliteError "database disk image is malformed"
                (take 19 (run Fixture.broken_first []).2)
                (drop 20 (run Fixture.broken_first []).2)
                eq_refl).
  assert ((run Fixture.broken_first []).2
          = take 19 (run Fixture.broken_first []).2
            ++ EvSqliteExecute (table_info_sql "a")
                 (Failed SqliteError "database disk image is malformed")
            :: drop 20 (run Fixture.broken_first []).2) as Htr
    by (vm_compute; reflexivity).
  apply H in Htr. apply Forall_cons_1 in Htr as [Hb _].
  vm_compute in Hb. intuition discriminate.
Qed.

(** C2, on a run whose source fails after the first table was copied: the
    target connection is open and has received rows, the process ends with
    status 1, and no rollback is ever called. *)
Theorem source_error_skips_rollback :
  (run Fixture.broken_second []).1 = 1%Z
  /\ In (EvPgConnect PG_CONFIG Done) (run Fixture.broken_second []).2
  /\ existsb is_executemany (run Fixture.broken_second []).2 = true
  /\ existsb is_rollback (run Fixture.broken_second []).2 = false.
Proof.
  vm_compute. repeat split. do 14 right. now left.
Qed.

(** The handler of target errors, next to it, does roll back. *)
Example target_error_rolls_back :
  (run Fixture.refused_second []).1 = 1%Z
  /\ existsb is_rollback (run Fixture.refused_second []).2 = true.
Proof. vm_compute. split; reflexivity. Qed.

(** ** The statements above on the scripted databases *)

(** The two rows of [users] arrive as one batch, booleans and timestamps
    converted. *)
Example users_run :
  run Fixture.users [] =
    (0%Z, (run Fixture.users []).2) /\
  executemany_batches (run Fixture.users []).2 =
    [ [ [VInt 1; VBool true;
         VDatetime (mk_datetime (mk_date 2023 11 14) (mk_time 22 13 20 0))];
        [VInt 2; VBool false;
         VDatetime (mk_datetime (mk_date 2023 11 14) (mk_time 23 13 20 0))] ] ].
Proof. vm_compute. split; reflexivity. Qed.

Lemma empty_table_witness :
  let events :=
    [ EvPrint ("Processing table: " +:+ "users");
      EvSqliteExecute (table_info_sql "users") Done;
      EvPgExecute (create_table_sql "users" Fixture.users_schema) Done;
      EvPrint ("✓ Created table: " +:+ "users");
      EvSqliteExecute (select_sql "users") Done;
      EvPrint ("  ⚠ Table " +:+ "users" +:+ " is empty");
      EvPrint EmptyString ] in
  process_table Fixture.empty_users "users" Fixture.start
    = (Ok tt, mk_state [] (trace Fixture.start ++ events) (bound Fixture.start))
  /\ executemany_batches events = [].
Proof.
  apply (empty_table_is_created_not_filled Fixture.empty_users "users"
           Fixture.start Fixture.users_schema Fixture.users_columns [] [] []);
    reflexivity.
Defined.

Lemma batches_witness :
  exists tr converted parts,
    trace (migrate_table_data Fixture.big "big" Fixture.start).2
      = trace Fixture.start ++ tr
    /\ Forall2 (fun row converted_row =>
                  convert_row Fixture.big ["n"] (dict_of_rows [("n", "integer")])
                              row = Ok converted_row)
               (Fixture.counting_rows 250) converted
    /\ concat parts = converted
    /\ Forall (fun batch => 1 <= length batch <= batch_size) parts
    /\ (forall i batch,
           parts !! i = Some batch -> i + 1 < length parts ->
           length batch = batch_size)
    /\ executemany_batches tr `prefix_of` parts
    /\ ((migrate_table_data Fixture.big "big" Fixture.start).1 = Ok tt ->
        executemany_batches tr = parts).
Proof.
  apply (batches_cover_rows Fixture.big "big" Fixture.start ["n"]
           (Fixture.counting_rows 250) [("n", "integer")] [] []).
  - vm_compute. discriminate.
  - reflexivity.
  - reflexivity.
  - vm_compute. reflexivity.
Defined.

Example big_batches :
  map length
      (executemany_batches
         (trace (migrate_table_data Fixture.big "big" Fixture.start).2))
  = [100; 100; 50].
Proof. vm_compute. reflexivity. Qed.

Lemma unknown_column_witness :
  default "text" (dict_of_rows Fixture.users_types !! "nickname") = "text"
  /\ convert_cell Fixture.users (dict_of_rows Fixture.users_types)
                  ("nickname", VInt 1700000000000)
     = Ok (VInt 1700000000000).
Proof.
  apply (convert_cell_unknown_column Fixture.users
           (dict_of_rows Fixture.users_types) "nickname" (VInt 1700000000000)).
  vm_compute. reflexivity.
Defined.

(** * Further properties *)

(** ** Further properties of the type mapper *)

Section TypeMapperMore.
Import PyStr PyStrFacts.

Lemma scan_mapping_range m u : In (scan_mapping m u) ("TEXT" :: map snd m).
Proof.
  induction m as [| [k p] m IH]; [now left |].
  cbn [scan_mapping map snd]. destruct (contains k u).
  - right. now left.
  - destruct IH as [IH | IH]; [now left | right; now right].
Qed.

(** X1 -- whatever the declared type, the result is one of the eleven
    target type names of the table. *)
Theorem sqlite_type_to_postgres_range (sqlite_type : string) :
  In (sqlite_type_to_postgres sqlite_type)
     ["INTEGER"; "TEXT"; "REAL"; "BYTEA"; "NUMERIC"; "VARCHAR"; "TIMESTAMP";
      "DATE"; "TIME"; "BOOLEAN"; "JSONB"].
Proof.
  destruct (scan_mapping_range type_mapping (upper sqlite_type)) as [H | H].
  - unfold sqlite_type_to_postgres. rewrite <- H. right. now left.
  - exact H.
Qed.

(** X2 -- two declared types that differ only by the case of their letters
    are mapped to the same target type. *)
Theorem sqlite_type_to_postgres_nocase (s t : string) :
  eq_nocase s t -> sqlite_type_to_postgres s = sqlite_type_to_postgres t.
Proof.
  intros H. unfold sqlite_type_to_postgres.
  now rewrite (UnicodeFacts.upper_nocase _ _ H).
Qed.

(** X3 -- the first keyword of the table wins over everything else: the
    result is [INTEGER] exactly when INTEGER occurs in the upper-cased
    declared type, whatever other keywords occur in it. *)
Theorem sqlite_type_to_postgres_integer (sqlite_type : string) :
  sqlite_type_to_postgres sqlite_type = "INTEGER"
  <-> keyword_matches "INTEGER" sqlite_type.
Proof.
  unfold keyword_matches. rewrite <- contains_iff.
  unfold sqlite_type_to_postgres, type_mapping. cbn [scan_mapping].
  destruct (contains "INTEGER" (upper sqlite_type)); [tauto |].
  repeat match goal with
         | |- context [contains ?k (upper sqlite_type)] =>
             destruct (contains k (upper sqlite_type))
         end;
    split; intros; congruence.
Qed.

(** X4 -- the keyword DATETIME shadows DATE and TIME, which both occur in
    it: a declared type whose upper-casing contains DATETIME is never
    mapped to [DATE] or [TIME]; and [TIMESTAMP] is the result only for a
    declared type whose upper-casing contains DATETIME. *)
Theorem sqlite_type_to_postgres_datetime (sqlite_type : string) :
  (keyword_matches "DATETIME" sqlite_type ->
   sqlite_type_to_postgres sqlite_type <> "DATE"
   /\ sqlite_type_to_postgres sqlite_type <> "TIME")
  /\ (sqlite_type_to_postgres sqlite_type = "TIMESTAMP" ->
      keyword_matches "DATETIME" sqlite_type).
Proof.
  unfold keyword_matches. rewrite <- contains_iff.
  unfold sqlite_type_to_postgres, type_mapping. cbn [scan_mapping].
  repeat match goal with
         | |- context [contains ?k (upper sqlite_type)] =>
             destruct (contains k (upper sqlite_type))
         end;
    repeat split; intros; congruence.
Qed.

End TypeMapperMore.

Lemma sqlite_type_to_postgres_nocase_witness :
  sqlite_type_to_postgres "Blob" = sqlite_type_to_postgres "bLOB".
Proof.
  apply (sqlite_type_to_postgres_nocase "Blob" "bLOB").
  cbn. repeat split; unfold PyStr.same_letter; vm_compute; tauto.
Defined.

(** ** Further properties of the value converter *)

Section ConverterMore.

Variable fromtimestamp_ms : pyval -> outcome datetime.

Lemma temporal_type_cases pg_type :
  temporal_type pg_type
  \/ (PyStr.mem pg_type
        ["timestamp without time zone"; "timestamp with time zone"] = false
      /\ String.eqb pg_type "date" = false
      /\ String.eqb pg_type "time without time zone" = false).
Proof.
  unfold temporal_type. cbn [PyStr.mem].
  destruct (String.eqb_spec pg_type "timestamp without time zone"); [tauto |].
  destruct (String.eqb_spec pg_type "timestamp with time zone"); [tauto |].
  destruct (String.eqb_spec pg_type "date"); [tauto |].
  destruct (String.eqb_spec pg_type "time without time zone"); [tauto |].
  now right.
Qed.

(** X5 -- the value is handed back unchanged unless the target type is
    [boolean], or it is one of the four temporal types and the value is a
    number: an unknown or differently spelled type name never fails and
    never alters the value, and text in a temporal column is passed on as
    it is. *)
Theorem convert_value_unchanged (value : pyval) (pg_type : string) :
  pg_type <> "boolean" ->
  ~ (temporal_type pg_type /\ is_int_or_float value = true) ->
  convert_value fromtimestamp_ms value pg_type = Ok value.
Proof.
  intros Hb Ht. unfold convert_value.
  destruct (String.eqb_spec pg_type "boolean") as [-> | _]; [now destruct Hb |].
  destruct (temporal_type_cases pg_type) as [Htemp | (-> & -> & ->)].
  - destruct (is_int_or_float value) eqn:Hn; [now destruct Ht |].
    destruct value; try discriminate Hn; repeat case_match; reflexivity.
  - destruct value; try reflexivity; now destruct (is_int_or_float _).
Qed.

(** X6 -- converting twice is converting once: a value that came out of
    [convert_value] is left as it is by a second conversion to the same
    target type. *)
Theorem convert_value_idempotent (value converted : pyval) (pg_type : string) :
  convert_value fromtimestamp_ms value pg_type = Ok converted ->
  convert_value fromtimestamp_ms converted pg_type = Ok converted.
Proof.
  unfold convert_value. intros H.
  destruct value; repeat case_match; simplify_eq; try reflexivity;
    cbn in *; try congruence;
    repeat match goal with
           | H : ?x = _ |- context [match ?x with _ => _ end] => rewrite H
           end; try reflexivity; try congruence.
Qed.

End ConverterMore.

Lemma convert_value_unchanged_witness :
  convert_value Clock.utc_fromtimestamp_ms (VStr "2023-11-14") "date"
  = Ok (VStr "2023-11-14").
Proof.
  apply (convert_value_unchanged Clock.utc_fromtimestamp_ms
           (VStr "2023-11-14") "date").
  - discriminate.
  - intros [_ H]. discriminate H.
Defined.

Lemma convert_value_idempotent_witness :
  convert_value Clock.utc_fromtimestamp_ms
    (VDatetime (mk_datetime (mk_date 2023 11 14) (mk_time 22 13 20 0)))
    "timestamp without time zone"
  = Ok (VDatetime (mk_datetime (mk_date 2023 11 14) (mk_time 22 13 20 0))).
Proof.
  apply (convert_value_idempotent Clock.utc_fromtimestamp_ms
           (VInt 1700000000000)).
  vm_compute. reflexivity.
Defined.

(** ** Further properties of rows and of the column-type dictionary *)

Section RowMore.

Context {W : Type} (be : backend W).

(** X7 -- [zip] stops at the shorter of its arguments: the converted row
    has as many values as the shorter of the column list and the source
    row, so surplus values of a longer row are dropped and a shorter row
    gives a shorter tuple; the conversion itself never fails. *)
Theorem convert_row_length (column_names : list string)
    (pg_types : gmap string string) (row : list pyval) :
  exists converted_row,
    convert_row be column_names pg_types row = Ok converted_row
    /\ length converted_row = min (length column_names) (length row).
Proof.
  destruct (convert_row_returns be column_names pg_types row) as [crow Hrow].
  exists crow. split; [assumption |].
  apply res_map_Forall2, Forall2_length in Hrow.
  now rewrite length_zip_with in Hrow.
Qed.

End RowMore.

Lemma dict_of_rows_app (rows1 rows2 : list (string * string)) :
  dict_of_rows (rows1 ++ rows2)
  = foldl (fun (m : gmap string string) (row : string * string) =>
             <[row.1 := row.2]> m) (dict_of_rows rows1) rows2.
Proof. unfold dict_of_rows. apply foldl_app. Qed.

Lemma foldl_insert_absent (rows : list (string * string))
    (m : gmap string string) (k : string) :
  ~ In k (map fst rows) ->
  foldl (fun (m : gmap string string) (row : string * string) =>
           <[row.1 := row.2]> m) m rows !! k = m !! k.
Proof.
  revert m. induction rows as [| [k' v'] rows IH]; intros m Hk; [reflexivity |].
  cbn [foldl fst snd]. cbn in Hk. rewrite IH by tauto.
  apply lookup_insert_ne. tauto.
Qed.

Lemma foldl_insert_present (rows : list (string * string))
    (m : gmap string string) (k : string) :
  is_Some (m !! k) ->
  is_Some (foldl (fun (m : gmap string string) (row : string * string) =>
                    <[row.1 := row.2]> m) m rows !! k).
Proof.
  revert m. induction rows as [| [k' v'] rows IH]; intros m Hk; [assumption |].
  cbn [foldl fst snd]. apply IH. rewrite lookup_insert.
  case_decide; eauto.
Qed.

(** X8 -- the dictionary of column types answers for a column name with
    the type of the last row that carries this name (a later row overrides
    an earlier one), and has no entry exactly for the names that no row
    carries. *)
Theorem dict_of_rows_lookup (rows : list (string * string)) (k : string) :
  (forall rows1 v rows2,
      rows = rows1 ++ (k, v) :: rows2 ->
      ~ In k (map fst rows2) ->
      dict_of_rows rows !! k = Some v)
  /\ (dict_of_rows rows !! k = None <-> ~ In k (map fst rows)).
Proof.
  split.
  - intros rows1 v rows2 -> Hk.
    rewrite dict_of_rows_app. cbn [foldl fst snd].
    rewrite foldl_insert_absent by assumption. apply lookup_insert_eq.
  - split.
    + intros Hnone Hin. apply in_map_iff in Hin as ([k' v] & Hk & Hin).
      cbn in Hk. subst k'. apply in_split in Hin as (rows1 & rows2 & ->).
      rewrite dict_of_rows_app in Hnone. cbn [foldl fst snd] in Hnone.
      assert (is_Some (<[k:=v]> (dict_of_rows rows1) !! k)) as Hs
        by (rewrite lookup_insert_eq; eauto).
      apply (foldl_insert_present rows2) in Hs. rewrite Hnone in Hs.
      now destruct Hs.
    + intros Hk. unfold dict_of_rows. rewrite foldl_insert_absent by assumption.
      apply lookup_empty.
Qed.

(** ** Further properties of the table migrator *)

Section TableMigratorMore.

Context {W : Type} (be : backend W).

(** X9 -- when the target refuses the [CREATE TABLE] statement of a table,
    the error is reported once and the same exception is raised again; the
    rows of the table are never read. *)
Theorem ddl_failure_skips_data (table : string) (s : state W)
    (schema : list column_info) (c : exn_class) (msg : string) (w1 w2 : W) :
  be_sqlite_table_info be (table_info_sql table) (world s)
    = (Returned schema, w1) ->
  be_pg_execute be (create_table_sql table schema) w1 = (Raised c msg, w2) ->
  process_table be table s
  = (Raise (Exn c msg),
     mk_state w2
       (trace s ++
        [ EvPrint ("Processing table: " +:+ table);
          EvSqliteExecute (table_info_sql table) Done;
          EvPgExecute (create_table_sql table schema) (Failed c msg);
          EvPrint ("✗ Error creating table " +:+ table +:+ ": " +:+ msg) ])
       (bound s)).
Proof.
  intros H1 H2.
  unfold process_table, get_table_schema, create_postgres_table, print, emit,
    call, try_except, raise, mbind, M_bind, bind.
  cbn [world trace bound].
  rewrite H1. cbn [world trace bound res_of_outcome status_of].
  rewrite H2. cbn [world trace bound res_of_outcome status_of].
  now rewrite <- !app_assoc.
Qed.

(** X10 -- the column types of the target are asked for outside the [try]
    of [migrate_table_data]: when that query fails, its exception is raised
    as it is, without an error line, and no row is handed to the target. *)
Theorem column_types_failure_is_raised (table_name : string) (s : state W)
    (column_names : list string) (rows : list (list pyval))
    (c : exn_class) (msg : string) (w1 w2 : W) :
  rows <> [] ->
  be_sqlite_select be (select_sql table_name) (world s)
    = (Returned (column_names, rows), w1) ->
  be_pg_column_types be (column_types_sql table_name) w1
    = (Raised c msg, w2) ->
  migrate_table_data be table_name s
  = (Raise (Exn c msg),
     mk_state w2
       (trace s ++
        [ EvSqliteExecute (select_sql table_name) Done;
          EvPgExecute (column_types_sql table_name) (Failed c msg) ])
       (bound s)).
Proof.
  intros Hne H1 H2. destruct rows as [| row0 rows]; [congruence |].
  unfold migrate_table_data, get_postgres_column_types, call, mbind, M_bind,
    bind.
  rewrite H1. cbn [world trace bound res_of_outcome status_of].
  rewrite H2. cbn [world trace bound res_of_outcome status_of].
  now rewrite <- !app_assoc.
Qed.

(** The events of the loop over the batches, exactly. *)
Lemma submit_loop_exact sql names types rows converted l :
  res_map (convert_row be names types) rows = Ok converted ->
  forall s r s',
    for_each l
      (fun i =>
         bind (lift_res (res_map (convert_row be names types)
                           (slice rows i (i + batch_size))))
              (fun converted_batch =>
                 call (EvPgExecutemany sql converted_batch)
                      (be_pg_executemany be sql converted_batch))) s
    = (r, s') ->
    bound s' = bound s
    /\ ((r = Ok tt
         /\ trace s'
            = trace s
              ++ map (fun i => EvPgExecutemany sql
                                 (slice converted i (i + batch_size)) Done) l)
        \/ exists l1 i l2 c msg,
             l = l1 ++ i :: l2
             /\ r = Raise (Exn c msg)
             /\ trace s'
                = trace s
                  ++ map (fun i => EvPgExecutemany sql
                                     (slice converted i (i + batch_size)) Done)
                         l1
                  ++ [EvPgExecutemany sql
                        (slice converted i (i + batch_size)) (Failed c msg)]).
Proof.
  intros Hconv. induction l as [| i l IH]; intros s r s' Hrun.
  - injection Hrun as <- <-. split; [reflexivity |]. left.
    now rewrite app_nil_r.
  - cbn [for_each] in Hrun. unfold bind at 1 2 in Hrun.
    unfold lift_res in Hrun.
    rewrite (res_map_slice _ _ _ i (i + batch_size) Hconv) in Hrun.
    unfold call in Hrun.
    destruct (be_pg_executemany be sql _ (world s)) as [[[] | c msg] w'];
      cbn [res_of_outcome status_of] in Hrun.
    + apply IH in Hrun as [Hb Hrun]. cbn [trace bound] in *.
      split; [assumption |].
      destruct Hrun as [[-> Ht] | (l1 & j & l2 & c & msg & -> & -> & Ht)].
      * left. split; [reflexivity |]. now rewrite Ht, <- app_assoc.
      * right. exists (i :: l1), j, l2, c, msg.
        repeat split. now rewrite Ht, <- app_assoc.
    + injection Hrun as <- <-. split; [reflexivity |]. right.
      exists [], i, l, c, msg. repeat split.
Qed.

(** What [migrate_table_data] does once the rows and the column types are
    there. *)
Lemma migrate_table_data_exact (table_name : string) (s : state W)
    (column_names : list string) (rows : list (list pyval))
    (types : list (string * string)) (w1 w2 : W) (r : res unit)
    (s' : state W) :
  rows <> [] ->
  be_sqlite_select be (select_sql table_name) (world s)
    = (Returned (column_names, rows), w1) ->
  be_pg_column_types be (column_types_sql table_name) w1
    = (Returned types, w2) ->
  migrate_table_data be table_name s = (r, s') ->
  exists converted,
    res_map (convert_row be column_names (dict_of_rows types)) rows
    = Ok converted
    /\ let sql := insert_sql table_name column_names in
       let sent := fun i => EvPgExecutemany sql
                              (slice converted i (i + batch_size)) Done in
       let opening := [ EvSqliteExecute (select_sql table_name) Done;
                        EvPgExecute (column_types_sql table_name) Done ] in
       (r = Ok tt
        /\ trace s'
           = trace s ++ opening
             ++ map sent (py_range 0 (length rows) batch_size)
             ++ [EvPrint ("✓ Migrated " +:+ PyStr.of_nat (length rows)
                            +:+ " rows to " +:+ table_name)])
       \/ exists l1 i l2 c msg,
            py_range 0 (length rows) batch_size = l1 ++ i :: l2
            /\ r = Raise (Exn c msg)
            /\ trace s'
               = trace s ++ opening ++ map sent l1
                 ++ [ EvPgExecutemany sql
                        (slice converted i (i + batch_size)) (Failed c msg);
                      EvPrint ("✗ Error migrating data to " +:+ table_name
                                 +:+ ": " +:+ msg) ].
Proof.
  intros Hne Hsel Hty Hrun.
  destruct (res_map_returns (convert_row be column_names (dict_of_rows types))
              rows (convert_row_returns be _ _)) as [converted Hconv].
  exists converted. split; [assumption |]. intros sql sent opening.
  destruct rows as [| row0 rows']; [congruence |].
  unfold migrate_table_data, get_postgres_column_types, try_except, print,
    emit, mbind, mret, M_bind, M_ret, ret in Hrun.
  unfold bind at 1, call at 1 in Hrun. rewrite Hsel in Hrun.
  cbn [world trace bound res_of_outcome status_of] in Hrun.
  unfold bind at 1 2, call at 1 in Hrun.
  cbn [world trace bound res_of_outcome status_of] in Hrun.
  rewrite Hty in Hrun.
  cbn [world trace bound res_of_outcome status_of] in Hrun.
  unfold bind at 1 in Hrun.
  match type of Hrun with
  | context [for_each ?l ?body ?st] =>
      destruct (for_each l body st) as [r0 s0] eqn:Hloop
  end.
  apply (submit_loop_exact _ _ _ _ _ _ Hconv) in Hloop as [_ Hloop].
  cbn [trace] in Hloop.
  destruct Hloop as [[-> Ht] | (l1 & i & l2 & c & msg & Hl & -> & Ht)].
  - left. injection Hrun as <- <-. split; [reflexivity |]. cbn [trace].
    rewrite Ht. now rewrite <- !app_assoc.
  - right. exists l1, i, l2, c, msg. split; [assumption |].
    unfold bind, raise in Hrun. injection Hrun as <- <-.
    split; [reflexivity |]. cbn [trace]. rewrite Ht.
    now rewrite <- !app_assoc.
Qed.


(** X11 -- when [migrate_table_data] returns for a table that has rows,
    every call it made went well, the rows handed to [executemany] are as
    many as the rows read, and the last thing it does is to report that
    number. *)
Theorem migrated_report_counts_rows (table_name : string) (s : state W)
    (column_names : list string) (rows : list (list pyval))
    (types : list (string * string)) (w1 w2 : W) (s' : state W) :
  rows <> [] ->
  be_sqlite_select be (select_sql table_name) (world s)
    = (Returned (column_names, rows), w1) ->
  be_pg_column_types be (column_types_sql table_name) w1
    = (Returned types, w2) ->
  migrate_table_data be table_name s = (Ok tt, s') ->
  exists tr,
    trace s'
    = trace s ++ tr
      ++ [EvPrint ("✓ Migrated " +:+ PyStr.of_nat (length rows)
                     +:+ " rows to " +:+ table_name)]
    /\ Forall (fun ev => failed ev = false) tr
    /\ length (concat (executemany_batches tr)) = length rows.
Proof.
  intros Hne Hsel Hty Hrun.
  destruct (migrate_table_data_exact _ _ _ _ _ _ _ _ _ Hne Hsel Hty Hrun)
    as (converted & Hconv & [[_ Ht] | (? & ? & ? & ? & ? & _ & [=] & _)]).
  exists ([ EvSqliteExecute (select_sql table_name) Done;
            EvPgExecute (column_types_sql table_name) Done ]
          ++ map (fun i => EvPgExecutemany (insert_sql table_name column_names)
                             (slice converted i (i + batch_size)) Done)
                 (py_range 0 (length rows) batch_size)).
  split; [now rewrite Ht, <- !app_assoc |].
  assert (0 < batch_size) as Hpos by (unfold batch_size; lia).
  pose proof (Forall2_length _ _ _ (res_map_Forall2 _ _ _ Hconv)) as Hlen.
  split.
  - apply Forall_app. split; [repeat constructor |].
    apply Forall_map, Forall_forall. reflexivity.
  - rewrite executemany_batches_app. cbn [executemany_batches app].
    assert (forall l,
               executemany_batches
                 (map (fun i => EvPgExecutemany
                                  (insert_sql table_name column_names)
                                  (slice converted i (i + batch_size)) Done) l)
               = map (fun i => slice converted i (i + batch_size)) l) as ->
      by (induction l as [| ? ? IH]; cbn; now rewrite ?IH).
    rewrite (py_range_chunks _ Hpos), (chunks_concat _ Hpos); [now symmetry |].
    rewrite <- Hlen. apply (range_length_bound _ Hpos).
Qed.

(** X12 -- when the target refuses a batch, the batches before it have
    been accepted, the batches after it are never handed over, the error is
    reported once and the exception of the refused call is raised again
    unchanged. *)
Theorem refused_batch_ends_table (table_name : string) (s : state W)
    (column_names : list string) (rows : list (list pyval))
    (types : list (string * string)) (w1 w2 : W) (e : exn) (s' : state W) :
  rows <> [] ->
  be_sqlite_select be (select_sql table_name) (world s)
    = (Returned (column_names, rows), w1) ->
  be_pg_column_types be (column_types_sql table_name) w1
    = (Returned types, w2) ->
  migrate_table_data be table_name s = (Raise e, s') ->
  exists converted before i after c msg,
    res_map (convert_row be column_names (dict_of_rows types)) rows
    = Ok converted
    /\ py_range 0 (length rows) batch_size = before ++ i :: after
    /\ e = Exn c msg
    /\ trace s'
       = trace s
         ++ [ EvSqliteExecute (select_sql table_name) Done;
              EvPgExecute (column_types_sql table_name) Done ]
         ++ map (fun j => EvPgExecutemany (insert_sql table_name column_names)
                            (slice converted j (j + batch_size)) Done) before
         ++ [ EvPgExecutemany (insert_sql table_name column_names)
                (slice converted i (i + batch_size)) (Failed c msg);
              EvPrint ("✗ Error migrating data to " +:+ table_name
                         +:+ ": " +:+ msg) ].
Proof.
  intros Hne Hsel Hty Hrun.
  destruct (migrate_table_data_exact _ _ _ _ _ _ _ _ _ Hne Hsel Hty Hrun)
    as (converted & Hconv & [[[=] _] | (l1 & i & l2 & c & msg & Hl & [= ->] & Ht)]).
  exists converted, l1, i, l2, c, msg. repeat split; assumption.
Qed.

End TableMigratorMore.

Lemma ddl_failure_witness :
  process_table Fixture.refused_second "b" Fixture.start
  = (Raise (Exn Psycopg2Error "permission denied for schema public"),
     mk_state []
       (trace Fixture.start ++
        [ EvPrint ("Processing table: " +:+ "b");
          EvSqliteExecute (table_info_sql "b") Done;
          EvPgExecute
            (create_table_sql "b" [mk_column_info 0 "n" "INTEGER" 0 None 0])
            (Failed Psycopg2Error "permission denied for schema public");
          EvPrint ("✗ Error creating table " +:+ "b" +:+ ": "
                     +:+ "permission denied for schema public") ])
       (bound Fixture.start)).
Proof.
  apply (ddl_failure_skips_data Fixture.refused_second "b" Fixture.start
           [mk_column_info 0 "n" "INTEGER" 0 None 0] Psycopg2Error
           "permission denied for schema public" [] []);
    reflexivity.
Defined.

Lemma column_types_failure_witness :
  migrate_table_data Scenario.blind_target "users" Fixture.start
  = (Raise (Exn Psycopg2Error "permission denied for information_schema"),
     mk_state []
       (trace Fixture.start ++
        [ EvSqliteExecute (select_sql "users") Done;
          EvPgExecute (column_types_sql "users")
            (Failed Psycopg2Error "permission denied for information_schema") ])
       (bound Fixture.start)).
Proof.
  apply (column_types_failure_is_raised Scenario.blind_target "users"
           Fixture.start Fixture.users_columns Fixture.users_rows
           Psycopg2Error "permission denied for information_schema" [] []).
  - discriminate.
  - reflexivity.
  - reflexivity.
Defined.

Lemma migrated_report_witness :
  exists tr,
    trace (migrate_table_data Fixture.big "big" Fixture.start).2
    = trace Fixture.start ++ tr
      ++ [EvPrint ("✓ Migrated "
                     +:+ PyStr.of_nat (length (Fixture.counting_rows 250))
                     +:+ " rows to " +:+ "big")]
    /\ Forall (fun ev => failed ev = false) tr
    /\ length (concat (executemany_batches tr))
       = length (Fixture.counting_rows 250).
Proof.
  apply (migrated_report_counts_rows Fixture.big "big" Fixture.start ["n"]
           (Fixture.counting_rows 250) [("n", "integer")] [] []).
  - vm_compute. discriminate.
  - reflexivity.
  - reflexivity.
  - vm_compute. reflexivity.
Defined.

Lemma refused_batch_witness :
  exists converted before i after c msg,
    res_map (convert_row Scenario.filling_up ["n"]
               (dict_of_rows [("n", "integer")]))
            (Fixture.counting_rows 250)
    = Ok converted
    /\ py_range 0 (length (Fixture.counting_rows 250)) batch_size
       = before ++ i :: after
    /\ Exn Psycopg2Error "could not extend file: disk full" = Exn c msg
    /\ trace (migrate_table_data Scenario.filling_up "big" Fixture.start).2
       = trace Fixture.start
         ++ [ EvSqliteExecute (select_sql "big") Done;
              EvPgExecute (column_types_sql "big") Done ]
         ++ map (fun j => EvPgExecutemany (insert_sql "big" ["n"])
                            (slice converted j (j + batch_size)) Done) before
         ++ [ EvPgExecutemany (insert_sql "big" ["n"])
                (slice converted i (i + batch_size)) (Failed c msg);
              EvPrint ("✗ Error migrating data to " +:+ "big"
                         +:+ ": " +:+ msg) ].
Proof.
  apply (refused_batch_ends_table Scenario.filling_up "big" Fixture.start ["n"]
           (Fixture.counting_rows 250) [("n", "integer")] [] []).
  - vm_compute. discriminate.
  - reflexivity.
  - reflexivity.
  - vm_compute. reflexivity.
Defined.

(** ** The driver, step by step *)

Section DriverMore.

Context {W : Type} (be : backend W).

Lemma strict_ret {A} (a : A) : strict (W := W) (ret a).
Proof.
  intros s r s' H. injection H as <- <-. split; [reflexivity |]. exists [].
  repeat split; [now rewrite app_nil_r | constructor | constructor].
Qed.

Lemma strict_bind {A B} (m : M W A) (k : A -> M W B) :
  strict m -> (forall a, strict (k a)) -> strict (bind m k).
Proof.
  intros Hm Hk s r s' H. unfold bind in H.
  destruct (m s) as [[a | e] s1] eqn:E1.
  - destruct (Hm _ _ _ E1) as (Hb1 & tr1 & Ht1 & Hp1 & Hs1).
    destruct (Hk a _ _ _ H) as (Hb2 & tr2 & Ht2 & Hp2 & Hs2).
    split; [congruence |]. exists (tr1 ++ tr2).
    split; [now rewrite Ht2, Ht1, app_assoc |].
    split; [now apply Forall_app |].
    destruct r as [b | e].
    + now apply Forall_app.
    + destruct Hs2 as (x & ev & y & c & msg & -> & Hx & Hev & He & Hy).
      exists (tr1 ++ x), ev, y, c, msg.
      repeat split; try assumption; [now rewrite app_assoc |].
      now apply Forall_app.
  - injection H as <- <-. exact (Hm _ _ _ E1).
Qed.

Lemma strict_print line : strict (W := W) (print line).
Proof.
  intros s r s' H. injection H as <- <-. split; [reflexivity |].
  exists [EvPrint line]. repeat split; repeat constructor.
Qed.

Lemma strict_call {A} (ev : status -> event) (f : W -> outcome A * W) :
  (forall st, table_event (ev st) = true) ->
  failed (ev Done) = false ->
  (forall c msg, failure_of (ev (Failed c msg)) = Some (c, msg)) ->
  strict (call ev f).
Proof.
  intros Hk Hd Hf s r s' H. unfold call in H.
  destruct (f (world s)) as [[a | c msg] w']; injection H as <- <-;
    (split; [reflexivity |]); eexists; (split; [reflexivity |]); cbn.
  - split; repeat constructor; auto.
  - split; [repeat constructor; auto |].
    exists [], (ev (Failed c msg)), [], c, msg. repeat split; auto; constructor.
Qed.

Lemma strict_for_each {A} (l : list A) (body : A -> M W unit) :
  (forall x, strict (body x)) -> strict (for_each l body).
Proof.
  intros Hbody. induction l as [| x l IH]; cbn [for_each].
  - apply strict_ret.
  - apply strict_bind; auto.
Qed.

Lemma strict_reraise {A} (body : M W A) (report : string -> string) :
  strict body ->
  strict
    (try_except body
       (fun e =>
          match e with
          | Exn _ msg => bind (print (report msg)) (fun _ => raise e)
          | SystemExit _ => raise e
          end)).
Proof.
  intros Hbody s r s' H. unfold try_except in H.
  destruct (body s) as [[a | e] s1] eqn:E1.
  - injection H as <- <-. exact (Hbody _ _ _ E1).
  - destruct (Hbody _ _ _ E1)
      as (Hb & tr & Ht & Hp & x & ev & y & c & msg & -> & Hx & Hev & -> & Hy).
    injection H as <- <-. split; [assumption |].
    exists (x ++ ev :: y ++ [EvPrint (report msg)]). cbn [trace].
    split; [now rewrite Ht, <- !app_assoc |].
    split.
    { apply Forall_app in Hp as [Hp1 Hp2]. apply Forall_cons_1 in Hp2 as [? ?].
      apply Forall_app. split; [assumption |]. constructor; [assumption |].
      apply Forall_app. split; [assumption | now constructor]. }
    exists x, ev, (y ++ [EvPrint (report msg)]), c, msg.
    repeat split; try assumption.
    apply Forall_app. split; [assumption | now constructor].
Qed.

Lemma strict_convert column_names pg_types batch :
  strict (W := W)
    (lift_res (res_map (convert_row be column_names pg_types) batch)).
Proof.
  intros s r s' H.
  destruct (res_map_returns (convert_row be column_names pg_types) batch
              (convert_row_returns be _ _)) as [ys Hys].
  unfold lift_res in H. rewrite Hys in H. injection H as <- <-.
  split; [reflexivity |]. exists [].
  repeat split; [now rewrite app_nil_r | constructor | constructor].
Qed.

Ltac strict_step :=
  first
    [ apply strict_bind; [| intros ?]
    | apply strict_call; [intros ?; reflexivity | reflexivity
                         | intros ? ?; reflexivity]
    | apply strict_reraise
    | apply strict_for_each; intros ?
    | apply strict_ret
    | apply strict_print
    | apply strict_convert
    | match goal with
      | |- strict (match ?x with _ => _ end) => destruct x
      end ].

Lemma strict_process_table table : strict (process_table be table).
Proof.
  unfold process_table, get_table_schema, create_postgres_table,
    migrate_table_data, get_postgres_column_types, mbind, mret, M_bind, M_ret.
  repeat strict_step.
Qed.

Lemma strict_tables (tables : list string) :
  strict (for_each tables (process_table be)).
Proof. apply strict_for_each, strict_process_table. Qed.


Lemma table_events_not_commit tr :
  Forall (fun ev => table_event ev = true) tr ->
  Forall (fun ev => is_commit ev = false) tr.
Proof. intros H. eapply Forall_impl; [exact H |]. now intros []. Qed.

Lemma failure_not_rollback ev c msg :
  table_event ev = true -> failure_of ev = Some (c, msg) ->
  is_rollback ev = false /\ is_connect ev = false.
Proof. now destruct ev. Qed.

(** What the [try] block of [main] leaves behind when it is entered with
    no local assigned. *)
Lemma main_try_shape (s : state W) (r : res unit) (s' : state W) :
  bound s = mk_locals false false false false ->
  main_try be s = (r, s') ->
  exists tr,
    trace s' = trace s ++ tr
    /\ match r with
       | Ok _ =>
           exists work,
             tr = work ++ [ EvPgCommit Done; EvPrint rule;
                            EvPrint "✓ Migration completed successfully!";
                            EvPrint rule ]
             /\ steady work
             /\ Forall (fun ev => is_commit ev = false) work
             /\ bound s' = mk_locals true true true true
       | Raise e =>
           exists a ev b c msg,
             tr = a ++ ev :: b
             /\ steady a
             /\ Forall (fun ev => is_commit ev = false) a
             /\ failure_of ev = Some (c, msg)
             /\ is_rollback ev = false
             /\ e = Exn c msg
             /\ Forall (fun ev => is_print ev = true) b
             /\ bound s'
                = mk_locals (existsb is_sqlite_open a)
                            (existsb is_sqlite_open a)
                            (existsb is_pg_open a) (existsb is_pg_open a)
             /\ (is_connect ev = false -> existsb is_pg_open a = true)
             /\ (existsb is_pg_open a = true ->
                 existsb is_sqlite_open a = true)
       end.
Proof.
  intros Hb Hrun.
  unfold main_try, get_sqlite_tables, print, emit, assign, mbind, M_bind in Hrun.
  unfold bind at 1 2, call at 1 in Hrun. cbn [world trace bound] in Hrun.
  destruct (be_sqlite_connect be sqlite_db_path (world s)) as [[[] | c msg] w1];
    cbn [res_of_outcome status_of] in Hrun.
  2: { injection Hrun as <- <-. eexists.
       split; [cbn [trace]; rewrite <- ?app_assoc; reflexivity |].
       eexists [_], _, [], c, msg. cbn.
       repeat split; try reflexivity; repeat constructor;
         try discriminate. now rewrite Hb. }
  unfold bind at 1 2 3 4, call at 1 in Hrun.
  cbn [world trace bound] in Hrun.
  destruct (be_pg_connect be PG_CONFIG w1) as [[[] | c msg] w2];
    cbn [res_of_outcome status_of] in Hrun.
  2: { injection Hrun as <- <-. eexists.
       split; [cbn [trace]; rewrite <- ?app_assoc; reflexivity |].
       eexists [_; _; _], _, [], c, msg. cbn.
       repeat split; try reflexivity; repeat constructor;
         try discriminate. now rewrite Hb. }
  unfold bind at 1 2 3, call at 1 in Hrun.
  cbn [world trace bound sqlite_conn sqlite_cursor pg_conn pg_cursor] in Hrun.
  destruct (be_sqlite_tables be _ w2) as [[tables | c msg] w3];
    cbn [res_of_outcome status_of] in Hrun.
  2: { injection Hrun as <- <-. eexists.
       split; [cbn [trace]; rewrite <- ?app_assoc; reflexivity |].
       eexists [_; _; _; _], _, [], c, msg. cbn.
       repeat split; try reflexivity; repeat constructor. }
  unfold bind at 1 2 3 in Hrun. cbn [world trace bound] in Hrun.
  match type of Hrun with
  | context [for_each tables (process_table be) ?st] =>
      destruct (for_each tables (process_table be) st) as [[[] | e] s4] eqn:E
  end;
    apply strict_tables in E as (Hb4 & tr & Ht & Hk & Hs);
    cbn [trace bound] in Hb4, Ht.
  2: { injection Hrun as <- <-.
       destruct Hs as (x & ev & y & c & msg & -> & Hx & Hev & -> & Hy).
       eexists. split; [rewrite Ht, <- ?app_assoc; reflexivity |].
       apply Forall_app in Hk as [Hk1 Hk2].
       apply Forall_cons_1 in Hk2 as [Hk2 _].
       destruct (failure_not_rollback _ _ _ Hk2 Hev) as [Hr Hc].
       eexists (_ :: _ :: _ :: _ :: _ :: _ :: _ :: x), ev, y, c, msg. cbn.
       repeat split; try assumption; try reflexivity.
       - unfold steady. repeat (constructor; [reflexivity |]). exact Hx.
       - repeat (constructor; [reflexivity |]).
         now apply table_events_not_commit. }
  unfold bind at 1, call at 1 in Hrun.
  destruct (be_pg_commit be (world s4)) as [[[] | c msg] w5];
    cbn [res_of_outcome status_of] in Hrun.
  - unfold bind in Hrun. cbn [world trace bound] in Hrun.
    injection Hrun as <- <-. cbn [trace bound].
    eexists. split; [rewrite Ht, <- ?app_assoc; reflexivity |].
    eexists (_ :: _ :: _ :: _ :: _ :: _ :: _ :: tr). cbn.
    repeat split; try assumption; try reflexivity.
    + unfold steady. repeat (constructor; [reflexivity |]). exact Hs.
    + repeat (constructor; [reflexivity |]).
      now apply table_events_not_commit.
  - injection Hrun as <- <-. cbn [trace bound].
    eexists. split; [rewrite Ht, <- ?app_assoc; reflexivity |].
    eexists (_ :: _ :: _ :: _ :: _ :: _ :: _ :: tr), _, [], c, msg. cbn.
    repeat split; try assumption; try reflexivity; try (now constructor).
    + unfold steady. repeat (constructor; [reflexivity |]). exact Hs.
    + repeat (constructor; [reflexivity |]).
      now apply table_events_not_commit.
Qed.

(** What the handlers of [main] do with an exception of the [try] block. *)
Lemma main_except_shape (c : exn_class) (msg : string) (s : state W) :
  exists e s' h,
    main_except be (Exn c msg) s = (Raise e, s')
    /\ trace s' = trace s ++ h
    /\ bound s' = bound s
    /\ exit_code (Raise e) = 1%Z
    /\ Forall (fun ev => is_print ev = true \/ is_rollback ev = true) h
    /\ (c = SqliteError -> existsb is_rollback h = false)
    /\ (c <> SqliteError -> pg_conn (bound s) = true ->
        existsb is_rollback h = true)
    /\ In (EvPrint (error_line c msg)) h.
Proof.
  unfold main_except, rollback_if_connected, sys_exit, read_local, print, emit,
    call, raise, mbind, M_bind, bind, error_line.
  destruct c; cbn [world trace bound];
    try (destruct (pg_conn (bound s)); cbn [world trace bound];
         [destruct (be_pg_rollback be (world s)) as [[[] | c' msg'] w'] |]);
    cbn [world trace bound res_of_outcome status_of];
    do 3 eexists; (split; [reflexivity |]); rewrite <- ?app_assoc;
    (split; [reflexivity |]);
    repeat split; try reflexivity; try congruence;
    cbn [app];
    try (now left);
    repeat (constructor; [first [left; reflexivity | right; reflexivity] |]);
    constructor.
Qed.

(** What the [finally] block of [main] does. *)
Lemma main_finally_shape (s : state W) :
  exists r,
    main_finally s
    = (r, mk_state (world s) (trace s ++ closes (bound s)) (bound s))
    /\ (bound s = mk_locals true true true true -> r = Ok tt)
    /\ (r = Ok tt \/ exists c msg, r = Raise (Exn c msg)).
Proof.
  unfold main_finally, close_if_set, read_local, emit, mbind, M_bind, bind, ret,
    closes.
  destruct s as [w tr [[] [] [] []]];
    cbn [world trace bound sqlite_conn sqlite_cursor pg_conn pg_cursor];
    eexists; rewrite <- ?app_assoc, ?app_nil_r;
    (split; [reflexivity |]); split; eauto; discriminate.
Qed.


(** Every run of [main] is of one of three kinds: the operator declines;
    every call goes well; or some call fails, which ends the [try] block. *)
Lemma run_shape (w : W) :
  let accepted :=
    PyStr.mem
      (PyStr.lower (be_input be "Continue with migration? (yes/no): " w).1)
      ["yes"; "y"] in
  (accepted = false
   /\ run be w = (0%Z, banner ++ [EvPrint "Migration cancelled."]))
  \/ (accepted = true
      /\ exists work,
           run be w
           = (0%Z,
              banner ++ work
              ++ [ EvPgCommit Done; EvPrint rule;
                   EvPrint "✓ Migration completed successfully!";
                   EvPrint rule ]
              ++ closes (mk_locals true true true true))
           /\ steady work
           /\ Forall (fun ev => is_commit ev = false) work)
  \/ (accepted = true
      /\ exists a ev b c msg h,
           run be w
           = (1%Z,
              banner ++ a ++ ev :: b ++ h
              ++ closes (mk_locals (existsb is_sqlite_open a)
                                   (existsb is_sqlite_open a)
                                   (existsb is_pg_open a)
                                   (existsb is_pg_open a)))
           /\ steady a
           /\ Forall (fun ev => is_commit ev = false) a
           /\ failure_of ev = Some (c, msg)
           /\ is_rollback ev = false
           /\ Forall (fun ev => is_print ev = true) b
           /\ Forall (fun ev => is_print ev = true \/ is_rollback ev = true) h
           /\ (c = SqliteError -> existsb is_rollback h = false)
           /\ (c <> SqliteError -> existsb is_pg_open a = true ->
               existsb is_rollback h = true)
           /\ (is_connect ev = false -> existsb is_pg_open a = true)
           /\ (existsb is_pg_open a = true ->
               existsb is_sqlite_open a = true)
           /\ In (EvPrint (error_line c msg)) h).
Proof.
  intros accepted. subst accepted.
  unfold run, main, print, emit, input, call, mbind, M_bind, bind, initial.
  cbn [world trace bound].
  destruct (be_input be _ w) as [response w1].
  cbn [world trace bound res_of_outcome status_of fst snd app].
  destruct (PyStr.mem (PyStr.lower response) ["yes"; "y"]); cbn [negb].
  2: { left. split; reflexivity. }
  right. unfold try_finally, try_except.
  match goal with
  | |- context [main_try be ?st] =>
      destruct (main_try be st) as [r1 s1] eqn:E;
      apply main_try_shape in E as (tr & Ht & Hr); [| reflexivity]
  end.
  cbn [trace] in Ht. fold banner in Ht.
  destruct r1 as [[] | e].
  - left. split; [reflexivity |].
    destruct Hr as (work & -> & Hw & Hc & Hb).
    destruct (main_finally_shape s1) as (rf & -> & Hok & _).
    rewrite (Hok Hb). exists work. cbn [exit_code trace].
    rewrite Ht, Hb, <- !app_assoc. repeat split; assumption.
  - right. split; [reflexivity |].
    destruct Hr as (a & ev & b & c & msg & -> & Ha & Hc & Hf & Hnr & -> & Hp
                    & Hb & Hpc & Hsc).
    destruct (main_except_shape c msg s1)
      as (e' & s2 & h & -> & Hh & Hb2 & He' & Hhp & Hsql & Hroll & Hline).
    destruct (main_finally_shape s2) as (rf & -> & _ & Hrf).
    exists a, ev, b, c, msg, h.
    split.
    { rewrite Hh, Ht, Hb2, Hb, <- !app_assoc. cbn [app].
      destruct Hrf as [-> | (c' & msg' & ->)]; cbn [trace]; now rewrite ?He'. }
    repeat split; try assumption.
    intros Hne Hpg. apply Hroll; [assumption |]. now rewrite Hb.
Qed.


Lemma failure_failed ev c msg : failure_of ev = Some (c, msg) -> failed ev = true.
Proof. destruct ev; try discriminate; now destruct st. Qed.

Lemma steady_banner : steady banner.
Proof. repeat constructor. Qed.

Lemma steady_closes l : steady (closes l).
Proof. destruct l as [[] [] [] []]; repeat constructor. Qed.

Lemma idle_closes l : idle (closes l).
Proof. destruct l as [[] [] [] []]; repeat constructor. Qed.

Lemma prints_steady tr : Forall (fun ev => is_print ev = true) tr -> steady tr.
Proof. intros H. eapply Forall_impl; [exact H |]. now intros []. Qed.

(** X14 -- an operator who answers anything but yes or y, in any case of
    letters, ends the run at once: nothing but the banner and the
    cancellation line is printed, no connection is opened, and the exit
    status is 0. *)
Theorem declined_run_opens_nothing (w : W) :
  PyStr.mem
    (PyStr.lower (be_input be "Continue with migration? (yes/no): " w).1)
    ["yes"; "y"] = false ->
  run be w = (0%Z, banner ++ [EvPrint "Migration cancelled."]).
Proof.
  intros H. destruct (run_shape w) as [[_ Hr] | [[Ha _] | [Ha _]]];
    [assumption | congruence | congruence].
Qed.

(** X15 -- a call of any kind that fails ends the run: the exit status is
    1 and nothing more is sent to either database after that call, so the
    tables that follow are not attempted and nothing is committed. *)
Theorem any_failure_ends_run (w : W) (before : list event) (ev : event)
    (after : list event) :
  (run be w).2 = before ++ ev :: after ->
  failed ev = true ->
  (run be w).1 = 1%Z /\ Forall (fun e => db_work e = false) after.
Proof.
  intros Htr Hev. destruct (main_stops be w) as [Hq Hc]. split.
  - apply Hc. intros Hs. unfold steady in Hs. rewrite Htr in Hs.
    apply Forall_app in Hs as [_ Hs]. apply Forall_cons_1 in Hs as [Hs _].
    congruence.
  - rewrite Htr in Hq. now apply quiet_split in Hq.
Qed.

(** X16 -- the exit status is 0 or 1, and it is 0 exactly when no call of
    the run failed. *)
Theorem exit_status_reports_failure (w : W) :
  ((run be w).1 = 0%Z \/ (run be w).1 = 1%Z)
  /\ ((run be w).1 = 0%Z <-> Forall (fun ev => failed ev = false) (run be w).2).
Proof.
  destruct (run_shape w)
    as [[_ ->] | [[_ (work & -> & Hw & _)]
                | [_ (a & ev & b & c & msg & h & -> & _ & _ & Hf & _)]]];
    cbn [fst snd].
  - split; [now left |]. split; [| reflexivity]. intros _.
    apply Forall_app. split; [apply steady_banner | repeat constructor].
  - split; [now left |]. split; [| reflexivity]. intros _.
    apply Forall_app. split; [apply steady_banner |].
    apply Forall_app. split; [exact Hw |].
    apply Forall_app. split; [repeat constructor | apply steady_closes].
  - split; [now right |]. split; [discriminate |]. intros Hs.
    apply Forall_app in Hs as [_ Hs]. apply Forall_app in Hs as [_ Hs].
    apply Forall_cons_1 in Hs as [Hs _].
    rewrite (failure_failed _ _ _ Hf) in Hs. discriminate.
Qed.

(** X17 -- when a statement or the commit fails with anything but a
    [sqlite3] error, the handlers call [rollback] on the target
    connection, and the run holds no successful commit. *)
Theorem target_failure_rolls_back (w : W) (ev : event) (c : exn_class)
    (msg : string) :
  In ev (run be w).2 ->
  failure_of ev = Some (c, msg) ->
  c <> SqliteError ->
  is_connect ev = false ->
  existsb is_rollback (run be w).2 = true
  /\ ~ In (EvPgCommit Done) (run be w).2.
Proof.
  intros Hin Hf Hc Hconn.
  pose proof (failure_failed _ _ _ Hf) as Hfailed.
  assert (forall tr, steady tr -> In ev tr -> False) as Hsteady.
  { intros tr Hs Hi. unfold steady in Hs. rewrite List.Forall_forall in Hs.
    specialize (Hs _ Hi). congruence. }
  destruct (run_shape w)
    as [[_ Hr] | [[_ (work & Hr & Hw & _)]
                | [_ (a & ev0 & b & c0 & msg0 & h & Hr & Ha & Hnc & Hf0 & Hnr
                      & Hb & Hh & _ & Hroll & Hpc & _)]]];
    rewrite Hr in *; cbn [fst snd] in *.
  - exfalso. apply (Hsteady (banner ++ [EvPrint "Migration cancelled."]));
      [| assumption].
    apply Forall_app. split; [apply steady_banner | repeat constructor].
  - exfalso. eapply Hsteady; [| exact Hin].
    apply Forall_app. split; [apply steady_banner |].
    apply Forall_app. split; [exact Hw |].
    apply Forall_app. split; [repeat constructor | apply steady_closes].
  - assert (existsb is_rollback h = true) as Hrb.
    { apply in_app_or in Hin as [Hin | Hin];
        [destruct (Hsteady _ steady_banner Hin) |].
      apply in_app_or in Hin as [Hin | Hin];
        [destruct (Hsteady _ Ha Hin) |].
      destruct Hin as [<- | Hin].
      { rewrite Hf in Hf0. injection Hf0 as <- <-. auto. }
      apply in_app_or in Hin as [Hin | Hin];
        [destruct (Hsteady _ (prints_steady _ Hb) Hin) |].
      apply in_app_or in Hin as [Hin | Hin];
        [| destruct (Hsteady _ (steady_closes _) Hin)].
      apply existsb_exists. exists ev. split; [assumption |].
      rewrite List.Forall_forall in Hh. destruct (Hh _ Hin) as [Hp | Hp];
        [| assumption].
      destruct ev; discriminate. }
    split.
    + rewrite !existsb_app. cbn [existsb]. rewrite !existsb_app, Hrb.
      now rewrite !orb_true_r.
    + intros Hcm.
      assert (forall tr, Forall (fun e => is_commit e = false) tr ->
                         In (EvPgCommit Done) tr -> False) as Hno.
      { intros tr Hs Hi. rewrite List.Forall_forall in Hs. now specialize (Hs _ Hi). }
      apply in_app_or in Hcm as [Hcm | Hcm].
      { apply (Hno banner); [repeat constructor | assumption]. }
      apply in_app_or in Hcm as [Hcm | Hcm]; [now apply (Hno a) |].
      destruct Hcm as [-> | Hcm]; [discriminate Hf0 |].
      apply in_app_or in Hcm as [Hcm | Hcm].
      { apply (Hno b); [| assumption].
        eapply Forall_impl; [exact Hb |]. now intros []. }
      apply in_app_or in Hcm as [Hcm | Hcm].
      { apply (Hno h); [| assumption].
        eapply Forall_impl; [exact Hh |]. intros [] [? | ?]; easy. }
      apply (Hno (closes (mk_locals (existsb is_sqlite_open a)
                                    (existsb is_sqlite_open a)
                                    (existsb is_pg_open a)
                                    (existsb is_pg_open a))));
        [| assumption].
      destruct (existsb is_sqlite_open a), (existsb is_pg_open a);
        repeat constructor.
Qed.

(** X18 -- a connection that was opened is closed before the process
    ends, whatever happened in between: the source cursor and connection
    once [sqlite3.connect] has returned, all four once [psycopg2.connect]
    has returned. *)
Theorem opened_connections_are_closed (w : W) :
  ((exists path, In (EvSqliteConnect path Done) (run be w).2) ->
   In EvSqliteCursorClose (run be w).2 /\ In EvSqliteConnClose (run be w).2)
  /\ ((exists cfg, In (EvPgConnect cfg Done) (run be w).2) ->
      In EvSqliteCursorClose (run be w).2 /\ In EvSqliteConnClose (run be w).2
      /\ In EvPgCursorClose (run be w).2 /\ In EvPgConnClose (run be w).2).
Proof.
  assert (forall (p : event -> bool) tr ev,
             Forall (fun e => p e = false) tr -> In ev tr -> p ev = true ->
             False) as Hno.
  { intros p tr ev Hs Hi Hp. rewrite List.Forall_forall in Hs.
    specialize (Hs _ Hi). congruence. }
  assert (forall (p : event -> bool) a ev0 b h l ev,
             In ev (banner ++ a ++ ev0 :: b ++ h ++ closes l) ->
             p ev = true ->
             Forall (fun e => p e = false) banner ->
             p ev0 = false ->
             Forall (fun e => is_print e = true) b ->
             Forall (fun e => is_print e = true \/ is_rollback e = true) h ->
             (forall e, is_print e = true \/ is_rollback e = true -> p e = false) ->
             (forall l, Forall (fun e => p e = false) (closes l)) ->
             existsb p a = true) as Hfind.
  { intros p a ev0 b h l ev Hin Hp Hban Hev0 Hb Hh Hpr Hcl.
    apply in_app_or in Hin as [Hin | Hin]; [destruct (Hno p _ _ Hban Hin Hp) |].
    apply in_app_or in Hin as [Hin | Hin].
    { apply existsb_exists. eauto. }
    destruct Hin as [<- | Hin]; [congruence |].
    apply in_app_or in Hin as [Hin | Hin].
    { rewrite List.Forall_forall in Hb. specialize (Hb _ Hin).
      rewrite (Hpr ev) in Hp by auto. discriminate. }
    apply in_app_or in Hin as [Hin | Hin].
    { rewrite List.Forall_forall in Hh. specialize (Hh _ Hin).
      rewrite (Hpr ev) in Hp by auto. discriminate. }
    destruct (Hno p _ _ (Hcl l) Hin Hp). }
  destruct (run_shape w)
    as [[_ Hr] | [[_ (work & Hr & Hw & _)]
                | [_ (a & ev0 & b & c0 & msg0 & h & Hr & Ha & Hnc & Hf0 & Hnr
                      & Hb & Hh & _ & _ & _ & Hsc & _)]]];
    rewrite Hr; cbn [fst snd].
  - split; intros [x Hin]; exfalso;
      apply in_app_or in Hin as [Hin | [Hin | []]]; try discriminate Hin;
      unfold banner in Hin; cbn in Hin; intuition discriminate.
  - split; intros _; repeat split; apply in_or_app; right;
      apply in_or_app; right; apply in_or_app; right; cbn; tauto.
  - assert (failed ev0 = true) as Hfe by (eapply failure_failed; eauto).
    split; intros [x Hin].
    + assert (existsb is_sqlite_open a = true) as Hs.
      { apply (Hfind is_sqlite_open a ev0 b h _ _ Hin); try assumption;
          try reflexivity.
        - repeat constructor.
        - destruct ev0; try reflexivity. destruct st; [discriminate | reflexivity].
        - intros [] [? | ?]; easy.
        - intros [[] [] [] []]; repeat constructor. }
      rewrite Hs. split; apply in_or_app; right; apply in_or_app; right;
        right; apply in_or_app; right; apply in_or_app; right; cbn; tauto.
    + assert (existsb is_pg_open a = true) as Hp.
      { apply (Hfind is_pg_open a ev0 b h _ _ Hin); try assumption;
          try reflexivity.
        - repeat constructor.
        - destruct ev0; try reflexivity. destruct st; [discriminate | reflexivity].
        - intros [] [? | ?]; easy.
        - intros [[] [] [] []]; repeat constructor. }
      rewrite Hp, (Hsc Hp).
      repeat split; apply in_or_app; right; apply in_or_app; right;
        right; apply in_or_app; right; apply in_or_app; right; cbn; tauto.
Qed.


Lemma split_unique {A} (p : A -> bool) (x : list A) (e : A) (y x' : list A)
    (e' : A) (y' : list A) :
  Forall (fun a => p a = false) x ->
  Forall (fun a => p a = false) y ->
  p e' = true ->
  x ++ e :: y = x' ++ e' :: y' ->
  x' = x /\ e' = e /\ y' = y.
Proof.
  intros Hx Hy He'. revert x'.
  induction Hx as [| a x Ha Hx IH]; intros [| a' x'] H; cbn in H.
  - injection H as -> ->. auto.
  - injection H as -> ->. exfalso.
    apply Forall_app in Hy as [_ Hy]. apply Forall_cons_1 in Hy as [Hy _].
    congruence.
  - injection H as -> _. congruence.
  - injection H as -> H. destruct (IH _ H) as (-> & -> & ->). auto.
Qed.

(** X19 -- the target transaction is committed at most once, as the last
    piece of work of a run: every call before the commit succeeded, no
    other commit is in the run, nothing is sent to either database after
    it, and a commit that succeeded means exit status 0. *)
Theorem commit_is_last_work (w : W) (before : list event) (st : status)
    (after : list event) :
  (run be w).2 = before ++ EvPgCommit st :: after ->
  Forall (fun ev => failed ev = false) before
  /\ Forall (fun ev => is_commit ev = false) (before ++ after)
  /\ Forall (fun ev => db_work ev = false) after
  /\ (st = Done -> (run be w).1 = 0%Z).
Proof.
  intros Htr.
  assert (forall l, Forall (fun e => is_commit e = false) (closes l)) as Hcl.
  { intros [[] [] [] []]; repeat constructor. }
  assert (Forall (fun e => is_commit e = false) banner) as Hban
    by repeat constructor.
  destruct (run_shape w)
    as [[_ Hr] | [[_ (work & Hr & Hw & Hnc)]
                | [_ (a & ev0 & b & c0 & msg0 & h & Hr & Ha & Hnc & Hf0 & Hnr
                      & Hb & Hh & _)]]];
    rewrite Hr in *; cbn [fst snd] in *.
  - exfalso.
    assert (Forall (fun e => is_commit e = false)
              (banner ++ [EvPrint "Migration cancelled."])) as Hall
      by repeat constructor.
    rewrite Htr in Hall. apply Forall_app in Hall as [_ Hall].
    apply Forall_cons_1 in Hall as [Hall _]. discriminate.
  - rewrite app_assoc in Htr.
    assert (Forall (fun e => is_commit e = false)
              ([ EvPrint rule; EvPrint "✓ Migration completed successfully!";
                 EvPrint rule ]
               ++ closes (mk_locals true true true true))) as Htail.
    { apply Forall_app. split; [repeat constructor | apply Hcl]. }
    apply (split_unique is_commit (banner ++ work) (EvPgCommit Done)
             ([ EvPrint rule; EvPrint "✓ Migration completed successfully!";
                EvPrint rule ]
              ++ closes (mk_locals true true true true)))
      in Htr as (-> & [= ->] & ->);
      [| now apply Forall_app | exact Htail | reflexivity].
    repeat split.
    + apply Forall_app. split; [apply steady_banner | exact Hw].
    + apply Forall_app. split; [now apply Forall_app | exact Htail].
    + apply Forall_app. split; [repeat constructor | apply idle_closes].
  - assert (Forall (fun e => is_commit e = false) (b ++ h ++ closes
              (mk_locals (existsb is_sqlite_open a) (existsb is_sqlite_open a)
                         (existsb is_pg_open a) (existsb is_pg_open a))))
      as Hrest.
    { apply Forall_app. split.
      - eapply Forall_impl; [exact Hb |]. now intros [].
      - apply Forall_app. split; [| apply Hcl].
        eapply Forall_impl; [exact Hh |]. intros [] [? | ?]; easy. }
    destruct (is_commit ev0) eqn:Hev0.
    + rewrite app_assoc in Htr.
      apply (split_unique is_commit) in Htr as (-> & He & ->);
        [| now apply Forall_app | assumption | reflexivity].
      subst ev0.
      repeat split.
      * apply Forall_app. split; [apply steady_banner | exact Ha].
      * apply Forall_app. split; [now apply Forall_app | assumption].
      * apply Forall_app. split; [now apply prints_idle |].
        apply Forall_app. split; [| apply idle_closes].
        eapply Forall_impl; [exact Hh |]. intros [] [? | ?]; easy.
      * intros ->. discriminate Hf0.
    + exfalso.
      assert (Forall (fun e => is_commit e = false)
                (before ++ EvPgCommit st :: after)) as Hall.
      { rewrite <- Htr. apply Forall_app. split; [assumption |].
        apply Forall_app. split; [assumption |]. now constructor. }
      apply Forall_app in Hall as [_ Hall].
      apply Forall_cons_1 in Hall as [Hall _]. discriminate.
Qed.

End DriverMore.

Lemma declined_run_witness :
  run Scenario.declined []
  = (0%Z, banner ++ [EvPrint "Migration cancelled."]).
Proof.
  apply (declined_run_opens_nothing Scenario.declined []). reflexivity.
Defined.

Lemma any_failure_witness :
  (run Fixture.refused_second []).1 = 1%Z
  /\ Forall (fun e => db_work e = false)
            (drop 30 (run Fixture.refused_second []).2).
Proof.
  apply (any_failure_ends_run Fixture.refused_second []
           (take 29 (run Fixture.refused_second []).2)
           (EvPgExecute
              (create_table_sql "b" [mk_column_info 0 "n" "INTEGER" 0 None 0])
              (Failed Psycopg2Error "permission denied for schema public"))).
  - vm_compute. reflexivity.
  - reflexivity.
Defined.

Lemma target_failure_witness :
  existsb is_rollback (run Fixture.refused_second []).2 = true
  /\ ~ In (EvPgCommit Done) (run Fixture.refused_second []).2.
Proof.
  apply (target_failure_rolls_back Fixture.refused_second []
           (EvPgExecute
              (create_table_sql "b" [mk_column_info 0 "n" "INTEGER" 0 None 0])
              (Failed Psycopg2Error "permission denied for schema public"))
           Psycopg2Error "permission denied for schema public").
  - vm_compute. do 29 right. now left.
  - reflexivity.
  - discriminate.
  - reflexivity.
Defined.

Lemma commit_witness :
  Forall (fun ev => failed ev = false) (take 27 (run Fixture.users []).2)
  /\ Forall (fun ev => is_commit ev = false)
            (take 27 (run Fixture.users []).2
             ++ drop 28 (run Fixture.users []).2)
  /\ Forall (fun ev => db_work ev = false) (drop 28 (run Fixture.users []).2)
  /\ (Done = Done -> (run Fixture.users []).1 = 0%Z).
Proof.
  apply (commit_is_last_work Fixture.users []
           (take 27 (run Fixture.users []).2) Done
           (drop 28 (run Fixture.users []).2)).
  vm_compute. reflexivity.
Defined.

(** ** Connections that cannot be opened *)

Section ConnectFailures.

Context {W : Type} (be : backend W).

(** X20 -- when the target connection cannot be opened, [pg_conn] has
    never been assigned: the handler of [psycopg2.Error] reports the error
    and then fails itself on [if pg_conn], so no rollback is attempted; the
    [finally] block closes the source cursor and connection and fails in
    turn on [if pg_cursor].  The process ends on that [UnboundLocalError]
    instead of [sys.exit(1)]. *)
Theorem unreachable_target_ends_unbound (w w0 w1 w2 : W) (response msg : string) :
  be_input be "Continue with migration? (yes/no): " w = (response, w0) ->
  PyStr.mem (PyStr.lower response) ["yes"; "y"] = true ->
  be_sqlite_connect be sqlite_db_path w0 = (Returned tt, w1) ->
  be_pg_connect be PG_CONFIG w1 = (Raised Psycopg2Error msg, w2) ->
  main be (initial w)
  = (Raise (Exn UnboundLocalError "pg_cursor"),
     mk_state w2
       (banner ++
        [ EvPrint (nl +:+ "📦 Connecting to SQLite database...");
          EvSqliteConnect sqlite_db_path Done;
          EvPrint "🐘 Connecting to PostgreSQL database...";
          EvPgConnect PG_CONFIG (Failed Psycopg2Error msg);
          EvPrint (nl +:+ "✗ PostgreSQL error: " +:+ msg);
          EvSqliteCursorClose;
          EvSqliteConnClose ])
       (mk_locals true true false false)).
Proof.
  intros Hin Hyes Hs Hp.
  unfold main, print, emit, input, call, mbind, M_bind, bind, initial.
  cbn [world trace bound]. rewrite Hin.
  cbn [world trace bound res_of_outcome status_of app]. rewrite Hyes.
  cbn [negb].
  unfold try_finally, try_except, main_try, main_except, main_finally,
    close_if_set, rollback_if_connected, read_local, sys_exit, raise, print,
    emit, assign, call, mbind, M_bind, bind, ret.
  cbn [world trace bound]. rewrite Hs.
  cbn [world trace bound res_of_outcome status_of sqlite_conn sqlite_cursor
       pg_conn pg_cursor].
  rewrite Hp.
  cbn [world trace bound res_of_outcome status_of sqlite_conn sqlite_cursor
       pg_conn pg_cursor app].
  reflexivity.
Qed.

(** X21 -- when the source database cannot be opened, the error is
    reported, no connection to the target is attempted, and the [finally]
    block fails on [if sqlite_cursor] before it closes anything: the
    process ends on that [UnboundLocalError], which replaces the
    [sys.exit(1)] of the handler. *)
Theorem unreadable_source_ends_unbound (w w0 w1 : W) (response msg : string) :
  be_input be "Continue with migration? (yes/no): " w = (response, w0) ->
  PyStr.mem (PyStr.lower response) ["yes"; "y"] = true ->
  be_sqlite_connect be sqlite_db_path w0 = (Raised SqliteError msg, w1) ->
  main be (initial w)
  = (Raise (Exn UnboundLocalError "sqlite_cursor"),
     mk_state w1
       (banner ++
        [ EvPrint (nl +:+ "📦 Connecting to SQLite database...");
          EvSqliteConnect sqlite_db_path (Failed SqliteError msg);
          EvPrint (nl +:+ "✗ SQLite error: " +:+ msg) ])
       (mk_locals false false false false)).
Proof.
  intros Hin Hyes Hs.
  unfold main, print, emit, input, call, mbind, M_bind, bind, initial.
  cbn [world trace bound]. rewrite Hin.
  cbn [world trace bound res_of_outcome status_of app]. rewrite Hyes.
  cbn [negb].
  unfold try_finally, try_except, main_try, main_except, main_finally,
    close_if_set, rollback_if_connected, read_local, sys_exit, raise, print,
    emit, assign, call, mbind, M_bind, bind, ret.
  cbn [world trace bound]. rewrite Hs.
  cbn [world trace bound res_of_outcome status_of sqlite_conn sqlite_cursor
       pg_conn pg_cursor app].
  reflexivity.
Qed.

End ConnectFailures.

Lemma unreachable_target_witness :
  main Scenario.unreachable_target (initial [])
  = (Raise (Exn UnboundLocalError "pg_cursor"),
     mk_state []
       (banner ++
        [ EvPrint (nl +:+ "📦 Connecting to SQLite database...");
          EvSqliteConnect sqlite_db_path Done;
          EvPrint "🐘 Connecting to PostgreSQL database...";
          EvPgConnect PG_CONFIG (Failed Psycopg2Error "connection refused");
          EvPrint (nl +:+ "✗ PostgreSQL error: " +:+ "connection refused");
          EvSqliteCursorClose;
          EvSqliteConnClose ])
       (mk_locals true true false false)).
Proof.
  apply (unreachable_target_ends_unbound Scenario.unreachable_target
           [] [] [] [] "yes" "connection refused"); reflexivity.
Defined.

Lemma unreadable_source_witness :
  main Scenario.unreadable_source (initial [])
  = (Raise (Exn UnboundLocalError "sqlite_cursor"),
     mk_state []
       (banner ++
        [ EvPrint (nl +:+ "📦 Connecting to SQLite database...");
          EvSqliteConnect sqlite_db_path
            (Failed SqliteError "unable to open database file");
          EvPrint (nl +:+ "✗ SQLite error: "
                     +:+ "unable to open database file") ])
       (mk_locals false false false false)).
Proof.
  apply (unreadable_source_ends_unbound Scenario.unreadable_source
           [] [] [] "yes" "unable to open database file"); reflexivity.
Defined.

(** ** Column order of the batches *)

Section ColumnOrder.

Context {W : Type} (be : backend W).

Lemma In_slice {A} (x : A) (l : list A) (i j : nat) :
  In x (slice l i j) -> In x l.
Proof.
  unfold slice. intros H.
  rewrite <- (take_drop i l). apply in_or_app. right.
  rewrite <- (take_drop (j - i) (drop i l)). apply in_or_app. now left.
Qed.

Lemma Forall2_In_r {A B} (P : A -> B -> Prop) (l : list A) (l' : list B)
    (y : B) :
  Forall2 P l l' -> In y l' -> exists x, In x l /\ P x y.
Proof.
  induction 1 as [| x y' l l' Hxy _ IH]; intros Hin; [destruct Hin |].
  destruct Hin as [-> | Hin].
  - exists x. split; [now left | assumption].
  - destruct (IH Hin) as (x' & Hx' & HP). exists x'. split; [now right | assumption].
Qed.

Lemma py_range_first (n : nat) :
  n <> 0 -> exists l, py_range 0 n batch_size = 0 :: l.
Proof.
  intros Hn. unfold py_range. rewrite Nat.sub_0_r.
  pose proof (range_length_bound batch_size ltac:(unfold batch_size; lia) n)
    as Hb.
  destruct ((n + (batch_size - 1)) / batch_size) as [| k] eqn:Hk.
  - lia.
  - cbn [seq map]. eauto.
Qed.

(** C9 -- in [migrate_table_data], the column names that come with the rows
    read from the source fix one order, and every batch handed to the
    target follows it: the statement of each [executemany] call lists the
    columns, quoted, in that order with as many placeholders, and every
    tuple of its parameters is the conversion of one source row position by
    position, the value at position [k] being converted for the target type
    of the column named at position [k].  A table that has rows gets at
    least one such call. *)
Theorem column_order_aligned (table_name : string) (s : state W)
    (column_names : list string) (rows : list (list pyval))
    (types : list (string * string)) (w1 w2 : W) (r : res unit)
    (s' : state W) :
  rows <> [] ->
  be_sqlite_select be (select_sql table_name) (world s)
    = (Returned (column_names, rows), w1) ->
  be_pg_column_types be (column_types_sql table_name) w1
    = (Returned types, w2) ->
  migrate_table_data be table_name s = (r, s') ->
  exists tr,
    trace s' = trace s ++ tr
    /\ executemany_batches tr <> []
    /\ forall (sql : string) (params : list (list pyval)) (st : status),
         In (EvPgExecutemany sql params st) tr ->
         sql = "INSERT INTO " +:+ quoted table_name +:+ " ("
               +:+ PyStr.join ", " (map quoted column_names)
               +:+ ") VALUES ("
               +:+ PyStr.join ", " (replicate (length column_names) "%s")
               +:+ ")"
         /\ forall converted_row : list pyval,
              In converted_row params ->
              exists row,
                In row rows
                /\ length converted_row
                   = min (length column_names) (length row)
                /\ forall (k : nat) (c : string) (v : pyval),
                     column_names !! k = Some c ->
                     row !! k = Some v ->
                     exists cv,
                       converted_row !! k = Some cv
                       /\ convert_value (be_fromtimestamp_ms be) v
                            (default "text" (dict_of_rows types !! c))
                          = Ok cv.
Proof.
  intros Hne Hsel Hty Hrun.
  destruct (migrate_table_data_exact be _ _ _ _ _ _ _ _ _ Hne Hsel Hty Hrun)
    as (converted & Hconv & Hshape).
  apply res_map_Forall2 in Hconv.
  assert (forall i converted_row,
             In converted_row (slice converted i (i + batch_size)) ->
             exists row,
               In row rows
               /\ length converted_row
                  = min (length column_names) (length row)
               /\ forall (k : nat) (c : string) (v : pyval),
                    column_names !! k = Some c ->
                    row !! k = Some v ->
                    exists cv,
                      converted_row !! k = Some cv
                      /\ convert_value (be_fromtimestamp_ms be) v
                           (default "text" (dict_of_rows types !! c))
                         = Ok cv) as Hrows.
  { intros i converted_row Hin. apply In_slice in Hin.
    destruct (Forall2_In_r _ _ _ _ Hconv Hin) as (row & Hrow & Hc).
    exists row. split; [assumption |].
    now apply convert_row_positions. }
  destruct (py_range_first (length rows)) as [l0 Hl0].
  { destruct rows; [congruence | discriminate]. }
  cbv zeta in Hshape.
  destruct Hshape as [[_ Ht] | (l1 & i & l2 & c & msg & Hl & _ & Ht)];
    eexists; (split; [exact Ht |]); split.
  - rewrite Hl0. cbn. discriminate.
  - intros sql params st Hin. cbn [app] in Hin.
    destruct Hin as [[=] | [[=] | Hin]].
    apply in_app_or in Hin as [Hin | [[=] | []]].
    apply in_map_iff in Hin as (i & [= <- <- <-] & _).
    split; [reflexivity | apply Hrows].
  - cbn [app executemany_batches]. rewrite executemany_batches_app.
    intros H. apply app_eq_nil in H as [_ H]. discriminate.
  - intros sql params st Hin. cbn [app] in Hin.
    destruct Hin as [[=] | [[=] | Hin]].
    apply in_app_or in Hin as [Hin | [[= <- <- <-] | [[=] | []]]].
    + apply in_map_iff in Hin as (j & [= <- <- <-] & _).
      split; [reflexivity | apply Hrows].
    + split; [reflexivity | apply Hrows].
Qed.

End ColumnOrder.

Lemma column_order_witness :
  exists tr,
    trace (migrate_table_data Fixture.users "users" Fixture.start).2
    = trace Fixture.start ++ tr
    /\ executemany_batches tr <> []
    /\ forall (sql : string) (params : list (list pyval)) (st : status),
         In (EvPgExecutemany sql params st) tr ->
         sql = "INSERT INTO " +:+ quoted "users" +:+ " ("
               +:+ PyStr.join ", " (map quoted Fixture.users_columns)
               +:+ ") VALUES ("
               +:+ PyStr.join ", "
                     (replicate (length Fixture.users_columns) "%s")
               +:+ ")"
         /\ forall converted_row : list pyval,
              In converted_row params ->
              exists row,
                In row Fixture.users_rows
                /\ length converted_row
                   = min (length Fixture.users_columns) (length row)
                /\ forall (k : nat) (c : string) (v : pyval),
                     Fixture.users_columns !! k = Some c ->
                     row !! k = Some v ->
                     exists cv,
                       converted_row !! k = Some cv
                       /\ convert_value Clock.utc_fromtimestamp_ms v
                            (default "text"
                               (dict_of_rows Fixture.users_types !! c))
                          = Ok cv.
Proof.
  apply (column_order_aligned Fixture.users "users" Fixture.start
           Fixture.users_columns Fixture.users_rows Fixture.users_types
           [] []
           (migrate_table_data Fixture.users "users" Fixture.start).1
           (migrate_table_data Fixture.users "users" Fixture.start).2).
  - discriminate.
  - reflexivity.
  - reflexivity.
  - vm_compute. reflexivity.
Defined.

(** The one batch of the table [users]: the statement names the columns in
    the order of the source rows and each tuple keeps that order. *)
Example users_batch :
  filter (fun ev => is_executemany ev = true)
    (trace (migrate_table_data Fixture.users "users" Fixture.start).2)
  = [ EvPgExecutemany
        ("INSERT INTO " +:+ dq +:+ "users" +:+ dq +:+ " ("
           +:+ dq +:+ "id" +:+ dq +:+ ", "
           +:+ dq +:+ "active" +:+ dq +:+ ", "
           +:+ dq +:+ "created" +:+ dq +:+ ") VALUES (%s, %s, %s)")
        [ [ VInt 1; VBool true;
            VDatetime (mk_datetime (mk_date 2023 11 14) (mk_time 22 13 20 0)) ];
          [ VInt 2; VBool false;
            VDatetime (mk_datetime (mk_date 2023 11 14) (mk_time 23 13 20 0)) ] ]
        Done ].
Proof. vm_compute. reflexivity. Qed.

(** ** A failure on the source side *)

Section SourceFailure.

Context {W : Type} (be : backend W).

(** C1, as amended -- a source-side failure while a table is described or
    read is fatal: the table is not skipped, the run stops there.  After
    the statement that failed, nothing more is sent to either database (no
    remaining table is described, created or copied and nothing is
    committed), the handler of [main] for the class of the error prints its
    line with the message of the error, which for an [sqlite3.Error] is
    the line [✗ SQLite error: ...], and the process ends with status 1. *)
Theorem source_failure_stops_run (w : W) (before : list event) (sql : string)
    (c : exn_class) (msg : string) (after : list event) :
  (run be w).2 = before ++ EvSqliteExecute sql (Failed c msg) :: after ->
  (run be w).1 = 1%Z
  /\ Forall (fun ev => db_work ev = false) after
  /\ In (EvPrint (error_line c msg)) after
  /\ (c = SqliteError ->
      In (EvPrint (nl +:+ "✗ SQLite error: " +:+ msg)) after).
Proof.
  intros Htr.
  set (p := fun e : event => db_work e && failed e).
  assert (forall tr, steady tr -> Forall (fun e => p e = false) tr) as Hst.
  { intros tr H. eapply Forall_impl; [exact H |].
    intros e He. cbv beta in He. unfold p. rewrite He. apply andb_false_r. }
  assert (forall tr, idle tr -> Forall (fun e => p e = false) tr) as Hid.
  { intros tr H. eapply Forall_impl; [exact H |].
    intros e He. cbv beta in He. unfold p. now rewrite He. }
  assert (forall tr, Forall (fun e => p e = false) tr ->
            tr <> before ++ EvSqliteExecute sql (Failed c msg) :: after)
    as Hno.
  { intros tr H ->. apply Forall_app in H as [_ H].
    apply Forall_cons_1 in H as [H _]. discriminate H. }
  destruct (run_shape be w)
    as [[_ Hr] | [[_ (work & Hr & Hw & _)]
                | [_ (a & ev0 & b & c0 & msg0 & h & Hr & Ha & _ & Hf0 & _
                      & Hb & Hh & _ & _ & _ & _ & Hline)]]];
    rewrite Hr in Htr; cbn [fst snd] in Htr.
  - exfalso. revert Htr. apply Hno, Hst.
    apply Forall_app. split; [apply steady_banner | repeat constructor].
  - exfalso. revert Htr. apply Hno, Hst.
    apply Forall_app. split; [apply steady_banner |].
    apply Forall_app. split; [exact Hw |].
    apply Forall_app. split; [repeat constructor | apply steady_closes].
  - assert (idle h) as Hih.
    { eapply Forall_impl; [exact Hh |]. intros [] [? | ?]; easy. }
    rewrite app_assoc in Htr.
    apply (split_unique p) in Htr as (_ & <- & ->).
    + injection Hf0 as <- <-. rewrite Hr. cbn [fst snd].
      assert (In (EvPrint (error_line c msg))
                (b ++ h
                 ++ closes (mk_locals (existsb is_sqlite_open a)
                                      (existsb is_sqlite_open a)
                                      (existsb is_pg_open a)
                                      (existsb is_pg_open a)))) as Hin.
      { apply in_or_app. right. apply in_or_app. now left. }
      repeat split.
      * apply Forall_app. split; [now apply prints_idle |].
        apply Forall_app. split; [exact Hih | apply idle_closes].
      * exact Hin.
      * intros ->. exact Hin.
    + apply Hst, Forall_app. split; [apply steady_banner | exact Ha].
    + apply Hid, Forall_app. split; [now apply prints_idle |].
      apply Forall_app. split; [exact Hih | apply idle_closes].
    + reflexivity.
Qed.

End SourceFailure.

Lemma source_failure_stops_run_witness :
  (run Fixture.broken_first []).1 = 1%Z
  /\ Forall (fun ev => db_work ev = false)
            (drop 20 (run Fixture.broken_first []).2)
  /\ In (EvPrint (error_line SqliteError "database disk image is malformed"))
        (drop 20 (run Fixture.broken_first []).2)
  /\ (SqliteError = SqliteError ->
      In (EvPrint (nl +:+ "✗ SQLite error: "
                      +:+ "database disk image is malformed"))
         (drop 20 (run Fixture.broken_first []).2)).
Proof.
  apply (source_failure_stops_run Fixture.broken_first []
           (take 19 (run Fixture.broken_first []).2)
           (table_info_sql "a") SqliteError
           "database disk image is malformed").
  vm_compute. reflexivity.
Defined.

(** What is left of that run after the statement that failed: the report of
    the handler and the closing of what had been opened. *)
Example broken_first_after_failure :
  drop 20 (run Fixture.broken_first []).2
  = EvPrint (nl +:+ "✗ SQLite error: database disk image is malformed")
    :: closes (mk_locals true true true true).
Proof. vm_compute. reflexivity. Qed.
